(** * DrQA training pipeline: batching, prediction, checkpoints, main loop

    A shallow embedding of [src/train.py] and [src/drqa/model.py].

    Python values are modelled as follows.
    - [int] is [Z]; list lengths and positions used as indices are [nat].
    - [float] is [float] below: a rational or NaN.  The conversion to
      single precision that [torch.Tensor] performs on a list of floats is
      the parameter [single]; other rounding of IEEE arithmetic is not
      modelled.
    - The entries of a [LongTensor] are 64-bit integers: building one
      from an id outside that range raises.  The labels are yes or no
      (0 or 1) wherever a statement depends on [torch.FloatTensor]
      accepting them.
    - A raised exception is the [Raise] constructor of [result].
    - A host has CUDA or not, for the whole run: [torch_cuda_random] of
      the world is [None] when it has not, and [pin_memory] and
      [torch.cuda.current_device()] then raise.
    - The neural network, its optimizer and the loss meter are external to
      the two source files; they are the fields of the class [Framework].
    - The state of [random] is a tape: one entry for each call of
      [randbelow] still to come. *)

From Stdlib Require Import QArith Qabs Qround.
From stdpp Require Import base list gmap strings pretty sorting.

Open Scope string_scope.
Open Scope list_scope.
Open Scope Z_scope.
Open Scope nat_scope.

(** ** Python prelude *)

Module Py.

Inductive exn : Type :=
| ValueError (msg : string)
| IndexError (msg : string)
| KeyError (key : string)
| TypeError (msg : string)
| NameError (name : string)
| AttributeError (msg : string)
| AssertionError (msg : string)
| RuntimeError (msg : string)
| ZeroDivisionError
| FileNotFoundError (path : string)
| OSError (msg : string)
| SystemExit (code : Z).

Inductive result (A : Type) : Type :=
| Ok (a : A)
| Raise (e : exn).
Global Arguments Ok {A} a.
Global Arguments Raise {A} e.

Definition bind {A B} (m : result A) (k : A → result B) : result B :=
  match m with
  | Ok a => k a
  | Raise e => Raise e
  end.

Definition is_ok {A} (m : result A) : bool :=
  match m with Ok _ => true | Raise _ => false end.

(** [float]: a Python or numpy float. *)
Inductive float : Type :=
| NaN
| Fin (q : Q).

Definition fsub (a b : float) : float :=
  match a, b with
  | Fin x, Fin y => Fin (x - y)
  | _, _ => NaN
  end.

Definition fabs (a : float) : float :=
  match a with
  | Fin x => Fin (Qabs x)
  | NaN => NaN
  end.

(** [a > b]; every comparison with NaN is [False]. *)
Definition fgt (a b : float) : bool :=
  match a, b with
  | Fin x, Fin y => if Qlt_le_dec y x then true else false
  | _, _ => false
  end.

(** Python truthiness of a float: zero is falsy, NaN is truthy. *)
Definition ftruthy (a : float) : bool :=
  match a with
  | Fin x => negb (Qeq_bool x 0)
  | NaN => true
  end.

(** [range(start, stop, step)] *)
Definition range_len (start stop step : Z) : Z :=
  if (0 <? step)%Z
  then Z.max 0 ((stop - start + step - 1) / step)
  else Z.max 0 ((start - stop - step - 1) / (- step)).

Definition range (start stop step : Z) : result (list Z) :=
  if (step =? 0)%Z then Raise (ValueError "range() arg 3 must not be zero")
  else Ok ((λ k, start + Z.of_nat k * step)%Z
             <$> seq 0 (Z.to_nat (range_len start stop step))).

(** [l[lo:hi]] with Python's treatment of negative and overlong bounds. *)
Definition clamp (n i : Z) : Z :=
  if (i <? 0)%Z then Z.max 0 (i + n) else Z.min i n.

Definition slice {A} (l : list A) (lo hi : Z) : list A :=
  let n := Z.of_nat (length l) in
  let lo' := clamp n lo in
  let hi' := clamp n hi in
  take (Z.to_nat (hi' - lo')) (drop (Z.to_nat lo') l).

(** [sorted(l, key=key)]: Python's sort is stable, and the stable
    ascending arrangement of a list is unique, so insertion from the
    right computes it. *)
Fixpoint insert_by {A} (key : A → nat) (x : A) (l : list A) : list A :=
  match l with
  | [] => [x]
  | y :: l' => if decide (key x ≤ key y) then x :: l else y :: insert_by key x l'
  end.

Definition sorted {A} (key : A → nat) (l : list A) : list A :=
  foldr (insert_by key) [] l.

(** Ascending order of the sort key. *)
Definition key_le {A} (key : A → nat) (x y : A) : Prop := key x ≤ key y.

(** The state of the [random] module.  The generator itself is external;
    all that matters here is that [randbelow(n)] returns some number below
    [n] and moves the state on.  The tape holds one entry per call still to
    come, and the call returns the entry's residue modulo [n]; every
    sequence of results of the real generator is the reading of some
    tape.  An exhausted tape answers 0. *)
Record Rng : Type := MkRng { tape : list nat }.

Definition randbelow (n : nat) (g : Rng) : nat * Rng :=
  match tape g with
  | [] => (0, g)
  | r :: t => (r mod n, MkRng t)
  end.

(** [x[i], x[j] = x[j], x[i]] *)
Definition swap {A} (l : list A) (i j : nat) : list A :=
  match l !! i, l !! j with
  | Some xi, Some xj => <[j:=xi]> (<[i:=xj]> l)
  | _, _ => l
  end.

(** [random.shuffle(x)]:
    [for i in reversed(range(1, len(x))): j = randbelow(i + 1); swap] *)
Fixpoint shuffle_loop {A} (i : nat) (l : list A) (g : Rng) : list A * Rng :=
  match i with
  | 0 => (l, g)
  | S i' =>
      let '(j, g') := randbelow (S i) g in
      shuffle_loop i' (swap l i j) g'
  end.

Definition shuffle {A} (l : list A) (g : Rng) : list A * Rng :=
  shuffle_loop (length l - 1) l g.

End Py.

Export Py.

Notation "'let*' x ':=' m 'in' k" := (Py.bind m (λ x, k))
  (at level 10, x pattern, m at level 100, k at level 200, only parsing).

(** ** Tensors

    A tensor is the nested list of its entries.  Writes outside the shape
    raise, as they do in torch. *)

Module Torch.

Abbreviation tensor1 A := (list A) (only parsing).
Abbreviation tensor2 A := (list (list A)) (only parsing).
Abbreviation tensor3 A := (list (list (list A))) (only parsing).

(** [torch.Tensor(n, m).fill_(v)] *)
Definition full2 {A} (n m : nat) (v : A) : tensor2 A :=
  replicate n (replicate m v).

(** [torch.Tensor(n, m, k).fill_(v)] *)
Definition full3 {A} (n m k : nat) (v : A) : tensor3 A :=
  replicate n (replicate m (replicate k v)).

Definition get2 {A} (T : tensor2 A) (i j : nat) : option A :=
  row ← T !! i; row !! j.

Definition get3 {A} (T : tensor3 A) (i j k : nat) : option A :=
  M ← T !! i; row ← M !! j; row !! k.

(** [T[i, :len(doc)] = torch.LongTensor(doc)] *)
Definition set_row_prefix {A} (T : tensor2 A) (i : nat) (doc : list A)
  : result (tensor2 A) :=
  match T !! i with
  | None => Raise (IndexError "index out of range in dimension 0")
  | Some row =>
      if decide (length doc ≤ length row)
      then Ok (<[i := doc ++ drop (length doc) row]> T)
      else Raise (RuntimeError "shape mismatch in slice assignment")
  end.

(** [T[i, j, :] = v] for a one-dimensional tensor [v]; a one-element [v]
    is broadcast. *)
Definition set_vec {A} (T : tensor3 A) (i j : nat) (v : list A)
  : result (tensor3 A) :=
  match T !! i with
  | None => Raise (IndexError "index out of range in dimension 0")
  | Some M =>
      match M !! j with
      | None => Raise (IndexError "index out of range in dimension 1")
      | Some r =>
          if decide (length v = length r)
          then Ok (<[i := <[j := v]> M]> T)
          else match v with
               | [x] => Ok (<[i := <[j := replicate (length r) x]> M]> T)
               | _ => Raise (RuntimeError "shape mismatch in slice assignment")
               end
      end
  end.

(** [T[i, j, k] = x] for non-negative [i], [j], [k] *)
Definition set3 {A} (T : tensor3 A) (i j k : nat) (x : A)
  : result (tensor3 A) :=
  match T !! i with
  | None => Raise (IndexError "index out of range in dimension 0")
  | Some M =>
      match M !! j with
      | None => Raise (IndexError "index out of range in dimension 1")
      | Some r =>
          if decide (k < length r)
          then Ok (<[i := <[j := <[k := x]> r]> M]> T)
          else Raise (IndexError "index out of range in dimension 2")
      end
  end.

(** Two tensors with entries at the same positions. *)
Definition same_shape {A} (T T' : tensor3 A) : Prop :=
  ∀ i j k, is_Some (get3 T' i j k) ↔ is_Some (get3 T i j k).

(** [T] has the shape [n] by [m] by [k]. *)
Definition shape3 {A} (n m k : nat) (T : tensor3 A) : Prop :=
  length T = n ∧
  Forall (λ M, length M = m ∧ Forall (λ r : list A, length r = k) M) T.

(** [torch.eq(T, v)] *)
Definition eq2 (T : tensor2 Z) (v : Z) : tensor2 bool :=
  (λ row : list Z, (λ x, bool_decide (x = v)) <$> row) <$> T.

(** The entries of a [LongTensor] are 64-bit integers. *)
Definition int64 (z : Z) : Prop := (- 2 ^ 63 ≤ z < 2 ^ 63)%Z.

#[global] Instance int64_dec (z : Z) : Decision (int64 z).
Proof. unfold int64. apply _. Defined.

(** [torch.LongTensor(doc)]: a Python integer that does not fit raises. *)
Definition long_tensor (doc : list Z) : result (tensor1 Z) :=
  if decide (Forall int64 doc) then Ok doc
  else Raise (RuntimeError "Overflow when unpacking long").

(** [torch.LongTensor(n, m).fill_(v)] *)
Definition full2_long (n m : nat) (v : Z) : result (tensor2 Z) :=
  if decide (int64 v) then Ok (full2 n m v)
  else Raise (RuntimeError "value cannot be converted to type int64_t without overflow").

(** [torch.Tensor(v)] on a list of Python floats holds its entries in
    single precision.  The conversion is torch's: [single] is what it
    returns for one entry. *)
Class Single := { single : float → float }.

Definition tensor `{!Single} (v : list float) : tensor1 float := single <$> v.

(** [T.pin_memory()] copies [T] into page-locked memory, which only a
    host with CUDA can allocate.  The contents are the same. *)
Definition pin_memory {A} (cuda_available : bool) (T : A) : result A :=
  if cuda_available then Ok T
  else Raise (RuntimeError "Cannot access accelerator device when none is available.").

End Torch.

(** [for i, x in enumerate(l): s = body(i, x, s)], stopping at the first
    exception; [i0] is the index of the head of [l]. *)
Fixpoint for_enumerate {A St} (body : nat → A → St → result St)
    (i0 : nat) (l : list A) (s : St) : result St :=
  match l with
  | [] => Ok s
  | x :: l' => let* s' := body i0 x s in for_enumerate body (S i0) l' s'
  end.

(** ** [train.py]: batching *)

(** The pretrained tokenizer is external; only its pad id is used. *)
Class BertTokenizer := { pad_token_id : Z }.

Module BatchGen.
Import Torch.

(** One preprocessed example, [x[0] .. x[8]].  Training examples carry the
    label [x[8]]; dev examples are stripped of it by [load_data].
    Tag and entity ids are vocabulary indices. *)
Record Example : Type := {
  ex_id : string;
  ex_context : list Z;
  ex_features : list (list float);
  ex_tags : list nat;
  ex_ents : list nat;
  ex_question : list Z;
  ex_text : string;
  ex_span : list (Z * Z);
  ex_answer : option Z
}.

(** The class attributes [BatchGen.pos_size] and [BatchGen.ner_size]. *)
Record ClassAttrs : Type := {
  pos_size : option nat;
  ner_size : option nat
}.

Record t : Type := {
  batch_size : Z;
  eval : bool;
  gpu : bool;
  bert : bool;
  pad_token : Z;
  data : list (list Example)
}.

(** The tuple a generator yields. *)
Record Batch : Type := {
  context_id : tensor2 Z;
  context_feature : option (tensor3 float);
  context_tag : option (tensor3 float);
  context_ent : option (tensor3 float);
  context_mask : tensor2 bool;
  question_id : tensor2 Z;
  question_mask : tensor2 bool;
  text : list string;
  span : list (list (Z * Z));
  answ : option (tensor1 float)
}.

(** [x[1]] has this length; the sort key is [len(x[1])]. *)
Definition key (x : Example) : nat := length (ex_context x).

(** [[data[i:i + batch_size] for i in range(0, len(data), batch_size)]] *)
Definition chunk {A} (data : list A) (batch_size : Z) : result (list (list A)) :=
  let* starts := range 0 (Z.of_nat (length data)) batch_size in
  Ok ((λ i, slice data i (i + batch_size)%Z) <$> starts).

Section constructor.
Context `{!BertTokenizer}.

(** [BatchGen.__init__]; the module-level [random] state is threaded. *)
Definition __init__ (data : list Example) (batch_size : Z)
    (gpu evaluation bert : bool) (g : Rng) : result (t * Rng) :=
  let pad_token := if bert then pad_token_id else 0%Z in
  let data := sorted key data in
  let* data := chunk data batch_size in
  let '(data, g) := if negb evaluation then shuffle data g else (data, g) in
  Ok ({| batch_size := batch_size; eval := evaluation; gpu := gpu;
         bert := bert; pad_token := pad_token; data := data |}, g).
End constructor.

(** [BatchGen.__len__] *)
Definition __len__ (self : t) : nat := length (data self).

(** [len(list(zip( *batch)))]: [zip] stops at the shortest example. *)
Definition n_fields (x : Example) : nat :=
  match ex_answer x with Some _ => 9 | None => 8 end.

Definition zip_len (batch : list Example) : nat :=
  match batch with
  | [] => 0
  | x :: rest => foldr (λ y m, n_fields y `min` m) (n_fields x) rest
  end.

(** [max(len(x) for x in xs)] *)
Definition max_len {A} (xs : list (list A)) : result nat :=
  match xs with
  | [] => Raise (ValueError "max() arg is an empty sequence")
  | _ => Ok (max_list (length <$> xs))
  end.

Definition assert (b : bool) (msg : string) : result unit :=
  if b then Ok () else Raise (AssertionError msg).

Definition size_attr (name : string) (a : option nat) : result nat :=
  match a with
  | Some n => Ok n
  | None => Raise (TypeError name)
  end.

(** The id tensor of lines 283-286 and 310-313. *)
Definition pad_ids (pad : Z) (docs : list (list Z)) : result (tensor2 Z) :=
  let* width := max_len docs in
  let* T0 := full2_long (length docs) width pad in
  for_enumerate
    (λ i doc T, let* ids := long_tensor doc in set_row_prefix T i ids)
    0 docs T0.

(** The one-hot tensor of lines 296-299 and 301-304. *)
Definition one_hot (rows width depth : nat) (ids : list (list nat))
  : result (tensor3 float) :=
  for_enumerate
    (λ i doc T, for_enumerate (λ j tag T, set3 T i j tag (Fin 1)) 0 doc T)
    0 ids (full3 rows width depth (Fin 0)).

Section iteration.
Context `{S32 : !Single}.

(** The feature tensor of lines 289-294. *)
Definition feature_tensor (rows width : nat) (feats : list (list (list float)))
  : result (tensor3 float) :=
  let* feature_len :=
    match feats with
    | (f :: _) :: _ => Ok (length f)
    | _ => Raise (IndexError "list index out of range")
    end in
  for_enumerate
    (λ i doc T,
       for_enumerate (λ j feature T, set_vec T i j (tensor feature)) 0 doc T)
    0 feats (full3 rows width feature_len (Fin 0)).

(** The answer column [batch[8]] of a training batch. *)
Definition answers (batch : list Example) : list float :=
  omap (λ x, (λ a, Fin (inject_Z a)) <$> ex_answer x) batch.

(** Lines 276-320: the tensors and columns of one batch. *)
Definition tensors_of (cls : ClassAttrs) (self : t) (batch : list Example)
  : result Batch :=
  let batch_size := length batch in
  let* _ :=
    if eval self
    then assert (bool_decide (zip_len batch = 8)) "Eval expected"
    else assert (bool_decide (zip_len batch = 9)) "Train expected" in
  let* context_len := max_len (ex_context <$> batch) in
  let* context_id := pad_ids (pad_token self) (ex_context <$> batch) in
  let* (context_feature, context_tag, context_ent) :=
    if negb (bert self)
    then
      let* cf := feature_tensor batch_size context_len (ex_features <$> batch) in
      let* p := size_attr "pos_size" (pos_size cls) in
      let* ct := one_hot batch_size context_len p (ex_tags <$> batch) in
      let* n := size_attr "ner_size" (ner_size cls) in
      let* ce := one_hot batch_size context_len n (ex_ents <$> batch) in
      Ok (Some cf, Some ct, Some ce)
    else Ok (None, None, None) in
  let* question_id := pad_ids (pad_token self) (ex_question <$> batch) in
  let context_mask := eq2 context_id (pad_token self) in
  let question_mask := eq2 question_id (pad_token self) in
  let text := ex_text <$> batch in
  let span := ex_span <$> batch in
  let answ := if negb (eval self) then Some (answers batch) else None in
  Ok {| context_id := context_id; context_feature := context_feature;
        context_tag := context_tag; context_ent := context_ent;
        context_mask := context_mask; question_id := question_id;
        question_mask := question_mask; text := text; span := span;
        answ := answ |}.

(** Lines 321-333: with [gpu] set, every tensor is pinned. *)
Definition pin_tensors (cuda_available : bool) (self : t) (b : Batch)
  : result Batch :=
  if gpu self then
    let* context_id := pin_memory cuda_available (context_id b) in
    let* (context_feature, context_tag, context_ent) :=
      if negb (bert self)
      then
        let* cf := pin_memory cuda_available (context_feature b) in
        let* ct := pin_memory cuda_available (context_tag b) in
        let* ce := pin_memory cuda_available (context_ent b) in
        Ok (cf, ct, ce)
      else Ok (None, None, None) in
    let* context_mask := pin_memory cuda_available (context_mask b) in
    let* question_id := pin_memory cuda_available (question_id b) in
    let* question_mask := pin_memory cuda_available (question_mask b) in
    Ok {| context_id := context_id; context_feature := context_feature;
          context_tag := context_tag; context_ent := context_ent;
          context_mask := context_mask; question_id := question_id;
          question_mask := question_mask; text := text b; span := span b;
          answ := answ b |}
  else Ok b.

(** The body of the loop of [BatchGen.__iter__] for one batch, lines
    276-339, on a host where CUDA is available or not. *)
Definition collate (cuda_available : bool) (cls : ClassAttrs) (self : t)
    (batch : list Example) : result Batch :=
  let* b := tensors_of cls self batch in
  pin_tensors cuda_available self b.

(** A batch with the structure the loop body expects.  It is not empty
    and its examples have the number of fields the mode expects.  Outside
    BERT mode the two size attributes are set, no document is empty, and
    every example has one feature vector of length [F], one tag below [P]
    and one entity id below [N] for each token of its document. *)
Definition aligned (P N F : nat) (x : Example) : Prop :=
  ex_context x ≠ [] ∧
  length (ex_features x) = length (ex_context x) ∧
  Forall (λ v, length v = F) (ex_features x) ∧
  length (ex_tags x) = length (ex_context x) ∧
  Forall (λ k, k < P) (ex_tags x) ∧
  length (ex_ents x) = length (ex_context x) ∧
  Forall (λ k, k < N) (ex_ents x).

Definition well_formed (cls : ClassAttrs) (self : t) (batch : list Example)
  : Prop :=
  batch ≠ [] ∧
  zip_len batch = (if eval self then 8 else 9) ∧
  (bert self = false →
   ∃ P N F, pos_size cls = Some P ∧ ner_size cls = Some N ∧
            Forall (aligned P N F) batch).

(** [BatchGen.__iter__]: the batches in order, each computed when the
    consumer asks for it. *)
Definition __iter__ (cuda_available : bool) (cls : ClassAttrs) (self : t)
  : list (result Batch) :=
  collate cuda_available cls self <$> data self.

End iteration.

(** The token ids of an example fit a [LongTensor]. *)
Definition int64_ids (x : Example) : Prop :=
  Forall int64 (ex_context x) ∧ Forall int64 (ex_question x).

(** The label of an example, when it has one, is 0 or 1: the answers are
    yes or no. *)
Definition yes_no (x : Example) : Prop :=
  ex_answer x = None ∨ ex_answer x = Some 0%Z ∨ ex_answer x = Some 1%Z.

End BatchGen.

(** ** Program state shared by [drqa/model.py] and [train.py] *)

(** Values stored in the option dictionary [opt]. *)
Inductive PyVal : Type :=
| VNone
| VBool (b : bool)
| VInt (z : Z)
| VFloat (f : float)
| VStr (s : string)
| VObject (name : string).

Definition truthy (v : PyVal) : bool :=
  match v with
  | VNone => false
  | VBool b => b
  | VInt z => negb (z =? 0)%Z
  | VFloat f => ftruthy f
  | VStr s => negb (bool_decide (s = EmptyString))
  | VObject _ => true
  end.

Abbreviation Config := (gmap string PyVal).

(** [d[k]] on a dictionary *)
Definition getitem (d : Config) (k : string) : result PyVal :=
  match d !! k with
  | Some v => Ok v
  | None => Raise (KeyError k)
  end.

(** [v[k]] on an arbitrary value: only dictionaries, which [PyVal] does not
    contain, support it. *)
Definition subscript (v : PyVal) (k : string) : result PyVal :=
  Raise (TypeError "object is not subscriptable").

(** A positional argument of the network: one of the first seven entries
    of a batch. *)
Inductive Input : Type :=
| Ids (T : list (list Z))
| Floats (T : list (list (list float)))
| Mask (T : list (list bool)).

(** What the two source files use from torch and from the rest of the
    [drqa] package.  All of it is external to them. *)
Class Framework : Type := {
  Weights : Type;
  OptState : Type;
  Meter : Type;
  TorchRng : Type;
  Embedding : Type;
  (** [RnnDocReader(opt, embedding)], which may raise and which draws
      the initial weights from torch's generator, then [load_state_dict]
      of the saved weights whose keys the new network has *)
  build_network : Config → option Embedding → option Weights → TorchRng
                  → result Weights * TorchRng;
  (** [optim.SGD(...)] / [optim.Adamax(...)], then [load_state_dict] *)
  build_sgd : Config → Weights → option OptState → OptState;
  build_adamax : Config → Weights → option OptState → OptState;
  (** [param_group['lr'] *= lr_decay] for every parameter group *)
  scale_lr : float → OptState → OptState;
  (** [AverageMeter()], [.load], [.update] *)
  new_meter : Meter;
  meter_update : Meter → float → Meter;
  (** forward pass in training mode, loss, backward pass, clipping and
      optimizer step: the new weights and optimizer state, the loss, and
      torch's generators, which only the forward pass draws from *)
  train_step : Config → Weights → OptState → list (option Input) → list float
               → TorchRng → option TorchRng
               → Weights * OptState * float * TorchRng * option TorchRng;
  (** forward pass in evaluation mode under [torch.no_grad()]: one score
      per example *)
  forward : Weights → list (option Input) → list float
}.

Section state.
Context `{!Framework}.

(** The value of the ['state_dict'] key of a checkpoint. *)
Record StateDict : Type := {
  sd_network : Weights;
  sd_optimizer : OptState;
  sd_updates : Z;
  sd_loss : Meter
}.

(** The dictionary [params] that [DocReaderModel.save] serializes. *)
Record Checkpoint : Type := {
  ck_state_dict : StateDict;
  ck_config : Config;
  ck_epoch : Z;
  ck_accuracy : float;
  ck_best_eval : float;
  ck_random_state : Rng;
  ck_torch_state : TorchRng;
  ck_torch_cuda_state : TorchRng
}.

(** A file is a complete pickle of a checkpoint, or what an interrupted
    write left behind. *)
Inductive File : Type :=
| Pickle (c : Checkpoint)
| Truncated.

(** What the environment does to the next [torch.save]. *)
Inductive SaveOutcome : Type :=
| Saved
| FailsBeforeOpen (e : exn)
| FailsAfterOpen (e : exn).

Inductive Level : Type := DEBUG | INFO | WARNING | ERROR.

(** A log record: logger name, level, message template. *)
Record LogRecord : Type := {
  lr_logger : string;
  lr_level : Level;
  lr_msg : string
}.

(** Everything outside the Python heap that the program reads or writes.
    [torch_cuda_random] is [None] when CUDA cannot be initialised. *)
Record World : Type := {
  py_random : Rng;
  torch_random : TorchRng;
  torch_cuda_random : option TorchRng;
  fs : gmap string File;
  io : list SaveOutcome;
  log : list LogRecord
}.

Definition set_py_random (g : Rng) (w : World) : World :=
  {| py_random := g; torch_random := torch_random w;
     torch_cuda_random := torch_cuda_random w; fs := fs w; io := io w;
     log := log w |}.

Definition set_torch_random (s : TorchRng) (c : option TorchRng) (w : World)
  : World :=
  {| py_random := py_random w; torch_random := s; torch_cuda_random := c;
     fs := fs w; io := io w; log := log w |}.

Definition set_fs (f : gmap string File) (w : World) : World :=
  {| py_random := py_random w; torch_random := torch_random w;
     torch_cuda_random := torch_cuda_random w; fs := f; io := io w;
     log := log w |}.

Definition set_io (o : list SaveOutcome) (w : World) : World :=
  {| py_random := py_random w; torch_random := torch_random w;
     torch_cuda_random := torch_cuda_random w; fs := fs w; io := o;
     log := log w |}.

Definition add_log (r : LogRecord) (w : World) : World :=
  {| py_random := py_random w; torch_random := torch_random w;
     torch_cuda_random := torch_cuda_random w; fs := fs w; io := io w;
     log := log w ++ [r] |}.

(** Computations that may raise and that read and write the world. *)
Definition M (A : Type) : Type := World → result A * World.

Definition ret {A} (a : A) : M A := λ w, (Ok a, w).

Definition raise {A} (e : exn) : M A := λ w, (Raise e, w).

Definition lift {A} (r : result A) : M A := λ w, (r, w).

Definition mbindM {A B} (m : M A) (k : A → M B) : M B := λ w,
  match m w with
  | (Ok a, w') => k a w'
  | (Raise e, w') => (Raise e, w')
  end.

(** [try: body except BaseException: handler] *)
Definition try_except {A} (body : M A) (handler : exn → M A) : M A := λ w,
  match body w with
  | (Ok a, w') => (Ok a, w')
  | (Raise e, w') => handler e w'
  end.

Definition emit (logger : string) (lvl : Level) (msg : string) : M unit :=
  λ w, (Ok (), add_log {| lr_logger := logger; lr_level := lvl; lr_msg := msg |} w).

(** [torch.save(obj, filename)]: the file is opened for writing, which
    empties it, and the pickle is written into it. *)
Definition torch_save (obj : Checkpoint) (filename : string) : M unit := λ w,
  match io w with
  | [] => (Ok (), set_fs (<[filename := Pickle obj]> (fs w)) w)
  | Saved :: o => (Ok (), set_io o (set_fs (<[filename := Pickle obj]> (fs w)) w))
  | FailsBeforeOpen e :: o => (Raise e, set_io o w)
  | FailsAfterOpen e :: o =>
      (Raise e, set_io o (set_fs (<[filename := Truncated]> (fs w)) w))
  end.

(** [torch.load(filename)] *)
Definition torch_load (filename : string) : M Checkpoint := λ w,
  match fs w !! filename with
  | Some (Pickle c) => (Ok c, w)
  | Some Truncated => (Raise (RuntimeError "unreadable checkpoint"), w)
  | None => (Raise (FileNotFoundError filename), w)
  end.

(** [shutil.copyfile(src, dst)] *)
Definition copyfile (src dst : string) : M unit := λ w,
  match fs w !! src with
  | Some f => (Ok (), set_fs (<[dst := f]> (fs w)) w)
  | None => (Raise (FileNotFoundError src), w)
  end.

(** CUDA can be initialised on this host. *)
Definition cuda_available (w : World) : bool :=
  bool_decide (is_Some (torch_cuda_random w)).

(** [torch.cuda.current_device()] *)
Definition cuda_current_device : M unit := λ w,
  if cuda_available w then (Ok (), w)
  else (Raise (RuntimeError "CUDA is not available"), w).

(** [torch.cuda.get_rng_state()] *)
Definition cuda_get_rng_state : M TorchRng := λ w,
  match torch_cuda_random w with
  | Some s => (Ok s, w)
  | None => (Raise (RuntimeError "CUDA is not available"), w)
  end.

(** [for x in l: s = body(x, s)] in [M] *)
Fixpoint for_each {A St} (body : A → St → M St) (l : list A) (s : St) : M St :=
  match l with
  | [] => ret s
  | x :: l' => mbindM (body x s) (λ s', for_each body l' s')
  end.

End state.

Notation "'let!' x ':=' m 'in' k" := (mbindM m (λ x, k))
  (at level 10, x pattern, m at level 100, k at level 200, only parsing).

(** ** [drqa/model.py] *)

Module DocReaderModel.
Import BatchGen.

(** Name resolution.  A name used in a function body is looked up among
    the function's locals, then among the names bound at module level,
    then among the builtins; if it is nowhere, [NameError] is raised.

    [module_globals] are the names [drqa/model.py] binds at module level
    (its imports on lines 6-15, [logger] and the class), [builtins] the
    builtins it uses, and [predict_locals] the names local to [predict]
    (lines 99-119): its parameters, the nested function, the variables it
    assigns, and the variables of its two comprehensions. *)
Definition module_globals : list string :=
  ["random"; "torch"; "optim"; "F"; "np"; "logging"; "Variable";
   "AverageMeter"; "RnnDocReader"; "logger"; "DocReaderModel"].

Definition builtins : list string :=
  ["object"; "set"; "list"; "round"; "RuntimeError"; "BaseException"].

Definition predict_locals : list string :=
  ["self"; "ex"; "not_none"; "inputs"; "scores"; "predictions"; "e"; "score"].

Definition load_name (locals : list string) (name : string) : result PyVal :=
  if bool_decide (name ∈ locals ++ module_globals ++ builtins)
  then Ok (VObject name)
  else Raise (NameError name).

(** [ex[:7]] *)
Definition inputs_of (ex : Batch) : list (option Input) :=
  [ Some (Ids (context_id ex));
    Floats <$> context_feature ex;
    Floats <$> context_tag ex;
    Floats <$> context_ent ex;
    Some (Mask (context_mask ex));
    Some (Ids (question_id ex));
    Some (Mask (question_mask ex)) ].

(** [round(x)] on a float: to the nearest integer, ties to even. *)
Definition round (x : float) : result Z :=
  match x with
  | NaN => Raise (ValueError "cannot convert float NaN to integer")
  | Fin q =>
      let f := Qfloor q in
      let r := (q - inject_Z f)%Q in
      Ok (match (r ?= 1 # 2)%Q with
          | Lt => f
          | Gt => (f + 1)%Z
          | Eq => if Z.even f then f else (f + 1)%Z
          end)
  end.

(** [[f(x) for x in l]], stopping at the first exception *)
Fixpoint comprehension {A B} (f : A → result B) (l : list A) : result (list B) :=
  match l with
  | [] => Ok []
  | x :: l' =>
      let* y := f x in
      let* ys := comprehension f l' in
      Ok (y :: ys)
  end.

Section model.
Context `{!Framework}.

Record t : Type := {
  opt : Config;
  updates : Z;
  train_loss : Meter;
  network : Weights;
  training : bool;
  optimizer : OptState
}.

Definition set_training (b : bool) (self : t) : t :=
  {| opt := opt self; updates := updates self; train_loss := train_loss self;
     network := network self; training := b; optimizer := optimizer self |}.

(** [DocReaderModel.build_optimizer]: the options each constructor is
    called with are looked up first. *)
Definition build_optimizer (opt : Config) (network : Weights)
    (opt_state_dict : option OptState) : result OptState :=
  let* kind := getitem opt "optimizer" in
  match kind with
  | VStr "sgd" =>
      let* _ := getitem opt "learning_rate" in
      let* _ := getitem opt "momentum" in
      let* _ := getitem opt "weight_decay" in
      Ok (build_sgd opt network opt_state_dict)
  | VStr "adamax" =>
      let* _ := getitem opt "weight_decay" in
      Ok (build_adamax opt network opt_state_dict)
  | _ => Raise (RuntimeError "Unsupported optimizer")
  end.

(** [DocReaderModel.__init__] *)
Definition __init__ (opt : Config) (embedding : option Embedding)
    (state_dict : option StateDict) : M t :=
  let! cuda := lift (getitem opt "cuda") in
  let! _ := if truthy cuda then cuda_current_device else ret () in
  let updates := from_option sd_updates 0%Z state_dict in
  let train_loss := from_option sd_loss new_meter state_dict in
  let! network :=
    (λ w, let '(r, s) := build_network opt embedding (sd_network <$> state_dict)
                           (torch_random w) in
          (r, set_torch_random s (torch_cuda_random w) w)) in
  let! optimizer :=
    lift (build_optimizer opt network (sd_optimizer <$> state_dict)) in
  ret {| opt := opt; updates := updates; train_loss := train_loss;
         network := network; training := true; optimizer := optimizer |}.

(** [DocReaderModel.update].  The forward and the backward pass (lines
    80-88) come before [self.opt['grad_clipping']] is looked up on line
    93: when the key is missing the loss meter and torch's generators are
    as the passes left them, no parameter has moved and the counter has
    not been incremented. *)
Definition update (self : t) (ex : Batch) (w : World)
  : result unit * t * World :=
  let self := set_training true self in
  let inputs := inputs_of ex in
  match answ ex with
  | None =>
      (Raise (AttributeError "'NoneType' object has no attribute 'to'"),
       self, w)
  | Some target =>
      let '(net, os, loss, s, c) :=
        train_step (opt self) (network self) (optimizer self) inputs target
          (torch_random w) (torch_cuda_random w) in
      match getitem (opt self) "grad_clipping" with
      | Raise e =>
          (Raise e,
           {| opt := opt self; updates := updates self;
              train_loss := meter_update (train_loss self) loss;
              network := network self; training := true;
              optimizer := optimizer self |},
           set_torch_random s c w)
      | Ok _ =>
          (Ok (),
           {| opt := opt self; updates := (updates self + 1)%Z;
              train_loss := meter_update (train_loss self) loss;
              network := net; training := true; optimizer := os |},
           set_torch_random s c w)
      end
  end.

(** [DocReaderModel.predict].  On line 110 the second argument of
    [not_none] is [opt['cuda']], not [self.opt['cuda']]: the name [opt]
    is resolved like any other. *)
Definition predict (self : t) (ex : Batch)
  : result (list Z) * t :=
  let self := set_training false self in
  (let* inputs :=
     comprehension
       (λ e, let* o := load_name predict_locals "opt" in
             let* gpu := subscript o "cuda" in
             Ok e)
       (inputs_of ex) in
   let scores := forward (network self) inputs in
   comprehension round scores,
   self).

(** The dictionary [params] of lines 123-137, given the CUDA random
    state [s] read on line 136. *)
Definition params_of (self : t) (epoch : Z)
    (accuracy best_eval : float) (w : World) (s : TorchRng) : Checkpoint :=
  {| ck_state_dict :=
       {| sd_network := network self; sd_optimizer := optimizer self;
          sd_updates := updates self; sd_loss := train_loss self |};
     ck_config := opt self;
     ck_epoch := epoch;
     ck_accuracy := accuracy;
     ck_best_eval := best_eval;
     ck_random_state := py_random w;
     ck_torch_state := torch_random w;
     ck_torch_cuda_state := s |}.

(** [DocReaderModel.save] *)
Definition save (self : t) (filename : string) (epoch : Z)
    (scores : list float) : M unit :=
  let! (accuracy, best_eval) :=
    match scores with
    | [a; b] => ret (a, b)
    | _ => raise (ValueError "wrong number of values to unpack")
    end in
  let! w0 := (λ w, (Ok w, w)) in
  let! torch_cuda_state := cuda_get_rng_state in
  let params := params_of self epoch accuracy best_eval w0 torch_cuda_state in
  try_except
    (let! _ := torch_save params filename in
     emit "drqa.model" INFO "model saved to {}")
    (λ _, emit "drqa.model" WARNING
            "[ WARN: Saving failed... continuing anyway. ]").

(** The checkpoint [c] holds the state of [self] and of the random
    number generators in [w], and the given epoch and scores. *)
Definition holds_state (c : Checkpoint) (self : t) (epoch : Z)
    (accuracy best_eval : float) (w : World) : Prop :=
  sd_network (ck_state_dict c) = network self ∧
  sd_optimizer (ck_state_dict c) = optimizer self ∧
  sd_updates (ck_state_dict c) = updates self ∧
  sd_loss (ck_state_dict c) = train_loss self ∧
  ck_config c = opt self ∧
  ck_epoch c = epoch ∧
  ck_accuracy c = accuracy ∧
  ck_best_eval c = best_eval ∧
  ck_random_state c = py_random w ∧
  ck_torch_state c = torch_random w ∧
  Some (ck_torch_cuda_state c) = torch_cuda_random w.

(** The environment lets the next [torch.save] complete. *)
Definition save_succeeds (w : World) : Prop :=
  match io w with
  | [] | Saved :: _ => True
  | _ => False
  end.

End model.
End DocReaderModel.

(** ** [train.py]: scoring and the main loop *)

Module Train.
Import BatchGen DocReaderModel.

(** The parsed command line, as [setup] returns it. *)
Record Args : Type := {
  log_per_updates : Z;
  model_dir : string;
  save_last_only : bool;
  save_dawn_logs : bool;
  cuda : bool;
  epochs : Z;
  arg_batch_size : Z;
  resume : string;
  resume_options : bool;
  reduce_lr : float
}.

(** [score(pred, truth)]; numpy division of [0.0] by [0] gives NaN. *)
Definition score (pred truth : list Z) : result float :=
  let* _ := assert (bool_decide (length pred = length truth))
              "len(pred) == len(truth)" in
  let hits := length (filter (λ p, p.1 = p.2) (zip pred truth)) in
  Ok (match truth with
      | [] => NaN
      | _ => Fin (Z.of_nat hits # Pos.of_nat (length truth))
      end).

(** [os.path.join(dir, name)] for a relative [name] *)
Definition path_join (dir name : string) : string := dir ++ "/" ++ name.

Section main.
Context `{!Framework} `{!BertTokenizer} `{S32 : !Torch.Single}.

(** [lr_decay(optimizer, lr_decay)] *)
Definition lr_decay (self : DocReaderModel.t) (factor : float) : DocReaderModel.t :=
  {| opt := opt self; updates := updates self; train_loss := train_loss self;
     network := network self; training := training self;
     optimizer := scale_lr factor (optimizer self) |}.

(** [BatchGen(...)], reading and advancing the state of [random] *)
Definition new_batches (data : list Example) (batch_size : Z)
    (gpu evaluation bert : bool) : M BatchGen.t := λ w,
  match BatchGen.__init__ data batch_size gpu evaluation bert (py_random w) with
  | Ok (b, g) => (Ok b, set_py_random g w)
  | Raise e => (Raise e, w)
  end.

(** Lines 47-50 and 78-81: score every batch of the generator.  Whether
    CUDA is available does not change during a run; the loop reads it
    when it starts. *)
Definition evaluate (cls : ClassAttrs) (model : DocReaderModel.t)
    (batches : BatchGen.t) : M (list Z * DocReaderModel.t) := λ w,
  for_each
    (λ next '(predictions, model),
       let! batch := lift next in
       let '(r, model) := predict model batch in
       let! p := lift r in
       let! _ := emit "__main__" DEBUG "> evaluating [{}/{}]" in
       ret (predictions ++ p, model))
    (BatchGen.__iter__ (cuda_available w) cls batches) ([], model) w.

(** Lines 69-74: one update per batch of the generator. *)
Definition train_loop (cls : ClassAttrs) (args : Args)
    (model : DocReaderModel.t) (batches : BatchGen.t) : M DocReaderModel.t :=
  λ w,
  for_each
    (λ '(i, next) model,
       let! batch := lift next in
       let! model := (λ w, let '(r, m, w') := update model batch w in
                           (match r with Ok _ => Ok m | Raise e => Raise e end,
                            w')) in
       let! _ :=
         if (log_per_updates args =? 0)%Z then raise ZeroDivisionError
         else if (Z.of_nat i mod log_per_updates args =? 0)%Z
              then emit "__main__" INFO
                     "> epoch [{0:2}] updates[{1:6}] train loss[{2:.5f}] remaining[{3}]"
              else ret () in
       ret model)
    (imap pair (BatchGen.__iter__ (cuda_available w) cls batches)) model w.

(** Lines 65-96: one iteration of the epoch loop. *)
Definition epoch_body (cls : ClassAttrs) (args : Args)
    (train dev : list Example) (dev_y : list Z) (opt : Config)
    (epoch_0 : Z) (epoch : Z) (s : DocReaderModel.t * float)
  : M (DocReaderModel.t * float) :=
  let '(model, best_val_score) := s in
  let! _ := emit "__main__" WARNING "Epoch {}" in
  (* train *)
  let! bert := lift (getitem opt "bert") in
  let! batches := new_batches train (arg_batch_size args) (cuda args)
                    false (truthy bert) in
  let! model := train_loop cls args model batches in
  let! _ := emit "__main__" DEBUG "\n" in
  (* eval *)
  let! bert := lift (getitem opt "bert") in
  let! batches := new_batches dev (arg_batch_size args) (cuda args)
                    true (truthy bert) in
  let! (predictions, model) := evaluate cls model batches in
  let! accuracy := lift (score predictions dev_y) in
  let! _ := emit "__main__" WARNING "dev accuracy {}" in
  let! _ := if save_dawn_logs args
            then emit "__main__" WARNING "dawn_entry: {}\t{}\t{}"
            else ret () in
  (* save *)
  if negb (save_last_only args) || (epoch =? epoch_0 + epochs args - 1)%Z
  then
    let model_file :=
      path_join (model_dir args) ("checkpoint_epoch_" ++ pretty epoch ++ ".pt") in
    let! _ := save model model_file epoch [accuracy; best_val_score] in
    if fgt accuracy best_val_score
    then
      let! _ := copyfile model_file (path_join (model_dir args) "best_model.pt") in
      let! _ := emit "__main__" INFO "[new best model saved.]" in
      ret (model, accuracy)
    else ret (model, best_val_score)
  else ret (model, best_val_score).

(** Lines 30-57: restore a checkpoint and check that the restored
    model reproduces the recorded dev accuracy.
    [torch.cuda.set_rng_state] waits for CUDA to be initialised: on a
    host without CUDA it has no effect. *)
Definition resume_model (cls : ClassAttrs) (args : Args)
    (dev : list Example) (dev_y : list Z) (embedding : option Embedding)
    (opt : Config) : M (Config * DocReaderModel.t * Z * float) :=
  let! _ := emit "__main__" INFO "[loading previous model...]" in
  let! checkpoint := torch_load (path_join (model_dir args) (resume args)) in
  let opt := if resume_options args then ck_config checkpoint else opt in
  let state_dict := ck_state_dict checkpoint in
  let! model := DocReaderModel.__init__ opt embedding (Some state_dict) in
  let epoch_0 := (ck_epoch checkpoint + 1)%Z in
  let! _ := (λ w, (Ok (), set_py_random (ck_random_state checkpoint) w)) in
  let! _ := (λ w, (Ok (), set_torch_random (ck_torch_state checkpoint)
                             (torch_cuda_random w) w)) in
  let! _ := if cuda args
            then (λ w, (Ok (), set_torch_random (torch_random w)
                                  ((λ _, ck_torch_cuda_state checkpoint)
                                     <$> torch_cuda_random w) w))
            else ret () in
  let! model := if ftruthy (reduce_lr args)
                then let! _ := emit "__main__" INFO "[learning rate reduced by {}]" in
                     ret (lr_decay model (reduce_lr args))
                else ret model in
  let! batches := new_batches dev (arg_batch_size args) (cuda args) true false in
  let! (predictions, model) := evaluate cls model batches in
  let! accuracy := lift (score predictions dev_y) in
  let! _ := emit "__main__" INFO "[dev accuracy {accuracy}]" in
  let! _ :=
    if fgt (fabs (fsub accuracy (ck_accuracy checkpoint))) (Fin (1 # 1000))
    then
      let! _ := emit "__main__" INFO "Inconsistent: recorded accuracy" in
      let! _ := emit "__main__" ERROR
                  "Error loading model: current code is inconsistent with code used to train the previous model." in
      raise (SystemExit 1)
    else ret () in
  ret (opt, model, epoch_0, ck_best_eval checkpoint).

(** [main], from line 26 on: [args] is what [setup] returned, and
    [train], [dev], [dev_y], [embedding], [opt] and the class
    attributes [cls] are what [load_data] returned and set. *)
Definition main (cls : ClassAttrs) (args : Args)
    (train dev : list Example) (dev_y : list Z) (embedding : option Embedding)
    (opt : Config) : M float :=
  let! _ := if save_dawn_logs args
            then emit "__main__" INFO "dawn_entry: epoch\taccuracy\thours"
            else ret () in
  let! (opt, model, epoch_0, best_val_score) :=
    if negb (bool_decide (resume args = EmptyString))
    then resume_model cls args dev dev_y embedding opt
    else
      let! model := DocReaderModel.__init__ opt embedding None in
      ret (opt, model, 1%Z, Fin 0) in
  let! epoch_list := lift (range epoch_0 (epoch_0 + epochs args) 1) in
  let! (_, best_val_score) :=
    for_each (epoch_body cls args train dev dev_y opt epoch_0) epoch_list
      (model, best_val_score) in
  ret best_val_score.

End main.
End Train.

(** ** Concrete inputs *)

Module Samples.
Import BatchGen DocReaderModel Train.

(** A framework whose network has no weights and scores every example
    one half. *)
Definition toy : Framework := {|
  Weights := unit; OptState := unit; Meter := unit; TorchRng := unit;
  Embedding := unit;
  build_network := λ _ _ _ s, (Ok (), s);
  build_sgd := λ _ _ _, ();
  build_adamax := λ _ _ _, ();
  scale_lr := λ _ _, ();
  new_meter := ();
  meter_update := λ _ _, ();
  train_step := λ _ _ _ _ _ s c, ((), (), Fin 0, s, c);
  forward := λ _ inputs, [Fin (1 # 2)]
|}.

#[local] Existing Instance toy.

Definition bert_uncased : BertTokenizer := {| pad_token_id := 0 |}.

(** Rounding to the nearest number with a 24-bit significand, ties to
    even, with the exponent range of single precision at the small end:
    the conversion of a double that is not too large for single
    precision. *)
Definition log2_floor (q : Q) : Z :=
  let e := (Z.log2 (Qnum q) - Z.log2 (Z.pos (Qden q)))%Z in
  if Qle_bool (2 ^ e) q then e else (e - 1)%Z.

Definition round_half_even (q : Q) : Z :=
  let f := Qfloor q in
  match (q - inject_Z f ?= 1 # 2)%Q with
  | Lt => f
  | Gt => (f + 1)%Z
  | Eq => if Z.even f then f else (f + 1)%Z
  end.

Definition binary32 (x : float) : float :=
  match x with
  | NaN => NaN
  | Fin q =>
      if Qeq_bool q 0 then Fin 0
      else
        let e := Z.max (log2_floor (Qabs q)) (-126) in
        let ulp := (2 ^ (e - 23))%Q in
        Fin (Qred (inject_Z (round_half_even (q / ulp)) * ulp))
  end.

Definition single32 : Torch.Single := {| Torch.single := binary32 |}.

#[local] Existing Instance single32.

(** An example whose document has [n] tokens. *)
Definition example (n : nat) (ans : option Z) : Example :=
  {| ex_id := "q"; ex_context := Z.of_nat <$> seq 1 n;
     ex_features := replicate n [Fin 0; Fin 1];
     ex_tags := replicate n 1; ex_ents := replicate n 0;
     ex_question := [7; 8]%Z; ex_text := "t"; ex_span := [];
     ex_answer := ans |}.

Definition dev3 : list Example :=
  [example 3 None; example 1 None; example 2 None].

Definition train3 : list Example :=
  [example 3 (Some 1%Z); example 1 (Some 0%Z); example 2 (Some 1%Z)].

Definition cls : ClassAttrs := {| pos_size := Some 3; ner_size := Some 2 |}.

(** The evaluation generator over [dev3] with batch size 2, its first
    batch, and the tuple it yields for it. *)
Definition batch0 : list Example := [example 1 None; example 2 None].

Definition dev_batches : BatchGen.t :=
  {| batch_size := 2%Z; eval := true; gpu := false; bert := false;
     pad_token := 0%Z; data := [batch0; [example 3 None]] |}.

Definition tuple0 : Batch :=
  {| context_id := [[1; 0]; [1; 2]]%Z;
     context_feature :=
       Some [[[Fin 0; Fin 1]; [Fin 0; Fin 0]]; [[Fin 0; Fin 1]; [Fin 0; Fin 1]]];
     context_tag :=
       Some [[[Fin 0; Fin 1; Fin 0]; [Fin 0; Fin 0; Fin 0]];
             [[Fin 0; Fin 1; Fin 0]; [Fin 0; Fin 1; Fin 0]]];
     context_ent :=
       Some [[[Fin 1; Fin 0]; [Fin 0; Fin 0]]; [[Fin 1; Fin 0]; [Fin 1; Fin 0]]];
     context_mask := [[false; true]; [false; false]];
     question_id := [[7; 8]; [7; 8]]%Z;
     question_mask := [[false; false]; [false; false]];
     text := ["t"; "t"]; span := [[]; []]; answ := None |}.

Definition rng0 : Rng := MkRng [0; 1; 1].

Definition rng1 : Rng := MkRng [1; 1; 0].

Definition opt0 : Config :=
  <["cuda" := VBool false]>
    (<["bert" := VBool false]>
       (<["optimizer" := VStr "adamax"]>
          (<["weight_decay" := VFloat (Fin 0)]>
             (<["grad_clipping" := VFloat (Fin 10)]> ∅)))).

Definition model0 : @DocReaderModel.t toy :=
  {| opt := opt0; updates := 7%Z; train_loss := (); network := ();
     training := true; optimizer := () |}.

Definition world0 : @World toy :=
  {| py_random := rng0; torch_random := (); torch_cuda_random := Some ();
     fs := ∅; io := []; log := [] |}.

(** The checkpoint an earlier run recorded: dev accuracy 1/3. *)
Definition checkpoint0 : @Checkpoint toy :=
  {| ck_state_dict := {| sd_network := (); sd_optimizer := ();
                         sd_updates := 7%Z; sd_loss := () |};
     ck_config := opt0; ck_epoch := 4%Z;
     ck_accuracy := Fin (1 # 3); ck_best_eval := Fin (2 # 3);
     ck_random_state := rng0; ck_torch_state := ();
     ck_torch_cuda_state := () |}.

Definition args0 : Args :=
  {| log_per_updates := 3%Z; model_dir := "models"; save_last_only := false;
     save_dawn_logs := false; cuda := false; epochs := 2%Z;
     arg_batch_size := 2%Z; resume := EmptyString; resume_options := false;
     reduce_lr := Fin 0 |}.

Definition args_resume : Args :=
  {| log_per_updates := 3%Z; model_dir := "models"; save_last_only := false;
     save_dawn_logs := false; cuda := false; epochs := 2%Z;
     arg_batch_size := 2%Z; resume := "best_model.pt";
     resume_options := false; reduce_lr := Fin 0 |}.

(** A world in which [models/best_model.pt] holds [checkpoint0]. *)
Definition world_resume : @World toy :=
  {| py_random := rng0; torch_random := (); torch_cuda_random := Some ();
     fs := {[ "models/best_model.pt" := Pickle checkpoint0 ]};
     io := []; log := [] |}.

(** A world holding an older checkpoint in which the next [torch.save]
    fails after it has opened its file. *)
Definition world_disk_full : @World toy :=
  {| py_random := rng0; torch_random := (); torch_cuda_random := Some ();
     fs := {[ "models/checkpoint_epoch_5.pt" := Pickle checkpoint0 ]};
     io := [FailsAfterOpen (OSError "No space left on device")]; log := [] |}.

(** A world in which the next [torch.save] cannot open its file. *)
Definition world_no_dir : @World toy :=
  {| py_random := rng0; torch_random := (); torch_cuda_random := Some ();
     fs := ∅; io := [FailsBeforeOpen (FileNotFoundError "models")];
     log := [] |}.

(** The training generator over [train3] with batch size 2 before it is
    shuffled, its first batch, and the tuple it yields for it. *)
Definition train_batch0 : list Example :=
  [example 1 (Some 0%Z); example 2 (Some 1%Z)].

Definition train_batches : BatchGen.t :=
  {| batch_size := 2%Z; eval := false; gpu := false; bert := false;
     pad_token := 0%Z; data := [train_batch0; [example 3 (Some 1%Z)]] |}.

Definition train_tuple0 : Batch :=
  {| context_id := [[1; 0]; [1; 2]]%Z;
     context_feature :=
       Some [[[Fin 0; Fin 1]; [Fin 0; Fin 0]]; [[Fin 0; Fin 1]; [Fin 0; Fin 1]]];
     context_tag :=
       Some [[[Fin 0; Fin 1; Fin 0]; [Fin 0; Fin 0; Fin 0]];
             [[Fin 0; Fin 1; Fin 0]; [Fin 0; Fin 1; Fin 0]]];
     context_ent :=
       Some [[[Fin 1; Fin 0]; [Fin 0; Fin 0]]; [[Fin 1; Fin 0]; [Fin 1; Fin 0]]];
     context_mask := [[false; true]; [false; false]];
     question_id := [[7; 8]; [7; 8]]%Z;
     question_mask := [[false; false]; [false; false]];
     text := ["t"; "t"]; span := [[]; []];
     answ := Some [Fin 0; Fin 1] |}.

(** The evaluation generator over [dev3] in BERT mode. *)
Definition bert_batches : BatchGen.t :=
  {| batch_size := 2%Z; eval := true; gpu := false; bert := true;
     pad_token := 0%Z; data := [batch0; [example 3 None]] |}.

(** A dev set in ascending order of document length, and one with an
    empty document. *)
Definition dev_sorted : list Example :=
  [example 1 None; example 2 None; example 3 None].

Definition dev_empty_doc : list Example := [example 2 None; example 0 None].

(** The model a fresh run builds from [opt0]. *)
Definition model_fresh : @DocReaderModel.t toy :=
  {| opt := opt0; updates := 0%Z; train_loss := (); network := ();
     training := true; optimizer := () |}.

Definition args_no_epochs : Args :=
  {| log_per_updates := 3%Z; model_dir := "models"; save_last_only := false;
     save_dawn_logs := false; cuda := false; epochs := 0%Z;
     arg_batch_size := 2%Z; resume := EmptyString; resume_options := false;
     reduce_lr := Fin 0 |}.


Definition args_zero_log : Args :=
  {| log_per_updates := 0%Z; model_dir := "models"; save_last_only := false;
     save_dawn_logs := false; cuda := false; epochs := 2%Z;
     arg_batch_size := 2%Z; resume := EmptyString; resume_options := false;
     reduce_lr := Fin 0 |}.
(** An example whose only token has term frequency 0.1, the generator
    holding it, and the tuple it yields: 0.1 is stored as the nearest
    single-precision number, 13421773 / 2^27. *)
Definition example_tf : Example :=
  {| ex_id := "q"; ex_context := [5]%Z;
     ex_features := [[Fin (1 # 10); Fin 1]];
     ex_tags := [1]; ex_ents := [0];
     ex_question := [7; 8]%Z; ex_text := "t"; ex_span := [];
     ex_answer := None |}.

Definition tf_batches : BatchGen.t :=
  {| batch_size := 2%Z; eval := true; gpu := false; bert := false;
     pad_token := 0%Z; data := [[example_tf]] |}.

Definition tf_tuple : Batch :=
  {| context_id := [[5]]%Z;
     context_feature := Some [[[Fin (13421773 # 134217728); Fin 1]]];
     context_tag := Some [[[Fin 0; Fin 1; Fin 0]]];
     context_ent := Some [[[Fin 1; Fin 0]]];
     context_mask := [[false]];
     question_id := [[7; 8]]%Z;
     question_mask := [[false; false]];
     text := ["t"]; span := [[]]; answ := None |}.

(** A dev set with an empty document and a document holding the id
    2^63, which does not fit 64 bits. *)
Definition example_wide : Example :=
  {| ex_id := "q"; ex_context := [9223372036854775808]%Z;
     ex_features := [[Fin 0; Fin 1]];
     ex_tags := [1]; ex_ents := [0];
     ex_question := [7; 8]%Z; ex_text := "t"; ex_span := [];
     ex_answer := None |}.

Definition dev_wide : list Example := [example_wide; example 0 None].

(** The training generator of a run that asks for pinned tensors. *)
Definition gpu_batches : BatchGen.t :=
  {| batch_size := 2%Z; eval := false; gpu := true; bert := false;
     pad_token := 0%Z; data := [train_batch0; [example 3 (Some 1%Z)]] |}.

(** A framework that counts: the state of its generator is the number
    of draws made so far, building a network takes one draw and a
    training step another, and the weights are the number of steps
    taken. *)
Definition counting : Framework := {|
  Weights := nat; OptState := unit; Meter := unit; TorchRng := nat;
  Embedding := unit;
  build_network := λ _ _ saved s, (Ok (default 0 saved), S s);
  build_sgd := λ _ _ _, ();
  build_adamax := λ _ _ _, ();
  scale_lr := λ _ _, ();
  new_meter := ();
  meter_update := λ _ _, ();
  train_step := λ _ net _ _ _ s c, (S net, (), Fin 0, S s, c);
  forward := λ _ inputs, [Fin (1 # 2)]
|}.

#[local] Existing Instance counting.

(** A host without CUDA whose torch generator has made five draws, and
    the model a fresh run builds there from [opt0]. *)
Definition world_counting : @World counting :=
  {| py_random := rng0; torch_random := 5; torch_cuda_random := None;
     fs := ∅; io := []; log := [] |}.

Definition model_counting : @DocReaderModel.t counting :=
  {| opt := opt0; updates := 0%Z; train_loss := (); network := 0;
     training := true; optimizer := () |}.

(** Options that ask for CUDA, and the model with options that lack
    ['grad_clipping']. *)
Definition opt_cuda : Config := <["cuda" := VBool true]> opt0.

Definition model_no_clipping : @DocReaderModel.t counting :=
  {| opt := delete "grad_clipping" opt0; updates := 0%Z; train_loss := ();
     network := 0; training := true; optimizer := () |}.
End Samples.

(** * Properties *)

(** ** The Python prelude *)

Section sorted.
Context {A : Type} (key : A → nat).

Lemma insert_by_perm x l : insert_by key x l ≡ₚ x :: l.
Proof.
  induction l as [|y l IH]; simpl; [done|].
  case_decide; [done|].
  rewrite IH. apply Permutation_swap.
Qed.

Lemma sorted_perm l : sorted key l ≡ₚ l.
Proof.
  induction l as [|x l IH]; simpl; [done|].
  rewrite insert_by_perm. by f_equiv.
Qed.

Lemma insert_by_sorted x l :
  StronglySorted (key_le key) l → StronglySorted (key_le key) (insert_by key x l).
Proof.
  induction 1 as [|y l Hl IH Hy]; simpl.
  - repeat constructor.
  - case_decide as Hxy.
    + constructor; [by constructor|].
      constructor; [done|].
      eapply Forall_impl; [exact Hy|]. unfold key_le. intros; simpl in *; lia.
    + constructor; [done|].
      rewrite insert_by_perm. constructor; [unfold key_le; lia | done].
Qed.

Lemma sorted_sorted l : StronglySorted (key_le key) (sorted key l).
Proof.
  induction l as [|x l IH]; simpl; [constructor|].
  by apply insert_by_sorted.
Qed.

(** Stability: examples of equal key keep their relative order. *)
Lemma insert_by_filter k x l :
  StronglySorted (key_le key) l →
  filter (λ y, key y = k) (insert_by key x l)
  = filter (λ y, key y = k) (x :: l).
Proof.
  induction 1 as [|y l Hl IH Hy]; simpl; [done|].
  case_decide as Hxy; [done|].
  rewrite !filter_cons. rewrite filter_cons in IH.
  destruct (decide (key y = k)) as [Hyk|Hyk];
    destruct (decide (key x = k)) as [Hxk|Hxk]; simpl in *;
    rewrite ?IH; try done.
  lia.
Qed.

Lemma sorted_stable k l :
  filter (λ y, key y = k) (sorted key l) = filter (λ y, key y = k) l.
Proof.
  induction l as [|x l IH]; simpl; [done|].
  rewrite insert_by_filter by apply sorted_sorted.
  rewrite !filter_cons, IH. done.
Qed.
End sorted.

Section chunk.
Context {A : Type}.
Implicit Types (l : list A) (n m k : nat).

Lemma slice_nonneg l (lo hi : Z) :
  (0 ≤ lo)%Z → (lo ≤ hi)%Z →
  slice l lo hi = take (Z.to_nat (hi - lo)) (drop (Z.to_nat lo) l).
Proof.
  intros Hlo Hhi. unfold slice, clamp.
  destruct (Z.ltb_spec lo 0); [lia|].
  destruct (Z.ltb_spec hi 0); [lia|].
  destruct (decide (lo ≤ Z.of_nat (length l))%Z) as [Hin|Hout].
  - rewrite (Z.min_l lo) by lia.
    destruct (decide (hi ≤ Z.of_nat (length l))%Z).
    + by rewrite (Z.min_l hi) by lia.
    + rewrite (Z.min_r hi) by lia.
      rewrite !take_ge; [done| |]; rewrite length_drop; lia.
  - rewrite !(drop_ge l) by lia. by rewrite !take_nil.
Qed.

(** The chunks of [l] of width [n], written with [take] and [drop]. *)
Lemma concat_chunks n m l :
  length l ≤ m * n →
  concat ((λ k, take n (drop (k * n) l)) <$> seq 0 m) = l.
Proof.
  revert l. induction m as [|m IH]; intros l Hl; simpl.
  - destruct l; [done|simpl in Hl; lia].
  - rewrite drop_0. rewrite <- fmap_S_seq, <- list_fmap_compose.
    transitivity (take n l ++ drop n l); [|apply take_drop]. f_equal.
    rewrite <- (IH (drop n l)) by (rewrite length_drop; lia).
    f_equal. apply list_fmap_ext. intros _ k _. simpl.
    by rewrite drop_drop.
Qed.

Lemma range_len_pos (len : nat) (bs : Z) :
  (0 < bs)%Z →
  let m := Z.to_nat (range_len 0 (Z.of_nat len) bs) in
  ((Z.of_nat m - 1) * bs < Z.of_nat len ≤ Z.of_nat m * bs)%Z.
Proof.
  intros Hbs m. subst m. unfold range_len.
  destruct (Z.ltb_spec 0 bs); [|lia].
  replace (Z.of_nat len - 0 + bs - 1)%Z with (Z.of_nat len + bs - 1)%Z by lia.
  assert (0 ≤ (Z.of_nat len + bs - 1) / bs)%Z by (apply Z.div_pos; lia).
  rewrite Z.max_r by lia. rewrite Z2Nat.id by lia.
  pose proof (Z.mul_div_le (Z.of_nat len + bs - 1) bs Hbs).
  pose proof (Z.mul_succ_div_gt (Z.of_nat len + bs - 1) bs Hbs).
  nia.
Qed.

Lemma chunk_pos l (bs : Z) :
  (0 < bs)%Z →
  BatchGen.chunk l bs
  = Ok ((λ k, take (Z.to_nat bs) (drop (k * Z.to_nat bs) l))
          <$> seq 0 (Z.to_nat (range_len 0 (Z.of_nat (length l)) bs))).
Proof.
  intros Hbs. unfold BatchGen.chunk, range.
  destruct (Z.eqb_spec bs 0); [lia|]. simpl. f_equal.
  rewrite <- list_fmap_compose. apply list_fmap_ext. intros _ k _. simpl.
  rewrite slice_nonneg by lia. f_equal; [f_equal; lia|f_equal; lia].
Qed.

Lemma chunk_zero l : BatchGen.chunk l 0 = Raise (ValueError "range() arg 3 must not be zero").
Proof. done. Qed.

Lemma chunk_neg l (bs : Z) : (bs < 0)%Z → BatchGen.chunk l bs = Ok [].
Proof.
  intros Hbs. unfold BatchGen.chunk, range.
  destruct (Z.eqb_spec bs 0); [lia|]. simpl.
  unfold range_len. destruct (Z.ltb_spec 0 bs); [lia|].
  rewrite Z.max_l; [done|].
  apply Z.lt_succ_r. apply Z.div_lt_upper_bound; lia.
Qed.
End chunk.

Section shuffle.
Context {A : Type}.
Implicit Types (l : list A) (g : Rng).

Lemma insert_perm_cons l j x y :
  l !! j = Some y → y :: <[j:=x]> l ≡ₚ x :: l.
Proof.
  revert j. induction l as [|a l IH]; intros [|j] Hj; simplify_eq/=.
  - apply Permutation_swap.
  - etrans; [apply Permutation_swap|].
    rewrite (IH _ Hj). apply Permutation_swap.
Qed.

Lemma swap_perm l i j : swap l i j ≡ₚ l.
Proof.
  unfold swap.
  destruct (l !! i) as [xi|] eqn:Hi; [|done].
  destruct (l !! j) as [xj|] eqn:Hj; [|done].
  revert i j Hi Hj. induction l as [|a l IH]; intros [|i] [|j] Hi Hj;
    simplify_eq/=; try done.
  - by apply insert_perm_cons.
  - by apply insert_perm_cons.
  - f_equiv. by apply IH.
Qed.

Lemma shuffle_loop_perm i l g : (shuffle_loop i l g).1 ≡ₚ l.
Proof.
  revert l g. induction i as [|i IH]; intros l g; simpl; [done|].
  destruct (randbelow (S (S i)) g) as [j g'].
  rewrite IH. apply swap_perm.
Qed.

Lemma shuffle_perm l g : (shuffle l g).1 ≡ₚ l.
Proof. apply shuffle_loop_perm. Qed.

Lemma randbelow_tape n g : tape (randbelow n g).2 = drop 1 (tape g).
Proof. unfold randbelow. by destruct (tape g) eqn:E; simpl; rewrite ?E. Qed.

Lemma randbelow_lt n g : 0 < n → (randbelow n g).1 < n.
Proof.
  intros Hn. unfold randbelow. destruct (tape g); simpl; [done|].
  apply Nat.mod_upper_bound. lia.
Qed.

Lemma shuffle_loop_tape i l g :
  tape (shuffle_loop i l g).2 = drop i (tape g).
Proof.
  revert l g. induction i as [|i IH]; intros l g; simpl; [done|].
  pose proof (randbelow_tape (S (S i)) g) as Hg.
  destruct (randbelow (S (S i)) g) as [j g']. simpl in Hg.
  rewrite IH, Hg, drop_drop. f_equal.
Qed.

(** One draw per position from the last down to the second. *)
Lemma shuffle_tape l g :
  tape (shuffle l g).2 = drop (length l - 1) (tape g).
Proof. apply shuffle_loop_tape. Qed.
End shuffle.

(** ** [random.shuffle]: which orders the draws produce *)

Section shuffle_orders.
Context {A : Type}.
Implicit Types (l : list A) (g : Rng).

Lemma swap_lookup_ne l i j k : k ≠ i → k ≠ j → swap l i j !! k = l !! k.
Proof.
  intros Hi Hj. unfold swap.
  destruct (l !! i) as [xi|]; [|done]. destruct (l !! j) as [xj|]; [|done].
  by rewrite !list_lookup_insert_ne.
Qed.

Lemma swap_lookup_l l i j :
  i < length l → j < length l → swap l i j !! i = l !! j.
Proof.
  intros Hi Hj. unfold swap.
  destruct (lookup_lt_is_Some_2 l i Hi) as [xi Hxi].
  destruct (lookup_lt_is_Some_2 l j Hj) as [xj Hxj].
  rewrite Hxi, Hxj. destruct (decide (i = j)) as [->|Hne].
  - rewrite list_lookup_insert_eq by (by rewrite length_insert). congruence.
  - rewrite list_lookup_insert_ne by done.
    by rewrite list_lookup_insert_eq.
Qed.

Lemma swap_out_of_range l i j : length l ≤ i → swap l i j = l.
Proof. intros Hi. unfold swap. by rewrite lookup_ge_None_2. Qed.

(** The loop from position [i] down leaves the positions above [i]
    alone. *)
Lemma shuffle_loop_above i l g k :
  i < k → (shuffle_loop i l g).1 !! k = l !! k.
Proof.
  revert l g. induction i as [|i IH]; intros l g Hk; cbn [shuffle_loop]; [done|].
  pose proof (randbelow_lt (S (S i)) g ltac:(lia)) as Hj.
  destruct (randbelow (S (S i)) g) as [j g']. simpl in Hj.
  rewrite IH by lia. apply swap_lookup_ne; lia.
Qed.

(** The element that ends up last is the one the first draw picks. *)
Lemma shuffle_last l g n :
  length l = S n → (shuffle l g).1 !! n = l !! (randbelow (S n) g).1.
Proof.
  intros Hlen. unfold shuffle. rewrite Hlen.
  replace (S n - 1) with n by lia.
  destruct n as [|n]; cbn [shuffle_loop fst].
  - pose proof (randbelow_lt 1 g ltac:(lia)). f_equal. lia.
  - pose proof (randbelow_lt (S (S n)) g ltac:(lia)) as Hj.
    destruct (randbelow (S (S n)) g) as [j g']. cbn [fst] in *.
    rewrite shuffle_loop_above by lia. apply swap_lookup_l; lia.
Qed.

Lemma randbelow_cons n j g : j < n → randbelow n (MkRng (j :: tape g)) = (j, g).
Proof.
  intros Hj. unfold randbelow. simpl. rewrite Nat.mod_small by done.
  by destruct g.
Qed.

Lemma perm_agree_head (t0 l0 : A) tt : t0 :: tt ≡ₚ l0 :: tt → t0 = l0.
Proof.
  intros Hp. change ([t0] ++ tt ≡ₚ [l0] ++ tt) in Hp.
  apply Permutation_app_inv_r in Hp. by apply Permutation_singleton_inj in Hp.
Qed.

(** Every arrangement that agrees with the list above position [i] is
    produced by the loop from [i] down, for some draws. *)
Lemma shuffle_loop_reaches i l target :
  target ≡ₚ l →
  (∀ k, i < k → target !! k = l !! k) →
  ∃ g, (shuffle_loop i l g).1 = target.
Proof.
  revert l. induction i as [|i IH]; intros l Hp Hagree.
  - exists (MkRng []). simpl.
    destruct target as [|t0 tt], l as [|l0 lt];
      [done|by apply Permutation_nil_cons in Hp
       |by symmetry in Hp; apply Permutation_nil_cons in Hp|].
    assert (tt = lt) as ->.
    { apply list_eq. intros k. apply (Hagree (S k)). lia. }
    by rewrite (perm_agree_head _ _ _ Hp).
  - destruct (decide (S i < length l)) as [Hin|Hout].
    2:{ destruct (IH l Hp) as [g Hg].
        { intros k Hk. destruct (decide (k = S i)) as [->|]; [|apply Hagree; lia].
          rewrite !lookup_ge_None_2; [done|lia|].
          rewrite (Permutation_length Hp). lia. }
        exists (MkRng (0 :: tape g)). cbn [shuffle_loop].
        rewrite (randbelow_cons (S (S i)) 0 g) by lia.
        by rewrite swap_out_of_range by lia. }
    assert (length target = length l) as Hlen by (by apply Permutation_length).
    destruct (lookup_lt_is_Some_2 target (S i)) as [x Hx]; [lia|].
    assert (∃ j, j < S (S i) ∧ l !! j = Some x) as (j & Hj & Hlj).
    { assert (drop (S (S i)) target = drop (S (S i)) l) as Hdrop.
      { apply list_eq. intros k. rewrite !lookup_drop. apply Hagree. lia. }
      assert (take (S (S i)) target ≡ₚ take (S (S i)) l) as Htake.
      { apply (Permutation_app_inv_r (drop (S (S i)) l)).
        rewrite <- Hdrop at 1. by rewrite !take_drop. }
      assert (x ∈ take (S (S i)) l) as Hxin.
      { rewrite <- Htake. apply list_elem_of_lookup. exists (S i).
        rewrite lookup_take_lt by lia. done. }
      apply list_elem_of_lookup in Hxin as [j Hjx].
      exists j. pose proof (lookup_lt_Some _ _ _ Hjx) as Hjl.
      rewrite length_take in Hjl. split; [lia|].
      by rewrite lookup_take_lt in Hjx by lia. }
    destruct (IH (swap l (S i) j)) as [g Hg].
    { by rewrite swap_perm. }
    { intros k Hk. destruct (decide (k = S i)) as [->|Hne].
      - rewrite swap_lookup_l by (try done; apply lookup_lt_Some in Hlj; lia).
        congruence.
      - rewrite swap_lookup_ne by lia. apply Hagree. lia. }
    exists (MkRng (j :: tape g)). cbn [shuffle_loop].
    by rewrite (randbelow_cons (S (S i)) j g) by lia.
Qed.

(** [random.shuffle] can produce every arrangement of its list. *)
Lemma shuffle_reaches l target :
  target ≡ₚ l → ∃ g, (shuffle l g).1 = target.
Proof.
  intros Hp. apply shuffle_loop_reaches; [done|].
  intros k Hk. rewrite !lookup_ge_None_2; [done|lia|].
  rewrite (Permutation_length Hp). lia.
Qed.
End shuffle_orders.

(** ** [BatchGen.__init__] *)

Section batchgen_init.
Context `{!BertTokenizer}.
Import BatchGen.

Lemma concat_perm {A} (l1 l2 : list (list A)) :
  l1 ≡ₚ l2 → concat l1 ≡ₚ concat l2.
Proof.
  induction 1 as [|x l1 l2 _ IH|x y l|l1 l2 l3 _ IH1 _ IH2]; simpl.
  - done.
  - by rewrite IH.
  - rewrite !(assoc_L (++)). f_equiv. apply Permutation_app_comm.
  - by rewrite IH1.
Qed.

Lemma sorted_take_drop {A} (R : relation A) (l : list A) i n :
  StronglySorted R l → StronglySorted R (take n (drop i l)).
Proof.
  intros Hl.
  rewrite <- (take_drop i l) in Hl. apply StronglySorted_app_1_r in Hl.
  rewrite <- (take_drop n (drop i l)) in Hl.
  by apply StronglySorted_app_1_l in Hl.
Qed.

(** The chunks for a positive batch size: number and sizes. *)
Lemma chunk_shape {A} (l : list A) (bs : Z) chunks :
  (0 < bs)%Z →
  chunk l bs = Ok chunks →
  concat chunks = l ∧
  ((Z.of_nat (length chunks) - 1) * bs < Z.of_nat (length l)
      ≤ Z.of_nat (length chunks) * bs)%Z ∧
  (∀ i b, chunks !! i = Some b →
     b = take (Z.to_nat bs) (drop (i * Z.to_nat bs) l) ∧
     0 < length b ∧ (Z.of_nat (length b) ≤ bs)%Z ∧
     (S i < length chunks → Z.of_nat (length b) = bs)).
Proof.
  intros Hbs. rewrite chunk_pos by done. intros [= <-].
  pose proof (range_len_pos (length l) bs Hbs) as Hm. simpl in Hm.
  set (m := Z.to_nat (range_len 0 (Z.of_nat (length l)) bs)) in *.
  rewrite length_fmap, length_seq.
  split; [|split; [done|]].
  - apply concat_chunks. nia.
  - intros i b Hi. apply list_lookup_fmap_Some in Hi as (k & -> & Hk).
    apply lookup_seq in Hk as [-> Hk]. simpl.
    split; [done|].
    rewrite length_take, length_drop.
    assert (Z.of_nat (i * Z.to_nat bs) = Z.of_nat i * bs)%Z as Hmul
      by (rewrite Nat2Z.inj_mul, Z2Nat.id; lia).
    repeat split; try nia.
Qed.

(** What [__init__] computes for a positive batch size. *)
Lemma init_pos data (bs : Z) gpu ev bert g :
  (0 < bs)%Z →
  ∃ chunks,
    chunk (sorted key data) bs = Ok chunks ∧
    BatchGen.__init__ data bs gpu ev bert g
    = Ok ({| batch_size := bs; eval := ev; gpu := gpu; bert := bert;
             pad_token := if bert then pad_token_id else 0%Z;
             data := if ev then chunks else (shuffle chunks g).1 |},
          if ev then g else (shuffle chunks g).2).
Proof.
  intros Hbs. unfold BatchGen.__init__. rewrite chunk_pos by done. simpl.
  eexists; split; [done|].
  destruct ev; simpl; [done|]. by destruct (shuffle _ g).
Qed.

Lemma batches_nonempty_aux data (bs : Z) gpu ev bert g :
  (0 < bs)%Z →
  ∃ bg g', BatchGen.__init__ data bs gpu ev bert g = Ok (bg, g') ∧
           concat (BatchGen.data bg) ≡ₚ data.
Proof.
  intros Hbs.
  destruct (init_pos data bs gpu ev bert g Hbs) as (chunks & Hc & Hinit).
  destruct (chunk_shape _ _ _ Hbs Hc) as (Hcat & _ & _).
  eexists _, _. split; [exact Hinit|]. simpl.
  etrans; [apply concat_perm|rewrite Hcat; apply sorted_perm].
  destruct ev; [done|apply shuffle_perm].
Qed.

Lemma init_eval_rng data bs gpu bert g1 g2 :
  fst <$> (match BatchGen.__init__ data bs gpu true bert g1 with
           | Ok p => Some p | Raise _ => None end)
  = fst <$> (match BatchGen.__init__ data bs gpu true bert g2 with
             | Ok p => Some p | Raise _ => None end).
Proof. unfold BatchGen.__init__. by destruct (chunk _ _). Qed.
End batchgen_init.

(** ** [BatchGen.__iter__]: padded id tensors *)

Section padding.
Import Torch BatchGen.
Implicit Types (pad : Z) (docs : list (list Z)).

Lemma pad_loop (W : nat) pad (pre rest : list (list Z)) :
  Forall (λ d, length d ≤ W) rest →
  for_enumerate
    (λ i doc T, let* ids := long_tensor doc in set_row_prefix T i ids)
    (length pre) rest
    (((λ d, d ++ replicate (W - length d) pad) <$> pre)
       ++ replicate (length rest) (replicate W pad))
  = if decide (Forall (Forall int64) rest)
    then Ok ((λ d, d ++ replicate (W - length d) pad) <$> (pre ++ rest))
    else Raise (RuntimeError "Overflow when unpacking long").
Proof.
  revert pre. induction rest as [|d rest IH]; intros pre Hle.
  - rewrite decide_True by constructor. simpl. by rewrite !app_nil_r.
  - apply Forall_cons in Hle as [Hd Hrest]. cbn [for_enumerate].
    unfold long_tensor at 1. destruct (decide (Forall int64 d)) as [Hd64|Hd64].
    2:{ rewrite decide_False by (by intros [? _]%Forall_cons). done. }
    cbn [Py.bind]. unfold set_row_prefix at 1.
    rewrite lookup_app_r by (by rewrite length_fmap).
    rewrite length_fmap, Nat.sub_diag. cbn [length replicate lookup list_lookup].
    rewrite length_replicate. rewrite decide_True by done. cbn [Py.bind].
    rewrite drop_replicate.
    rewrite insert_app_r_alt by (by rewrite length_fmap).
    rewrite length_fmap, Nat.sub_diag. cbn [insert list_insert].
    specialize (IH (pre ++ [d]) Hrest).
    rewrite length_app, Nat.add_1_r in IH. rewrite fmap_app in IH.
    cbn [fmap list_fmap] in IH.
    rewrite <- !(assoc_L (++)) in IH. cbn [app] in IH. rewrite IH.
    destruct (decide (Forall (Forall int64) rest)) as [Hr|Hr].
    + by rewrite decide_True by (by constructor).
    + by rewrite decide_False by (by intros [_ ?]%Forall_cons).
Qed.

(** What [pad_ids] returns: it fails on an empty batch and on an id or
    a pad token that does not fit 64 bits, and otherwise pads every row
    on the right up to the longest one. *)
Lemma pad_ids_cases pad docs :
  pad_ids pad docs
  = match docs with
    | [] => Raise (ValueError "max() arg is an empty sequence")
    | _ =>
        if decide (int64 pad)
        then if decide (Forall (Forall int64) docs)
             then Ok ((λ d, d ++ replicate (max_list (length <$> docs)
                                            - length d) pad) <$> docs)
             else Raise (RuntimeError "Overflow when unpacking long")
        else Raise (RuntimeError
                      "value cannot be converted to type int64_t without overflow")
    end.
Proof.
  unfold pad_ids, max_len.
  destruct docs as [|d0 docs0] eqn:E; [done|]. rewrite <- E. cbn [Py.bind].
  unfold full2_long. destruct (decide (int64 pad)); [|done]. cbn [Py.bind].
  pose proof (pad_loop (max_list (length <$> docs)) pad [] docs) as H.
  simpl in H. unfold full2. apply H.
  apply Forall_forall. intros d Hd.
  apply max_list_elem_of_le. apply list_elem_of_fmap. eauto.
Qed.

Lemma pad_ids_spec pad docs :
  docs ≠ [] → int64 pad → Forall (Forall int64) docs →
  pad_ids pad docs
  = Ok ((λ d, d ++ replicate (max_list (length <$> docs) - length d) pad)
          <$> docs).
Proof.
  intros Hne Hpad Hids. rewrite pad_ids_cases.
  destruct docs; [done|]. by rewrite !decide_True.
Qed.

Lemma pad_ids_Ok pad docs T :
  pad_ids pad docs = Ok T →
  docs ≠ [] ∧ int64 pad ∧ Forall (Forall int64) docs ∧
  T = (λ d, d ++ replicate (max_list (length <$> docs) - length d) pad)
        <$> docs.
Proof.
  rewrite pad_ids_cases. destruct docs as [|d0 docs0] eqn:E; [done|].
  rewrite <- E. repeat case_decide; try done. intros [= <-].
  split_and!; try done. by rewrite E.
Qed.

Lemma pad_ids_raises pad docs e :
  pad_ids pad docs = Raise e →
  docs = [] ∨ ∃ msg, e = RuntimeError msg ∧
                     ¬ (int64 pad ∧ Forall (Forall int64) docs).
Proof.
  rewrite pad_ids_cases. destruct docs as [|d0 docs0] eqn:E; [by left|].
  rewrite <- E. right. repeat case_decide; try done; injection H as <-;
    (eexists; split; [done|]); tauto.
Qed.

Lemma pad_ids_empty pad : pad_ids pad [] = Raise (ValueError "max() arg is an empty sequence").
Proof. done. Qed.
End padding.

(** ** [BatchGen.__iter__]: one-hot tensors *)

Section one_hot.
Import Torch BatchGen.
Context {A : Type}.
Implicit Types (T : list (list (list A))).

Lemma get3_insert T i j k x M r :
  T !! i = Some M → M !! j = Some r → k < length r →
  ∀ i' j' k',
    get3 (<[i := <[j := <[k := x]> r]> M]> T) i' j' k'
    = if decide (i' = i ∧ j' = j ∧ k' = k) then Some x else get3 T i' j' k'.
Proof.
  intros HM Hr Hk i' j' k'. unfold get3.
  destruct (decide (i' = i)) as [->|Hi].
  - rewrite list_lookup_insert_eq by (by eapply lookup_lt_Some). simpl.
    rewrite HM. simpl.
    destruct (decide (j' = j)) as [->|Hj].
    + rewrite list_lookup_insert_eq by (by eapply lookup_lt_Some). simpl.
      rewrite Hr. simpl.
      destruct (decide (k' = k)) as [->|Hk'].
      * rewrite list_lookup_insert_eq by done. by rewrite decide_True.
      * rewrite list_lookup_insert_ne by done. rewrite decide_False by (intros (? & ? & ?); done). done.
    + rewrite list_lookup_insert_ne by done. rewrite decide_False by (intros (? & ? & ?); done). done.
  - rewrite list_lookup_insert_ne by done. rewrite decide_False by (intros (? & ? & ?); done). done.
Qed.

Lemma set3_get3 T i j k x T' :
  set3 T i j k x = Ok T' →
  is_Some (get3 T i j k) ∧
  ∀ i' j' k',
    get3 T' i' j' k'
    = if decide (i' = i ∧ j' = j ∧ k' = k) then Some x else get3 T i' j' k'.
Proof.
  unfold set3.
  destruct (T !! i) as [M|] eqn:HM; [|done].
  destruct (M !! j) as [r|] eqn:Hr; [|done].
  case_decide as Hk; [|done]. intros [= <-]. split.
  - unfold get3. rewrite HM. simpl. rewrite Hr. simpl.
    by apply lookup_lt_is_Some.
  - by apply get3_insert.
Qed.

Lemma set3_ok T i j k x :
  is_Some (get3 T i j k) → ∃ T', set3 T i j k x = Ok T'.
Proof.
  unfold get3, set3.
  destruct (T !! i) as [M|]; simpl; [|by intros []].
  destruct (M !! j) as [r|]; simpl; [|by intros []].
  intros Hk%lookup_lt_is_Some. rewrite decide_True by done. eauto.
Qed.
End one_hot.

Section one_hot_loops.
Import Torch BatchGen.
Context {A : Type} (x : A).
Implicit Types (T : list (list (list A))) (doc : list nat) (ids : list (list nat)).

Lemma set3_shape T i j k T' : set3 T i j k x = Ok T' → same_shape T T'.
Proof.
  intros [Hin Heq]%set3_get3 i' j' k'. rewrite Heq.
  case_decide as Hc; [|done]. destruct Hc as (-> & -> & ->).
  split; [done|by eauto].
Qed.

(** Closes a case whose guards contradict each other. *)
Ltac absurd_case :=
  exfalso; destruct_and?; simplify_eq;
  match goal with
  | H : ¬ _ |- _ => apply H; split_and!; (done || lia || congruence)
  end.

(** The inner loop writes [x] at [(i, j, doc[j - j0])] for the tokens
    [j0 ≤ j] of the document and nothing else. *)
Lemma row_loop i doc j0 T T' :
  for_enumerate (λ j tag T, set3 T i j tag x) j0 doc T = Ok T' →
  same_shape T T' ∧
  ∀ i' j' k',
    get3 T' i' j' k'
    = if decide (i' = i ∧ j0 ≤ j' ∧ doc !! (j' - j0) = Some k')
      then Some x else get3 T i' j' k'.
Proof.
  revert j0 T. induction doc as [|tag doc IH]; intros j0 T; simpl.
  - intros [= <-]. split; [done|]. intros i' j' k'.
    rewrite decide_False; [done|]. by intros (_ & _ & ?).
  - destruct (set3 T i j0 tag x) as [T1|] eqn:Hset; [|done]. simpl.
    intros [Hsh Heq]%IH.
    pose proof (set3_shape _ _ _ _ _ Hset) as Hsh1.
    apply set3_get3 in Hset as [_ Heq1].
    split.
    + intros i' j' k'. unfold same_shape in *. by rewrite Hsh, Hsh1.
    + intros i' j' k'. rewrite Heq, Heq1.
      destruct (decide (j' = j0)) as [->|Hj].
      * rewrite Nat.sub_diag. simpl.
        repeat case_decide; try done; try lia; absurd_case.
      * destruct (decide (j0 < j')) as [Hlt|Hge].
        -- replace (j' - j0) with (S (j' - S j0)) by lia. simpl.
           repeat case_decide; try done; try lia; absurd_case.
        -- repeat case_decide; try done; try lia; absurd_case.
Qed.

(** The outer loop does so for every document from row [i0] on. *)
Lemma rows_loop ids i0 T T' :
  for_enumerate
    (λ i doc T, for_enumerate (λ j tag T, set3 T i j tag x) 0 doc T)
    i0 ids T = Ok T' →
  same_shape T T' ∧
  ∀ i' j' k',
    get3 T' i' j' k'
    = if decide (i0 ≤ i' ∧ get2 ids (i' - i0) j' = Some k')
      then Some x else get3 T i' j' k'.
Proof.
  revert i0 T. induction ids as [|doc ids IH]; intros i0 T; simpl.
  - intros [= <-]. split; [done|]. intros i' j' k'.
    rewrite decide_False; [done|]. by intros (_ & ?).
  - destruct (for_enumerate _ 0 doc T) as [T1|] eqn:Hrow; [|done]. simpl.
    intros [Hsh Heq]%IH. apply row_loop in Hrow as [Hsh1 Heq1].
    split.
    + intros i' j' k'. unfold same_shape in *. by rewrite Hsh, Hsh1.
    + intros i' j' k'. rewrite Heq, Heq1. unfold get2.
      destruct (decide (i' = i0)) as [->|Hi].
      * rewrite Nat.sub_diag. simpl. rewrite Nat.sub_0_r.
        repeat case_decide; try done; try lia; absurd_case.
      * destruct (decide (i0 < i')) as [Hlt|Hge].
        -- replace (i' - i0) with (S (i' - S i0)) by lia. simpl.
           repeat case_decide; try done; try lia; absurd_case.
        -- repeat case_decide; try done; try lia; absurd_case.
Qed.

Lemma get3_full3 (n W K : nat) (v : A) i j k :
  get3 (full3 n W K v) i j k
  = if decide (i < n ∧ j < W ∧ k < K) then Some v else None.
Proof.
  unfold get3, full3.
  destruct (decide (i < n)) as [Hi|Hi].
  - rewrite lookup_replicate_2 by done. simpl.
    destruct (decide (j < W)) as [Hj|Hj].
    + rewrite lookup_replicate_2 by done. simpl.
      destruct (decide (k < K)) as [Hk|Hk].
      * rewrite lookup_replicate_2 by done. by rewrite decide_True.
      * rewrite lookup_ge_None_2 by (rewrite length_replicate; lia).
        rewrite decide_False by (intros (? & ? & ?); done). done.
    + rewrite lookup_ge_None_2 by (rewrite length_replicate; lia).
      rewrite decide_False by (intros (? & ? & ?); done). done.
  - rewrite lookup_ge_None_2 by (rewrite length_replicate; lia).
    rewrite decide_False by (intros (? & ? & ?); done). done.
Qed.
End one_hot_loops.

Section one_hot_spec.
Import Torch BatchGen.

(** The tensor [one_hot] returns: inside the shape, 1 where the id of
    token [j] of document [i] is [k], and 0 everywhere else. *)
Lemma one_hot_spec rows width depth ids T :
  one_hot rows width depth ids = Ok T →
  ∀ i j k,
    get3 T i j k
    = if decide (i < rows ∧ j < width ∧ k < depth)
      then Some (if decide (get2 ids i j = Some k) then Fin 1 else Fin 0)
      else None.
Proof.
  unfold one_hot. intros [Hsh Heq]%rows_loop i j k.
  specialize (Hsh i j k). rewrite Heq in *. rewrite get3_full3 in *.
  rewrite Nat.sub_0_r in *.
  destruct (decide (get2 ids i j = Some k)) as [Hc|Hc].
  - rewrite decide_True in * by (split; [lia|done]).
    case_decide; [done|]. destruct Hsh as [[? [=]] _]. done.
  - rewrite decide_False by (intros [_ ?]; done). done.
Qed.
End one_hot_spec.

(** ** [BatchGen.__iter__]: the yielded tuple *)

Section collate.
Import Torch BatchGen.
Context `{S32 : !Single}.

Lemma bind_Ok {A B} (m : result A) (k : A → result B) b :
  Py.bind m k = Ok b → ∃ a, m = Ok a ∧ k a = Ok b.
Proof. destruct m; [eauto|done]. Qed.

Lemma max_len_Ok {A} (xs : list (list A)) W :
  max_len xs = Ok W → W = max_list (length <$> xs).
Proof. unfold max_len. destruct xs; [done|]. by intros [= <-]. Qed.

Lemma tensors_nonempty cls self batch t :
  tensors_of cls self batch = Ok t → batch ≠ [].
Proof.
  intros H ->. unfold tensors_of in H. simpl in H. by destruct (eval self).
Qed.

(** What the tensors of a batch were computed from. *)
Lemma tensors_inv cls self batch t :
  tensors_of cls self batch = Ok t →
  pad_ids (pad_token self) (ex_context <$> batch) = Ok (context_id t) ∧
  pad_ids (pad_token self) (ex_question <$> batch) = Ok (question_id t) ∧
  (bert self = true →
   context_feature t = None ∧ context_tag t = None ∧ context_ent t = None) ∧
  (bert self = false →
   ∃ P N CT CE,
     pos_size cls = Some P ∧ ner_size cls = Some N ∧
     context_tag t = Some CT ∧ context_ent t = Some CE ∧
     one_hot (length batch) (max_list (length <$> (ex_context <$> batch))) P
       (ex_tags <$> batch) = Ok CT ∧
     one_hot (length batch) (max_list (length <$> (ex_context <$> batch))) N
       (ex_ents <$> batch) = Ok CE).
Proof.
  intros H. pose proof (tensors_nonempty _ _ _ _ H) as Hne.
  unfold tensors_of in H.
  apply bind_Ok in H as (_ & _ & H).
  apply bind_Ok in H as (W & HW & H).
  apply bind_Ok in H as (cid & Hcid & H).
  apply bind_Ok in H as ([[cf ct] ce] & Hfe & H).
  apply bind_Ok in H as (qid & Hqid & H).
  injection H as <-. simpl.
  split; [done|]. split; [done|]. split.
  { intros Hbert. rewrite Hbert in Hfe. by injection Hfe as <- <- <-. }
  intros Hbert. rewrite Hbert in Hfe. simpl in Hfe.
  apply bind_Ok in Hfe as (cf' & _ & Hfe).
  apply bind_Ok in Hfe as (P & HP & Hfe).
  apply bind_Ok in Hfe as (CT & HCT & Hfe).
  apply bind_Ok in Hfe as (N & HN & Hfe).
  apply bind_Ok in Hfe as (CE & HCE & Hfe).
  injection Hfe as <- <- <-.
  apply max_len_Ok in HW as ->.
  exists P, N, CT, CE. unfold size_attr in HP, HN.
  destruct (pos_size cls); [|done]. destruct (ner_size cls); [|done].
  by simplify_eq.
Qed.

(** Pinning changes no tensor and fails exactly without CUDA. *)
Lemma pin_tensors_cases cuda self (b : Batch) :
  (bert self = true →
   context_feature b = None ∧ context_tag b = None ∧ context_ent b = None) →
  pin_tensors cuda self b
  = if gpu self && negb cuda
    then Raise (RuntimeError
                  "Cannot access accelerator device when none is available.")
    else Ok b.
Proof.
  intros Hnone. unfold pin_tensors, pin_memory.
  destruct (gpu self); [|done]. destruct cuda; [|done]. cbn.
  destruct b as [cid cf ct ce cm qid qm tx sp an]. cbn in *.
  destruct (bert self); [|done]. cbn.
  by destruct (Hnone eq_refl) as (-> & -> & ->).
Qed.

(** A tuple is yielded when the tensors can be built and, with [gpu]
    set, pinned; it then holds the tensors as they were built. *)
Lemma collate_Ok cuda cls self batch t :
  collate cuda cls self batch = Ok t ↔
  tensors_of cls self batch = Ok t ∧ (gpu self = true → cuda = true).
Proof.
  unfold collate. destruct (tensors_of cls self batch) as [b|e] eqn:Hb;
    cbn [Py.bind]; [|split; [done|by intros [? _]]].
  rewrite pin_tensors_cases by (by apply tensors_inv in Hb as (_ & _ & ? & _)).
  destruct (gpu self), cuda; cbn; split; try done;
    try (intros [= <-]; split; [done|by auto]);
    try (by intros [[= <-] _]).
  intros [_ H]. by specialize (H eq_refl).
Qed.

Lemma collate_nonempty cuda cls self batch t :
  collate cuda cls self batch = Ok t → batch ≠ [].
Proof. intros [H _]%collate_Ok. by eapply tensors_nonempty. Qed.

(** What a yielded tuple was computed from. *)
Lemma collate_inv cuda cls self batch t :
  collate cuda cls self batch = Ok t →
  pad_ids (pad_token self) (ex_context <$> batch) = Ok (context_id t) ∧
  pad_ids (pad_token self) (ex_question <$> batch) = Ok (question_id t) ∧
  (bert self = false →
   ∃ P N CT CE,
     pos_size cls = Some P ∧ ner_size cls = Some N ∧
     context_tag t = Some CT ∧ context_ent t = Some CE ∧
     one_hot (length batch) (max_list (length <$> (ex_context <$> batch))) P
       (ex_tags <$> batch) = Ok CT ∧
     one_hot (length batch) (max_list (length <$> (ex_context <$> batch))) N
       (ex_ents <$> batch) = Ok CE).
Proof.
  intros [H _]%collate_Ok. by apply tensors_inv in H as (? & ? & _ & ?).
Qed.
End collate.

(** ** [BatchGen.__iter__] yields on well-formed batches *)

Section totality.
Import Torch BatchGen.
Context `{S32 : !Single}.

(** A loop whose body keeps an invariant and does not raise on the
    elements the list holds does not raise. *)
Lemma for_enumerate_total {A St} (body : nat → A → St → result St)
    (Inv : St → Prop) (P : nat → A → Prop) l i0 s :
  Inv s →
  (∀ k x, l !! k = Some x → P (i0 + k) x) →
  (∀ i x s, P i x → Inv s → ∃ s', body i x s = Ok s' ∧ Inv s') →
  ∃ s', for_enumerate body i0 l s = Ok s' ∧ Inv s'.
Proof.
  intros Hs Hl Hbody. revert i0 s Hs Hl.
  induction l as [|x l IH]; intros i0 s Hs Hl; simpl; [by eauto|].
  destruct (Hbody i0 x s) as (s1 & -> & Hs1); [|done|].
  { specialize (Hl 0 x eq_refl). by rewrite Nat.add_0_r in Hl. }
  simpl. apply IH; [done|]. intros k y Hk.
  specialize (Hl (S k) y Hk). by rewrite Nat.add_succ_r in Hl.
Qed.

Lemma full3_shape {A} n m k (v : A) : shape3 n m k (full3 n m k v).
Proof.
  unfold shape3, full3. split; [by rewrite length_replicate|].
  apply Forall_replicate. split; [by rewrite length_replicate|].
  apply Forall_replicate. by rewrite length_replicate.
Qed.

Lemma shape3_lookup {A} n m k (T : list (list (list A))) i j :
  shape3 n m k T → i < n → j < m →
  ∃ M r, T !! i = Some M ∧ M !! j = Some r ∧ length M = m ∧ length r = k ∧
         Forall (λ r : list A, length r = k) M.
Proof.
  intros [Hn HT] Hi Hj.
  destruct (lookup_lt_is_Some_2 T i) as [M HM]; [lia|].
  pose proof (Forall_lookup_1 _ _ _ _ HT HM) as [Hm HM'].
  destruct (lookup_lt_is_Some_2 M j) as [r Hr]; [lia|].
  pose proof (Forall_lookup_1 _ _ _ _ HM' Hr) as Hk.
  by exists M, r.
Qed.

Lemma shape3_insert {A} n m k (T : list (list (list A))) i j M r' :
  shape3 n m k T → T !! i = Some M → length M = m →
  Forall (λ r : list A, length r = k) M → length r' = k →
  shape3 n m k (<[i := <[j := r']> M]> T).
Proof.
  intros [Hn HT] HM Hm HM' Hr'. split; [by rewrite length_insert|].
  apply Forall_insert; [done|]. split; [by rewrite length_insert|].
  by apply Forall_insert.
Qed.

Lemma set3_total {A} n m k (T : list (list (list A))) i j t (x : A) :
  shape3 n m k T → i < n → j < m → t < k →
  ∃ T', set3 T i j t x = Ok T' ∧ shape3 n m k T'.
Proof.
  intros HT Hi Hj Ht.
  destruct (shape3_lookup _ _ _ _ _ _ HT Hi Hj) as (M & r & HM & Hr & Hm & Hk & HM').
  unfold set3. rewrite HM, Hr. rewrite decide_True by lia.
  eexists; split; [done|].
  eapply shape3_insert; [done..|]. by rewrite length_insert.
Qed.

Lemma set_vec_total {A} n m k (T : list (list (list A))) i j (v : list A) :
  shape3 n m k T → i < n → j < m → length v = k →
  ∃ T', set_vec T i j v = Ok T' ∧ shape3 n m k T'.
Proof.
  intros HT Hi Hj Hv.
  destruct (shape3_lookup _ _ _ _ _ _ HT Hi Hj) as (M & r & HM & Hr & Hm & Hk & HM').
  unfold set_vec. rewrite HM, Hr. rewrite decide_True by lia.
  eexists; split; [done|]. by eapply shape3_insert.
Qed.

Lemma one_hot_total rows width depth ids :
  length ids ≤ rows →
  Forall (λ doc, length doc ≤ width ∧ Forall (λ k, k < depth) doc) ids →
  ∃ T, one_hot rows width depth ids = Ok T.
Proof.
  intros Hrows Hids. unfold one_hot.
  destruct (for_enumerate_total
              (λ i doc T, for_enumerate (λ j tag T, set3 T i j tag (Fin 1)) 0 doc T)
              (shape3 rows width depth)
              (λ i doc, i < rows ∧ length doc ≤ width ∧ Forall (λ k, k < depth) doc)
              ids 0 (full3 rows width depth (Fin 0))) as (T & HT & _); [| | |by eauto].
  - apply full3_shape.
  - intros k doc Hk. simpl. split; [apply lookup_lt_Some in Hk; lia|].
    by apply (Forall_lookup_1 _ _ _ _ Hids Hk).
  - intros i doc T (Hi & Hlen & Hdoc) HT.
    apply (for_enumerate_total _ (shape3 rows width depth)
             (λ j tag, j < width ∧ tag < depth)); [done| |].
    + intros j tag Hj. simpl. split; [apply lookup_lt_Some in Hj; lia|].
      by apply (Forall_lookup_1 _ _ _ _ Hdoc Hj).
    + intros j tag T1 [Hj Htag] HT1. by apply (set3_total rows width depth).
Qed.

Lemma feature_tensor_total rows width F f fs rest :
  length ((f :: fs) :: rest) ≤ rows →
  Forall (λ doc, length doc ≤ width ∧ Forall (λ v, length v = F) doc)
         ((f :: fs) :: rest) →
  ∃ T, feature_tensor rows width ((f :: fs) :: rest) = Ok T.
Proof.
  intros Hrows Hall. unfold feature_tensor. cbn [Py.bind].
  assert (length f = F) as ->.
  { apply Forall_cons in Hall as [[_ Hf] _]. by apply Forall_cons in Hf as [? _]. }
  destruct (for_enumerate_total
              (λ i doc T,
                 for_enumerate (λ j feature T, set_vec T i j (tensor feature))
                   0 doc T)
              (shape3 rows width F)
              (λ i doc, i < rows ∧ length doc ≤ width ∧ Forall (λ v, length v = F) doc)
              ((f :: fs) :: rest) 0 (full3 rows width F (Fin 0)))
    as (T & HT & _); [| | |by eauto].
  - apply full3_shape.
  - intros k doc Hk. split; [apply lookup_lt_Some in Hk; simpl in *; lia|].
    by apply (Forall_lookup_1 _ _ _ _ Hall Hk).
  - intros i doc T (Hi & Hlen & Hdoc) HT.
    apply (for_enumerate_total _ (shape3 rows width F)
             (λ j v, j < width ∧ length v = F)); [done| |].
    + intros j v Hj. simpl. split; [apply lookup_lt_Some in Hj; lia|].
      by apply (Forall_lookup_1 _ _ _ _ Hdoc Hj).
    + intros j v T1 [Hj Hv] HT1.
      apply (set_vec_total rows width F); [done..|].
      unfold tensor. by rewrite length_fmap.
Qed.

(** The tensors of a well-formed batch whose ids and pad token fit 64
    bits can be built. *)
Lemma tensors_yield cls self batch :
  well_formed cls self batch →
  int64 (pad_token self) → Forall int64_ids batch →
  ∃ t, tensors_of cls self batch = Ok t.
Proof.
  intros (Hne & Hzip & Hfeat) Hpad Hids. unfold tensors_of.
  assert ((if eval self
           then assert (bool_decide (zip_len batch = 8)) "Eval expected"
           else assert (bool_decide (zip_len batch = 9)) "Train expected")
          = Ok ()) as ->.
  { destruct (eval self); rewrite Hzip; done. }
  cbn [Py.bind].
  assert (max_len (ex_context <$> batch)
          = Ok (max_list (length <$> (ex_context <$> batch)))) as ->
    by (by destruct batch).
  cbn [Py.bind].
  rewrite !pad_ids_spec;
    [|by destruct batch|done
     |apply Forall_fmap; eapply Forall_impl; [exact Hids|by intros ? [_ ?]]
     |by destruct batch|done
     |apply Forall_fmap; eapply Forall_impl; [exact Hids|by intros ? [? _]]].
  cbn [Py.bind].
  destruct (bert self) eqn:Hbert; cbn [negb Py.bind]; [by eauto|].
  destruct (Hfeat eq_refl) as (P & N & F & -> & -> & Hal).
  set (W := max_list (length <$> (ex_context <$> batch))).
  assert (∀ x, x ∈ batch → length (ex_context x) ≤ W) as HW.
  { intros x Hx. apply max_list_elem_of_le, list_elem_of_fmap.
    eexists; split; [done|]. apply list_elem_of_fmap. eauto. }
  destruct (ex_features <$> batch) as [|[|f fs] rest] eqn:Hfs.
  { by destruct batch. }
  { destruct batch as [|x batch]; [done|]. injection Hfs as Hx _.
    apply Forall_cons in Hal as [(Hctx & Hlen & _) _].
    rewrite Hx in Hlen. by destruct (ex_context x). }
  destruct (feature_tensor_total (length batch) W F f fs rest) as [cf ->].
  { rewrite <- Hfs. by rewrite length_fmap. }
  { rewrite <- Hfs. apply Forall_fmap, Forall_forall. intros x Hx. simpl.
    pose proof (proj1 (Forall_forall _ _) Hal x Hx) as (_ & Hlen & Hv & _).
    split; [rewrite Hlen; by apply HW|done]. }
  cbn [Py.bind size_attr].
  destruct (one_hot_total (length batch) W P (ex_tags <$> batch)) as [ct ->].
  { by rewrite length_fmap. }
  { apply Forall_fmap, Forall_forall. intros x Hx. simpl.
    pose proof (proj1 (Forall_forall _ _) Hal x Hx) as (_ & _ & _ & Hlen & Ht & _).
    split; [rewrite Hlen; by apply HW|done]. }
  cbn [Py.bind].
  destruct (one_hot_total (length batch) W N (ex_ents <$> batch)) as [ce ->].
  { by rewrite length_fmap. }
  { apply Forall_fmap, Forall_forall. intros x Hx. simpl.
    pose proof (proj1 (Forall_forall _ _) Hal x Hx) as (_ & _ & _ & _ & _ & Hlen & He).
    split; [rewrite Hlen; by apply HW|done]. }
  cbn [Py.bind]. by eauto.
Qed.

(** Such a batch is collated, and the generator yields a tuple for it,
    when [gpu] is not set or the host has CUDA. *)
Lemma collate_yields cuda cls self batch :
  well_formed cls self batch →
  int64 (pad_token self) → Forall int64_ids batch →
  (gpu self = true → cuda = true) →
  ∃ t, collate cuda cls self batch = Ok t.
Proof.
  intros Hwf Hpad Hids Hgpu.
  destruct (tensors_yield cls self batch Hwf Hpad Hids) as [t Ht].
  exists t. by apply collate_Ok.
Qed.
End totality.

Section collate_claims.
Context `{!BertTokenizer} `{S32 : !Torch.Single}.
Import Torch BatchGen.

(** C4. In every tuple the generator yields, [context_id] has one row
    per example, every row is as wide as the longest document of the
    batch, and row [i] is document [i] followed by the pad token, which
    is zero (in BERT mode provided the tokenizer's pad id is zero, as it
    is for the pretrained vocabulary the code loads); likewise for
    [question_id] and the questions.  By [collate_yields] a tuple is
    yielded for every well-formed batch whose ids fit 64 bits, on a
    host that can pin memory when [gpu] is set. *)
Theorem id_tensors_zero_padded data (bs : Z) gpu ev bert g bg g' cls batch t
    cuda :
  (bert = true → pad_token_id = 0%Z) →
  BatchGen.__init__ data bs gpu ev bert g = Ok (bg, g') →
  batch ∈ BatchGen.data bg →
  collate cuda cls bg batch = Ok t →
  let cw := max_list (length <$> (ex_context <$> batch)) in
  let qw := max_list (length <$> (ex_question <$> batch)) in
  length (context_id t) = length batch ∧
  length (question_id t) = length batch ∧
  ∀ i x, batch !! i = Some x →
    context_id t !! i
    = Some (ex_context x ++ replicate (cw - length (ex_context x)) 0%Z) ∧
    length (ex_context x ++ replicate (cw - length (ex_context x)) 0%Z) = cw ∧
    question_id t !! i
    = Some (ex_question x ++ replicate (qw - length (ex_question x)) 0%Z) ∧
    length (ex_question x ++ replicate (qw - length (ex_question x)) 0%Z) = qw.
Proof.
  intros Hpad Hinit Hin Hc cw qw.
  assert (pad_token bg = 0%Z) as Hzero.
  { unfold BatchGen.__init__ in Hinit. apply bind_Ok in Hinit as (chunks & _ & Hinit).
    destruct (if negb ev then _ else _) as [d g1]. injection Hinit as <- <-.
    simpl. destruct bert; [by apply Hpad|done]. }
  pose proof (collate_nonempty _ _ _ _ _ Hc) as Hne.
  apply collate_inv in Hc as (Hcid & Hqid & _).
  rewrite Hzero in *.
  apply pad_ids_Ok in Hcid as (_ & _ & _ & ->).
  apply pad_ids_Ok in Hqid as (_ & _ & _ & ->).
  rewrite !length_fmap. split; [done|]. split; [done|].
  intros i x Hi. rewrite !list_lookup_fmap, Hi. simpl.
  rewrite !length_app, !length_replicate.
  assert (length (ex_context x) ≤ cw).
  { apply max_list_elem_of_le, list_elem_of_fmap. eexists; split; [done|].
    apply list_elem_of_fmap. eexists; split; [done|].
    by eapply list_elem_of_lookup_2. }
  assert (length (ex_question x) ≤ qw).
  { apply max_list_elem_of_le, list_elem_of_fmap. eexists; split; [done|].
    apply list_elem_of_fmap. eexists; split; [done|].
    by eapply list_elem_of_lookup_2. }
  split_and!; [done|lia|done|lia].
Qed.

(** C5. In every tuple a non-BERT generator yields, [context_tag] and
    [context_ent] have the shape batch size by longest document by
    [pos_size] (resp. [ner_size]), and the entry at [(i, j, k)] is 1
    when [k] is the tag (resp. entity) id of token [j] of example [i]
    and 0 otherwise; so for an example whose tag list is as long as its
    document, every entry at a padding position [j >= len(doc_i)] is 0. *)
Theorem tag_tensors_one_hot cls (self : BatchGen.t) batch t cuda :
  bert self = false →
  collate cuda cls self batch = Ok t →
  let rows := length batch in
  let width := max_list (length <$> (ex_context <$> batch)) in
  ∃ P N CT CE,
    pos_size cls = Some P ∧ ner_size cls = Some N ∧
    context_tag t = Some CT ∧ context_ent t = Some CE ∧
    (∀ i j k, is_Some (get3 CT i j k) ↔ i < rows ∧ j < width ∧ k < P) ∧
    (∀ i j k, is_Some (get3 CE i j k) ↔ i < rows ∧ j < width ∧ k < N) ∧
    ∀ i x, batch !! i = Some x →
      (∀ j k, j < width → k < P →
         get3 CT i j k
         = Some (if decide (ex_tags x !! j = Some k) then Fin 1 else Fin 0)) ∧
      (∀ j k, j < width → k < N →
         get3 CE i j k
         = Some (if decide (ex_ents x !! j = Some k) then Fin 1 else Fin 0)) ∧
      (∀ j k, length (ex_tags x) = length (ex_context x) →
         length (ex_context x) ≤ j < width → k < P →
         get3 CT i j k = Some (Fin 0)) ∧
      (∀ j k, length (ex_ents x) = length (ex_context x) →
         length (ex_context x) ≤ j < width → k < N →
         get3 CE i j k = Some (Fin 0)).
Proof.
  intros Hbert Hc rows width.
  apply collate_inv in Hc as (_ & _ & Hc).
  destruct (Hc Hbert) as (P & N & CT & CE & HP & HN & HCT & HCE & Htag & Hent).
  pose proof (one_hot_spec _ _ _ _ _ Htag) as Ht.
  pose proof (one_hot_spec _ _ _ _ _ Hent) as He.
  exists P, N, CT, CE. split_and!; [done..| | |].
  - intros i j k. rewrite Ht. case_decide; [by eauto|].
    split; [by intros []|done].
  - intros i j k. rewrite He. case_decide; [by eauto|].
    split; [by intros []|done].
  - intros i x Hi.
    assert (i < rows) by (by eapply lookup_lt_Some).
    assert (∀ j, get2 (ex_tags <$> batch) i j = ex_tags x !! j) as Ht2
      by (intros j; unfold get2; by rewrite list_lookup_fmap, Hi).
    assert (∀ j, get2 (ex_ents <$> batch) i j = ex_ents x !! j) as He2
      by (intros j; unfold get2; by rewrite list_lookup_fmap, Hi).
    split_and!.
    + intros j k Hj Hk. rewrite Ht, decide_True by done. by rewrite Ht2.
    + intros j k Hj Hk. rewrite He, decide_True by done. by rewrite He2.
    + intros j k Hlen Hj Hk. rewrite Ht, decide_True by (split_and!; [done|lia|done]).
      rewrite Ht2, lookup_ge_None_2 by lia. by rewrite decide_False.
    + intros j k Hlen Hj Hk. rewrite He, decide_True by (split_and!; [done|lia|done]).
      rewrite He2, lookup_ge_None_2 by lia. by rewrite decide_False.
Qed.
End collate_claims.

Section batchgen_claims.
Context `{!BertTokenizer}.
Import BatchGen.

(** C3. For a positive batch size, [BatchGen] sorts the examples in
    ascending order of [len(x[1])] and cuts the sorted list into
    consecutive chunks: every chunk but the last has exactly
    [batch_size] examples, the last has between one and [batch_size],
    and every batch the generator holds is one of these chunks and is
    itself in ascending order of length. *)
Theorem batches_sorted_then_chunked data (bs : Z) gpu ev bert g :
  (0 < bs)%Z →
  ∃ chunks bg g',
    BatchGen.__init__ data bs gpu ev bert g = Ok (bg, g') ∧
    sorted key data ≡ₚ data ∧
    StronglySorted (key_le key) (sorted key data) ∧
    chunk (sorted key data) bs = Ok chunks ∧
    concat chunks = sorted key data ∧
    (∀ i b, chunks !! i = Some b →
       0 < length b ∧ (Z.of_nat (length b) ≤ bs)%Z ∧
       (S i < length chunks → Z.of_nat (length b) = bs)) ∧
    BatchGen.data bg ≡ₚ chunks ∧
    (ev = true → BatchGen.data bg = chunks) ∧
    (∀ b, b ∈ BatchGen.data bg →
       StronglySorted (key_le key) b ∧ (Z.of_nat (length b) ≤ bs)%Z).
Proof.
  intros Hbs.
  destruct (init_pos data bs gpu ev bert g Hbs) as (chunks & Hc & Hinit).
  destruct (chunk_shape _ _ _ Hbs Hc) as (Hcat & Hlen & Hshape).
  eexists chunks, _, _. split; [exact Hinit|]. simpl.
  assert ((if ev then chunks else (shuffle chunks g).1) ≡ₚ chunks) as Hperm
    by (destruct ev; [done|apply shuffle_perm]).
  split_and!.
  - apply sorted_perm.
  - apply sorted_sorted.
  - done.
  - done.
  - intros i b Hi. by destruct (Hshape i b Hi) as (_ & ? & ? & ?).
  - done.
  - by intros ->.
  - intros b Hb. rewrite Hperm in Hb.
    apply list_elem_of_lookup in Hb as [i Hi].
    destruct (Hshape i b Hi) as (-> & _ & Hle & _).
    split; [apply sorted_take_drop, sorted_sorted | done].
Qed.

(** C9. For a positive batch size, the batches partition the input:
    their concatenation is a permutation of the input list, and their
    number [len(BatchGen)] is the ceiling of [len(data) / batch_size],
    that is the one [m] with [(m - 1) * batch_size < len(data) <= m *
    batch_size]. *)
Theorem batches_partition_input data (bs : Z) gpu ev bert g :
  (0 < bs)%Z →
  ∃ bg g',
    BatchGen.__init__ data bs gpu ev bert g = Ok (bg, g') ∧
    concat (BatchGen.data bg) ≡ₚ data ∧
    ((Z.of_nat (__len__ bg) - 1) * bs < Z.of_nat (length data)
       ≤ Z.of_nat (__len__ bg) * bs)%Z ∧
    Z.of_nat (__len__ bg) = ((Z.of_nat (length data) + bs - 1) / bs)%Z.
Proof.
  intros Hbs.
  destruct (init_pos data bs gpu ev bert g Hbs) as (chunks & Hc & Hinit).
  destruct (chunk_shape _ _ _ Hbs Hc) as (Hcat & Hlen & _).
  eexists _, _. split; [exact Hinit|]. unfold __len__. simpl.
  assert ((if ev then chunks else (shuffle chunks g).1) ≡ₚ chunks) as Hperm
    by (destruct ev; [done|apply shuffle_perm]).
  rewrite Hperm.
  rewrite <- (sorted_perm key data) at 1. rewrite <- Hcat at 1.
  rewrite (Permutation_length (sorted_perm key data)) in Hlen.
  split; [done|]. split; [done|].
  apply Z.div_unique with (r := (Z.of_nat (length data) + bs - 1
               - bs * Z.of_nat (length chunks))%Z); lia.
Qed.
End batchgen_claims.

Section epochs.
Context `{!Framework} `{!BertTokenizer} `{S32 : !Torch.Single}.
Import BatchGen DocReaderModel Train.

(** Nothing but the construction of a training generator draws from
    [random]. *)
Lemma bind_py_random {A B} (m : M A) (k : A → M B) :
  (∀ w, py_random (m w).2 = py_random w) →
  (∀ a w, py_random (k a w).2 = py_random w) →
  ∀ w, py_random (mbindM m k w).2 = py_random w.
Proof.
  intros Hm Hk w. unfold mbindM. specialize (Hm w).
  destruct (m w) as [[a|e] w1]; simpl in *; [by rewrite Hk|done].
Qed.

Lemma for_each_py_random {A St} (body : A → St → M St) (l : list A) :
  (∀ x s w, py_random (body x s w).2 = py_random w) →
  ∀ s w, py_random (for_each body l s w).2 = py_random w.
Proof.
  intros Hbody. induction l as [|x l IH]; intros s w; [done|].
  cbn [for_each]. apply bind_py_random; [apply Hbody|intros; apply IH].
Qed.

Lemma update_py_random model batch w :
  py_random (update model batch w).2 = py_random w.
Proof.
  unfold update. destruct (answ batch); [|done].
  destruct (train_step _ _ _ _ _ _ _) as [[[[??]?]?]?].
  by destruct (getitem _ _).
Qed.

Lemma train_loop_py_random cls args model bg w :
  py_random (train_loop cls args model bg w).2 = py_random w.
Proof.
  unfold train_loop. apply for_each_py_random. clear.
  intros [i next] model w. unfold mbindM, lift.
  destruct next as [batch|e]; [|done].
  pose proof (update_py_random model batch w) as Hu.
  destruct (update model batch w) as [[[u|e] m] w1]; [|done].
  destruct (log_per_updates args =? 0)%Z; [done|].
  by destruct (_ =? 0)%Z.
Qed.

Lemma evaluate_py_random cls model bg w :
  py_random (evaluate cls model bg w).2 = py_random w.
Proof.
  unfold evaluate. apply for_each_py_random. clear.
  intros next [predictions model] w. unfold mbindM, lift.
  destruct next as [batch|e]; [|done].
  by destruct (predict model batch) as [[p|e] m].
Qed.

Lemma save_py_random self filename epoch scores w :
  py_random (save self filename epoch scores w).2 = py_random w.
Proof.
  unfold save, mbindM, cuda_get_rng_state, try_except, torch_save, emit, ret, raise.
  destruct scores as [|a [|b [|c scores]]]; try done.
  destruct (torch_cuda_random w); [|done].
  by destruct (io w) as [|[| |] o].
Qed.

Lemma new_batches_eval_py_random data bs gpu bert w :
  py_random (new_batches data bs gpu true bert w).2 = py_random w.
Proof.
  unfold new_batches, BatchGen.__init__.
  by destruct (chunk _ _).
Qed.

(** An epoch whose training generator can be built leaves the state of
    [random] where that construction left it. *)
Lemma epoch_body_py_random cls args train dev dev_y opt epoch_0 epoch s w b bt g' :
  opt !! "bert" = Some b →
  BatchGen.__init__ train (arg_batch_size args) (cuda args) false (truthy b)
    (py_random w) = Ok (bt, g') →
  py_random (epoch_body cls args train dev dev_y opt epoch_0 epoch s w).2 = g'.
Proof.
  intros Hb Hinit. destruct s as [model best]. unfold epoch_body.
  unfold mbindM at 1. cbn [emit].
  unfold mbindM at 1, lift at 1. unfold getitem at 1. rewrite Hb.
  unfold mbindM at 1, new_batches at 1.
  cbn [py_random add_log]. rewrite Hinit.
  set (w1 := set_py_random _ _).
  change g' with (py_random w1). generalize w1. clear.
  apply bind_py_random; [apply train_loop_py_random|]. intros m1.
  apply bind_py_random; [done|]. intros _.
  apply bind_py_random; [done|]. intros b'.
  apply bind_py_random; [apply new_batches_eval_py_random|]. intros bd.
  apply bind_py_random; [apply evaluate_py_random|]. intros [predictions m2].
  apply bind_py_random; [done|]. intros accuracy.
  apply bind_py_random; [done|]. intros _.
  apply bind_py_random; [by destruct (save_dawn_logs args)|]. intros _.
  destruct (_ || _); [|done].
  apply bind_py_random; [apply save_py_random|]. intros _.
  destruct (fgt _ _); [|done].
  apply bind_py_random; [|done].
  intros w. unfold copyfile. by destruct (fs w !! _).
Qed.
End epochs.

Section reshuffle.
Context `{!Framework} `{!BertTokenizer} `{S32 : !Torch.Single}.
Import BatchGen Train.

(** C6. For a positive batch size, a training generator
    ([evaluation=False]) holds the result of [random.shuffle] on the list
    of chunks: a permutation of it that the draws decide.  The batch that
    comes last is the chunk the first draw picks, every arrangement of
    the chunks is the order of the generator for some state of [random],
    and that state advances by one draw per chunk but the first.  Each
    pass through the body of the epoch loop builds such a generator from
    the state of [random] it finds, runs the training loop over it and
    leaves the state where the shuffle left it, so the generator of the
    next pass is shuffled with the draws that follow.  An evaluation
    generator holds the chunks in sorted order and leaves the state of
    [random] alone: two evaluation generators over the same data hold
    the same batches in the same order whatever that state is. *)
Theorem shuffled_for_training_only data (bs : Z) gpu bert g1 g2 :
  (0 < bs)%Z →
  ∃ chunks bt gt be,
    chunk (sorted key data) bs = Ok chunks ∧
    BatchGen.__init__ data bs gpu false bert g1 = Ok (bt, gt) ∧
    (BatchGen.data bt, gt) = shuffle chunks g1 ∧
    BatchGen.data bt ≡ₚ chunks ∧
    tape gt = drop (length chunks - 1) (tape g1) ∧
    (∀ w, py_random w = g1 →
          new_batches data bs gpu false bert w = (Ok bt, set_py_random gt w)) ∧
    BatchGen.__init__ data bs gpu true bert g1 = Ok (be, g1) ∧
    BatchGen.__init__ data bs gpu true bert g2 = Ok (be, g2) ∧
    BatchGen.data be = chunks ∧
    (∀ w, new_batches data bs gpu true bert w
          = (Ok be, set_py_random (py_random w) w)) ∧
    (∀ n, length chunks = S n →
          BatchGen.data bt !! n = chunks !! (randbelow (S n) g1).1) ∧
    (∀ target, target ≡ₚ chunks →
       ∃ g bt' g', BatchGen.__init__ data bs gpu false bert g = Ok (bt', g') ∧
                   BatchGen.data bt' = target) ∧
    (∀ cls args dev dev_y opt b epoch_0 epoch best,
       arg_batch_size args = bs → cuda args = gpu →
       opt !! "bert" = Some b → truthy b = bert →
       ∃ K, ∀ model w, py_random w = g1 →
         epoch_body cls args data dev dev_y opt epoch_0 epoch (model, best) w
         = mbindM (train_loop cls args model bt) K
             (set_py_random gt
                (add_log {| lr_logger := "__main__"; lr_level := WARNING;
                            lr_msg := "Epoch {}" |} w)) ∧
         py_random
           (epoch_body cls args data dev dev_y opt epoch_0 epoch (model, best) w).2
         = gt).
Proof.
  intros Hbs.
  destruct (init_pos data bs gpu false bert g1 Hbs) as (chunks & Hc & Ht).
  destruct (init_pos data bs gpu true bert g1 Hbs) as (chunks1 & Hc1 & He1).
  destruct (init_pos data bs gpu true bert g2 Hbs) as (chunks2 & Hc2 & He2).
  rewrite Hc in Hc1, Hc2. injection Hc1 as <-. injection Hc2 as <-.
  exists chunks. eexists _, _, _. cbn [BatchGen.data].
  split_and!; [done|exact Ht|by destruct (shuffle chunks g1)|apply shuffle_perm
              |apply shuffle_tape| |exact He1|exact He2|done| | | |].
  - intros w <-. unfold new_batches. by rewrite Ht.
  - intros w. unfold new_batches.
    destruct (init_pos data bs gpu true bert (py_random w) Hbs)
      as (chunks3 & Hc3 & He3).
    rewrite Hc in Hc3. injection Hc3 as <-. by rewrite He3.
  - intros n Hn. by apply shuffle_last.
  - intros target Hp. destruct (shuffle_reaches chunks target Hp) as [g Hg].
    destruct (init_pos data bs gpu false bert g Hbs) as (chunks3 & Hc3 & Ht3).
    rewrite Hc in Hc3. injection Hc3 as <-.
    eexists g, _, _. split; [exact Ht3|]. simpl. exact Hg.
  - intros cls args dev dev_y opt b epoch_0 epoch best <- <- Hb <-.
    eexists. intros model w Hw. split.
    + unfold epoch_body.
      unfold mbindM at 1. cbn [emit].
      unfold mbindM at 1, lift at 1. unfold getitem at 1. rewrite Hb.
      unfold mbindM at 1, new_batches at 1.
      cbn [py_random add_log]. rewrite Hw, Ht. reflexivity.
    + eapply epoch_body_py_random; [exact Hb|].
      rewrite Hw. exact Ht.
Qed.
End reshuffle.

(** ** [DocReaderModel.predict] *)

Section predict.
Context `{!Framework}.
Import BatchGen DocReaderModel.

Lemma opt_is_unbound :
  ("opt" ∉ predict_locals ++ module_globals ++ builtins) ∧
  load_name predict_locals "opt" = Raise (NameError "opt").
Proof. split; [|done]. by apply (bool_decide_unpack _). Qed.

(** The comprehension on line 110 fails on its first element. *)
Lemma predict_unfold self ex :
  predict self ex = (Raise (NameError "opt"), set_training false self).
Proof. done. Qed.

(** C8. [predict] returns no predictions: on every batch the lookup of
    the unbound name [opt] on line 110 raises [NameError] before the
    network is run.  The weights and the update counter are unchanged. *)
Theorem predict_raises_NameError self ex :
  (predict self ex).1 = Raise (NameError "opt") ∧
  (∀ predictions, (predict self ex).1 ≠ Ok predictions) ∧
  network (predict self ex).2 = network self ∧
  updates (predict self ex).2 = updates self.
Proof. rewrite predict_unfold. by split_and!. Qed.
End predict.

(** ** [DocReaderModel.save] *)

Section save.
Context `{!Framework}.
Import BatchGen DocReaderModel.

Lemma save_unfold self filename epoch accuracy best_eval w s :
  torch_cuda_random w = Some s →
  save self filename epoch [accuracy; best_eval] w
  = try_except
      (let! _ := torch_save (params_of self epoch accuracy best_eval w s) filename in
       emit "drqa.model" INFO "model saved to {}")
      (λ _, emit "drqa.model" WARNING
              "[ WARN: Saving failed... continuing anyway. ]") w.
Proof.
  intros Hs. unfold save, mbindM, cuda_get_rng_state, ret. simpl. by rewrite Hs.
Qed.

(** The dictionary is assembled before the [try]: an exception raised
    there reaches the caller. *)
Lemma save_without_cuda self filename epoch accuracy best_eval w :
  torch_cuda_random w = None →
  save self filename epoch [accuracy; best_eval] w
  = (Raise (RuntimeError "CUDA is not available"), w).
Proof.
  intros Hs. unfold save, mbindM, cuda_get_rng_state, ret. simpl. by rewrite Hs.
Qed.

(** C2, amended.  Whenever the checkpoint dictionary can be assembled
    and [torch.save] completes, [save] returns normally and the file
    holds a checkpoint with the network and optimizer state
    dictionaries, the update counter, the loss meter, the config, the
    epoch, the two scores, and the three random states. *)
Theorem save_writes_full_checkpoint self filename epoch accuracy best_eval w :
  is_Some (torch_cuda_random w) →
  save_succeeds w →
  ∃ c w',
    save self filename epoch [accuracy; best_eval] w = (Ok (), w') ∧
    fs w' !! filename = Some (Pickle c) ∧
    holds_state c self epoch accuracy best_eval w.
Proof.
  intros [s Hs] Hio. rewrite (save_unfold _ _ _ _ _ _ s Hs).
  exists (params_of self epoch accuracy best_eval w s).
  unfold try_except, mbindM, torch_save, emit, save_succeeds in *.
  destruct (io w) as [|[] o]; try done; simpl.
  - eexists; split; [done|]. simpl. rewrite lookup_insert_eq.
    split; [done|]. unfold holds_state. by rewrite Hs.
  - eexists; split; [done|]. simpl. rewrite lookup_insert_eq.
    split; [done|]. unfold holds_state. by rewrite Hs.
Qed.

(** C10, amended.  Once the checkpoint dictionary is assembled, a
    failure of [torch.save] does not reach the caller: [save] returns
    normally after logging one warning.  No other file changes; the
    target file is unchanged if the failure came before the file was
    opened and is left truncated otherwise. *)
Theorem save_swallows_failure self filename epoch accuracy best_eval w :
  is_Some (torch_cuda_random w) →
  ¬ save_succeeds w →
  ∃ w',
    save self filename epoch [accuracy; best_eval] w = (Ok (), w') ∧
    log w' = log w ++ [{| lr_logger := "drqa.model"; lr_level := WARNING;
                          lr_msg := "[ WARN: Saving failed... continuing anyway. ]" |}] ∧
    (∀ f, f ≠ filename → fs w' !! f = fs w !! f) ∧
    match io w with
    | FailsAfterOpen _ :: _ => fs w' !! filename = Some Truncated
    | _ => fs w' !! filename = fs w !! filename
    end.
Proof.
  intros [s Hs] Hio. rewrite (save_unfold _ _ _ _ _ _ s Hs).
  unfold try_except, mbindM, torch_save, emit, save_succeeds in *.
  destruct (io w) as [|[] o]; try done; simpl.
  - eexists; split; [done|]. simpl. by split_and!.
  - eexists; split; [done|]. simpl. split_and!; [done| |].
    + intros f Hf. by rewrite lookup_insert_ne.
    + by rewrite lookup_insert_eq.
Qed.
End save.

(** ** The main loop *)

Section main_loop.
Context `{!Framework} `{!BertTokenizer} `{S32 : !Torch.Single}.
Import BatchGen DocReaderModel Train.

(** The evaluation loop returns only when there is no batch: it stops at
    its first one, with the exception of the collation or with the
    [NameError] of [predict]. *)
Lemma evaluate_nil cls model bg w :
  BatchGen.data bg = [] → evaluate cls model bg w = (Ok ([], model), w).
Proof. unfold evaluate, BatchGen.__iter__. by intros ->. Qed.

Lemma evaluate_cons cls model bg b rest w :
  BatchGen.data bg = b :: rest →
  evaluate cls model bg w
  = (match collate (cuda_available w) cls bg b with
     | Ok _ => Raise (NameError "opt")
     | Raise e => Raise e
     end, w).
Proof.
  unfold evaluate, BatchGen.__iter__. intros ->. simpl.
  unfold mbindM, lift. by destruct (collate (cuda_available w) cls bg b).
Qed.

Lemma evaluate_raises cls model bg w :
  BatchGen.data bg ≠ [] →
  ∃ e, evaluate cls model bg w = (Raise e, w).
Proof.
  destruct (BatchGen.data bg) as [|b rest] eqn:E; [done|]. intros _.
  rewrite (evaluate_cons _ _ _ _ _ _ E).
  destruct (collate _ cls bg b); eauto.
Qed.

Lemma init_data_nonempty data (bs : Z) gpu ev bert g bg g' :
  (0 < bs)%Z → data ≠ [] →
  BatchGen.__init__ data bs gpu ev bert g = Ok (bg, g') →
  BatchGen.data bg ≠ [].
Proof.
  intros Hbs Hne Hinit.
  destruct (batches_nonempty_aux data bs gpu ev bert g Hbs) as (bg0 & g0 & E & Hp).
  rewrite E in Hinit. injection Hinit as <- <-.
  intros Hnil. rewrite Hnil in Hp. simpl in Hp.
  apply Permutation_nil_l in Hp. done.
Qed.
End main_loop.

Section main_claims.
Context `{!Framework} `{!BertTokenizer} `{S32 : !Torch.Single}.
Import BatchGen DocReaderModel Train.

(** Constructing a model touches nothing but torch's generator. *)
Lemma init_world opt embedding state_dict w r w' :
  DocReaderModel.__init__ opt embedding state_dict w = (r, w') →
  fs w' = fs w ∧ log w' = log w ∧ py_random w' = py_random w ∧
  io w' = io w ∧ torch_cuda_random w' = torch_cuda_random w.
Proof.
  unfold DocReaderModel.__init__, mbindM, lift, ret, cuda_current_device.
  destruct (getitem opt "cuda") as [c|e]; [|by intros [= <- <-]].
  destruct (truthy c); [destruct (cuda_available w); [|by intros [= <- <-]]|].
  all: destruct (build_network _ _ _ _) as [[net|e] s]; [|by intros [= <- <-]].
  all: destruct (build_optimizer _ _ _); by intros [= <- <-].
Qed.

(** Neither logging nor an update step touches the file system. *)
Lemma for_each_fs {A St} (body : A → St → M St) (l : list A) :
  (∀ x s w r w', body x s w = (r, w') → fs w' = fs w) →
  ∀ s w r w', for_each body l s w = (r, w') → fs w' = fs w.
Proof.
  intros Hbody. induction l as [|x l IH]; intros s w r w'; simpl.
  - by intros [= <- <-].
  - unfold mbindM. destruct (body x s w) as [[s1|e] w1] eqn:E.
    + intros Hrest. rewrite (IH _ _ _ _ Hrest). by eapply Hbody.
    + intros [= <- <-]. by eapply Hbody.
Qed.

Lemma train_loop_fs cls args model bg w r w' :
  train_loop cls args model bg w = (r, w') → fs w' = fs w.
Proof.
  unfold train_loop. apply for_each_fs.
  clear. intros [i next] model w r w'. unfold mbindM, lift.
  destruct next as [batch|e]; [|by intros [= <- <-]].
  destruct (update model batch w) as [[[u|e] m] w1] eqn:Hu.
  - assert (fs w1 = fs w) as Hfs.
    { unfold update in Hu. destruct (answ batch); [|by simplify_eq].
      destruct (train_step _ _ _ _ _ _ _) as [[[[??]?]?]?].
      destruct (getitem _ _); by simplify_eq. }
    destruct (log_per_updates args =? 0)%Z; [by intros [= <- <-]|].
    destruct (_ =? 0)%Z; simpl; by intros [= <- <-].
  - intros [= <- <-].
    unfold update in Hu. destruct (answ batch); [|by simplify_eq].
    destruct (train_step _ _ _ _ _ _ _) as [[[[??]?]?]?].
    destruct (getitem _ _); by simplify_eq.
Qed.

Lemma new_batches_inv data bs gpu ev bert w r w' :
  new_batches data bs gpu ev bert w = (r, w') →
  fs w' = fs w ∧ log w' = log w ∧
  match r with
  | Ok bg => ∃ g', BatchGen.__init__ data bs gpu ev bert (py_random w) = Ok (bg, g')
  | Raise _ => True
  end.
Proof.
  unfold new_batches.
  destruct (BatchGen.__init__ _ _ _ _ _ _) as [[bg g']|e]; intros [= <- <-]; eauto.
Qed.

(** With a dev set that is not empty, an epoch never gets past its
    evaluation phase: it raises, and no file has been written. *)
Lemma epoch_body_raises cls args train dev dev_y opt epoch_0 epoch s w :
  dev ≠ [] → (0 < arg_batch_size args)%Z →
  ∃ e w', epoch_body cls args train dev dev_y opt epoch_0 epoch s w = (Raise e, w') ∧
          fs w' = fs w.
Proof.
  intros Hdev Hbs. destruct s as [model best]. unfold epoch_body.
  unfold mbindM at 1. simpl.
  unfold mbindM at 1, lift at 1.
  destruct (getitem opt "bert") as [b|e]; [|by eauto].
  unfold mbindM at 1.
  destruct (new_batches train _ _ _ _ _) as [[bt|e] w1] eqn:Hnb;
    apply new_batches_inv in Hnb as (Hfs1 & _ & _); [|by eauto].
  unfold mbindM at 1.
  destruct (train_loop cls args model bt w1) as [[m1|e] w2] eqn:Htl;
    apply train_loop_fs in Htl; [|eexists _, _; split; [done|simpl in *; congruence]].
  unfold mbindM at 1. simpl.
  unfold mbindM at 1. simpl.
  unfold mbindM at 1.
  destruct (new_batches dev _ _ _ _ _) as [[bd|e] w3] eqn:Hnd;
    apply new_batches_inv in Hnd as (Hfs3 & _ & Hinit); simpl in Hfs3;
    [|eexists _, _; split; [done|simpl in *; congruence]].
  destruct Hinit as [g' Hinit].
  apply init_data_nonempty in Hinit; [|done..].
  unfold mbindM at 1.
  destruct (evaluate_raises cls m1 bd w3 Hinit) as [e ->].
  eexists _, _; split; [done|simpl in *; congruence].
Qed.

(** On resume with a dev set that is not empty, the restored model is
    never compared with the recorded accuracy: the re-evaluation raises
    first.  Nothing above level INFO has been logged by then. *)
Lemma resume_model_raises cls args dev dev_y embedding opt w :
  dev ≠ [] → (0 < arg_batch_size args)%Z →
  ∃ e w',
    resume_model cls args dev dev_y embedding opt w = (Raise e, w') ∧
    fs w' = fs w ∧
    ∀ r, r ∈ log w' → r ∈ log w ∨ lr_level r = INFO.
Proof.
  intros Hdev Hbs. unfold resume_model.
  unfold mbindM at 1. simpl.
  unfold mbindM at 1, torch_load at 1. simpl.
  assert (∀ r, r ∈ log w ++ [{| lr_logger := "__main__"; lr_level := INFO;
                                 lr_msg := "[loading previous model...]" |}] →
               r ∈ log w ∨ lr_level r = INFO) as Hlog0.
  { intros r [?|Hr%list_elem_of_singleton]%elem_of_app; [by eauto|subst; by eauto]. }
  destruct (fs w !! _) as [[ck|]|]; [|by eauto..].
  unfold mbindM at 1.
  destruct (DocReaderModel.__init__ _ _ _ _) as [[model|e] wi] eqn:Hi;
    apply init_world in Hi as (Hfsi & Hlogi & _).
  2:{ eexists _, _; split; [done|]. rewrite Hfsi, Hlogi. done. }
  unfold mbindM at 1. simpl.
  unfold mbindM at 1. simpl.
  unfold mbindM at 1.
  set (w1 := set_torch_random _ _ _).
  assert (fs w1 = fs w ∧ ∀ r, r ∈ log w1 → r ∈ log w ∨ lr_level r = INFO)
    as [Hfs1 Hlog1] by (simpl; rewrite Hfsi, Hlogi; done).
  clearbody w1.
  destruct (if cuda args then _ else _) as [[[]|e] w2] eqn:Hcuda.
  2:{ destruct (cuda args); discriminate. }
  assert (fs w2 = fs w ∧ ∀ r, r ∈ log w2 → r ∈ log w ∨ lr_level r = INFO)
    as [Hfs2 Hlog2].
  { destruct (cuda args); injection Hcuda as <-; done. }
  clear Hcuda Hfs1 Hlog1 Hlog0. clear w1.
  unfold mbindM at 1.
  destruct (if ftruthy (reduce_lr args) then _ else _) as [[m2|e] w3] eqn:Hlr.
  2:{ destruct (ftruthy (reduce_lr args)); discriminate. }
  assert (fs w3 = fs w ∧ ∀ r, r ∈ log w3 → r ∈ log w ∨ lr_level r = INFO)
    as [Hfs3 Hlog3].
  { destruct (ftruthy (reduce_lr args)); injection Hlr as <- <-; [|done].
    split; [done|]. simpl.
    intros r [?|Hr%list_elem_of_singleton]%elem_of_app; [by eauto|subst; by eauto]. }
  clear Hlr Hfs2 Hlog2.
  unfold mbindM at 1.
  destruct (new_batches dev _ _ _ _ _) as [[bd|e] w4] eqn:Hnd;
    apply new_batches_inv in Hnd as (Hfs4 & Hlog4 & Hinit).
  2:{ eexists _, _; split; [done|]. rewrite Hfs4, Hlog4. done. }
  destruct Hinit as [g' Hinit].
  apply init_data_nonempty in Hinit; [|done..].
  unfold mbindM at 1.
  destruct (evaluate_raises cls m2 bd w4 Hinit) as [e ->].
  eexists _, _; split; [done|]. rewrite Hfs4, Hlog4. done.
Qed.
End main_claims.

(** ** The claims on concrete inputs *)

Section concrete.
Import Torch BatchGen DocReaderModel Train Samples.
#[local] Existing Instance toy.
#[local] Existing Instance bert_uncased.
#[local] Existing Instance single32.

Lemma init_dev3 : BatchGen.__init__ dev3 2 false true false rng0 = Ok (dev_batches, rng0).
Proof. reflexivity. Qed.

Lemma collate_batch0 : collate false cls dev_batches batch0 = Ok tuple0.
Proof. reflexivity. Qed.

Example batch0_well_formed : well_formed cls dev_batches batch0.
Proof.
  split; [done|]. split; [done|]. intros _. exists 3, 2, 2.
  split; [done|]. split; [done|].
  repeat constructor; simpl; lia || discriminate.
Qed.

(** Two successive training generators over the same data: the first
    swaps the two chunks, the second, built from the advanced random
    state, does not. *)
Example reshuffle_differs :
  ∃ b1 g1 b2 g2,
    BatchGen.__init__ train3 2 false false false rng0 = Ok (b1, g1) ∧
    BatchGen.__init__ train3 2 false false false g1 = Ok (b2, g2) ∧
    map (map key) (BatchGen.data b1) = [[3]; [1; 2]] ∧
    map (map key) (BatchGen.data b2) = [[1; 2]; [3]].
Proof.
  eexists _, _, _, _.
  split; [vm_compute; reflexivity|]. split; [vm_compute; reflexivity|].
  split; reflexivity.
Qed.

(** A batch size that is not positive: zero is rejected by [range], a
    negative one yields no batch at all. *)
Example batch_size_zero :
  BatchGen.__init__ dev3 0 false true false rng0
  = Raise (ValueError "range() arg 3 must not be zero").
Proof. reflexivity. Qed.

Example batch_size_negative :
  BatchGen.data <$> (match BatchGen.__init__ dev3 (-2) false true false rng0 with
                     | Ok (bg, _) => Some bg | Raise _ => None end)
  = Some [].
Proof. reflexivity. Qed.

(** C3 on the three dev examples, batch size 2, evaluation mode. *)
Lemma batches_sorted_then_chunked_witness :
  (0 < 2)%Z ∧
  ∃ chunks bg g',
    BatchGen.__init__ dev3 2 false true false rng0 = Ok (bg, g') ∧
    sorted key dev3 ≡ₚ dev3 ∧
    StronglySorted (key_le key) (sorted key dev3) ∧
    chunk (sorted key dev3) 2 = Ok chunks ∧
    concat chunks = sorted key dev3 ∧
    (∀ i b, chunks !! i = Some b →
       0 < length b ∧ (Z.of_nat (length b) ≤ 2)%Z ∧
       (S i < length chunks → Z.of_nat (length b) = 2%Z)) ∧
    BatchGen.data bg ≡ₚ chunks ∧
    (true = true → BatchGen.data bg = chunks) ∧
    (∀ b, b ∈ BatchGen.data bg →
       StronglySorted (key_le key) b ∧ (Z.of_nat (length b) ≤ 2)%Z).
Proof.
  split; [lia|].
  apply (batches_sorted_then_chunked dev3 2 false true false rng0). lia.
Defined.

(** C9 on the three training examples, batch size 2, training mode. *)
Lemma batches_partition_input_witness :
  (0 < 2)%Z ∧
  ∃ bg g',
    BatchGen.__init__ train3 2 false false false rng0 = Ok (bg, g') ∧
    concat (BatchGen.data bg) ≡ₚ train3 ∧
    ((Z.of_nat (__len__ bg) - 1) * 2 < Z.of_nat (length train3)
       ≤ Z.of_nat (__len__ bg) * 2)%Z ∧
    Z.of_nat (__len__ bg) = ((Z.of_nat (length train3) + 2 - 1) / 2)%Z.
Proof.
  split; [lia|].
  apply (batches_partition_input train3 2 false false false rng0). lia.
Defined.

(** C6 on the three training examples, batch size 2, and two states of
    [random]: the first draw is 0, so the chunk that was first comes
    last, and the generator of the next pass is shuffled with the draws
    that are left. *)
Lemma shuffled_for_training_only_witness :
  (0 < 2)%Z ∧
  ∃ chunks bt gt be,
    (map (map key) chunks = [[1; 2]; [3]] ∧
     map (map key) (BatchGen.data bt) = [[3]; [1; 2]] ∧
     gt = MkRng [1; 1]) ∧
    chunk (sorted key train3) 2 = Ok chunks ∧
    BatchGen.__init__ train3 2 false false false rng0 = Ok (bt, gt) ∧
    (BatchGen.data bt, gt) = shuffle chunks rng0 ∧
    BatchGen.data bt ≡ₚ chunks ∧
    tape gt = drop (length chunks - 1) (tape rng0) ∧
    (∀ w : World, py_random w = rng0 →
          new_batches train3 2 false false false w = (Ok bt, set_py_random gt w)) ∧
    BatchGen.__init__ train3 2 false true false rng0 = Ok (be, rng0) ∧
    BatchGen.__init__ train3 2 false true false rng1 = Ok (be, rng1) ∧
    BatchGen.data be = chunks ∧
    (∀ w : World, new_batches train3 2 false true false w
          = (Ok be, set_py_random (py_random w) w)) ∧
    (∀ n, length chunks = S n →
          BatchGen.data bt !! n = chunks !! (randbelow (S n) rng0).1) ∧
    (∀ target, target ≡ₚ chunks →
       ∃ g bt' g', BatchGen.__init__ train3 2 false false false g = Ok (bt', g') ∧
                   BatchGen.data bt' = target) ∧
    (∀ cls args dev dev_y opt b epoch_0 epoch best,
       arg_batch_size args = 2%Z → cuda args = false →
       opt !! "bert" = Some b → truthy b = false →
       ∃ K, ∀ (model : DocReaderModel.t) (w : World), py_random w = rng0 →
         epoch_body cls args train3 dev dev_y opt epoch_0 epoch (model, best) w
         = mbindM (train_loop cls args model bt) K
             (set_py_random gt
                (add_log {| lr_logger := "__main__"; lr_level := WARNING;
                            lr_msg := "Epoch {}" |} w)) ∧
         py_random
           (epoch_body cls args train3 dev dev_y opt epoch_0 epoch (model, best) w).2
         = gt).
Proof.
  split; [lia|].
  destruct (shuffled_for_training_only train3 2 false false rng0 rng1)
    as (chunks & bt & gt & be & H); [lia|].
  exists chunks, bt, gt, be. split; [|exact H].
  destruct H as (Hc & Hi & _).
  vm_compute in Hc. injection Hc as <-.
  vm_compute in Hi. injection Hi as <- <-.
  by split_and!.
Defined.

(** C4 on the first batch of the evaluation generator over the three dev
    examples. *)
Lemma id_tensors_zero_padded_witness :
  (false = true → pad_token_id = 0%Z) ∧
  BatchGen.__init__ dev3 2 false true false rng0 = Ok (dev_batches, rng0) ∧
  batch0 ∈ BatchGen.data dev_batches ∧
  collate false cls dev_batches batch0 = Ok tuple0 ∧
  let cw := max_list (length <$> (ex_context <$> batch0)) in
  let qw := max_list (length <$> (ex_question <$> batch0)) in
  length (context_id tuple0) = length batch0 ∧
  length (question_id tuple0) = length batch0 ∧
  ∀ i x, batch0 !! i = Some x →
    context_id tuple0 !! i
    = Some (ex_context x ++ replicate (cw - length (ex_context x)) 0%Z) ∧
    length (ex_context x ++ replicate (cw - length (ex_context x)) 0%Z) = cw ∧
    question_id tuple0 !! i
    = Some (ex_question x ++ replicate (qw - length (ex_question x)) 0%Z) ∧
    length (ex_question x ++ replicate (qw - length (ex_question x)) 0%Z) = qw.
Proof.
  split; [discriminate|].
  split; [reflexivity|].
  split; [apply list_elem_of_here|].
  split; [reflexivity|].
  apply (id_tensors_zero_padded dev3 2 false true false rng0 dev_batches rng0
           cls batch0 tuple0 false).
  - discriminate.
  - reflexivity.
  - apply list_elem_of_here.
  - reflexivity.
Defined.

(** C5 on the same batch. *)
Lemma tag_tensors_one_hot_witness :
  bert dev_batches = false ∧
  collate false cls dev_batches batch0 = Ok tuple0 ∧
  let rows := length batch0 in
  let width := max_list (length <$> (ex_context <$> batch0)) in
  ∃ P N CT CE,
    pos_size cls = Some P ∧ ner_size cls = Some N ∧
    context_tag tuple0 = Some CT ∧ context_ent tuple0 = Some CE ∧
    (∀ i j k, is_Some (get3 CT i j k) ↔ i < rows ∧ j < width ∧ k < P) ∧
    (∀ i j k, is_Some (get3 CE i j k) ↔ i < rows ∧ j < width ∧ k < N) ∧
    ∀ i x, batch0 !! i = Some x →
      (∀ j k, j < width → k < P →
         get3 CT i j k
         = Some (if decide (ex_tags x !! j = Some k) then Fin 1 else Fin 0)) ∧
      (∀ j k, j < width → k < N →
         get3 CE i j k
         = Some (if decide (ex_ents x !! j = Some k) then Fin 1 else Fin 0)) ∧
      (∀ j k, length (ex_tags x) = length (ex_context x) →
         length (ex_context x) ≤ j < width → k < P →
         get3 CT i j k = Some (Fin 0)) ∧
      (∀ j k, length (ex_ents x) = length (ex_context x) →
         length (ex_context x) ≤ j < width → k < N →
         get3 CE i j k = Some (Fin 0)).
Proof.
  split; [reflexivity|]. split; [reflexivity|].
  apply (tag_tensors_one_hot cls dev_batches batch0 tuple0 false); reflexivity.
Defined.
End concrete.

Section main_raises.
Context `{!Framework} `{!BertTokenizer} `{S32 : !Torch.Single}.
Import BatchGen DocReaderModel Train.

Lemma range_step_one (a n : Z) :
  (0 < n)%Z → ∃ rest, range a (a + n) 1 = Ok (a :: rest).
Proof.
  intros Hn. unfold range, range_len. simpl.
  replace (a + n - a + 1 - 1)%Z with n by lia.
  rewrite Z.div_1_r, Z.max_r by lia.
  destruct (Z.to_nat n) as [|k] eqn:E; [lia|]. simpl.
  replace (a + Z.of_nat 0 * 1)%Z with a by lia. eauto.
Qed.

(** C7.  The sequence train, evaluate, save is never completed when
    there is a dev set to evaluate on: with a dev set that is not empty, a
    positive batch size and at least one epoch, [main] raises before any
    call of [save], and the file system is as it was: neither an epoch
    checkpoint nor [best_model.pt] has been written.  On the inputs of
    [first_epoch_stops_here] the exception is the [NameError] of
    [predict], raised after the training phase of the first epoch. *)
Theorem epochs_never_reach_save cls args train dev dev_y embedding opt w :
  dev ≠ [] → (0 < arg_batch_size args)%Z → (0 < epochs args)%Z →
  ∃ e w', main cls args train dev dev_y embedding opt w = (Raise e, w') ∧
          fs w' = fs w.
Proof.
  intros Hdev Hbs Hep. unfold main.
  unfold mbindM at 1.
  destruct (if save_dawn_logs args then _ else _) as [[[]|e] w1] eqn:Hdawn.
  2:{ destruct (save_dawn_logs args); discriminate. }
  assert (fs w1 = fs w) as Hfs1
    by (destruct (save_dawn_logs args); by injection Hdawn as <-).
  clear Hdawn. unfold mbindM at 1.
  destruct (negb (bool_decide (resume args = EmptyString))).
  - destruct (resume_model_raises cls args dev dev_y embedding opt w1 Hdev Hbs)
      as (e & w2 & -> & Hfs2 & _).
    eexists _, _; split; [done|congruence].
  - unfold mbindM at 1.
    destruct (DocReaderModel.__init__ opt embedding None w1) as [[model|e] wi] eqn:Hi;
      apply init_world in Hi as (Hfsi & _); [|eexists _, _; split; [done|congruence]].
    unfold ret at 1. unfold mbindM at 1, lift at 1.
    destruct (range_step_one 1 (epochs args) Hep) as [rest ->].
    cbn [for_each]. unfold mbindM at 1. unfold mbindM at 1.
    destruct (epoch_body_raises cls args train dev dev_y opt 1 1
                (model, Fin 0) wi Hdev Hbs) as (e & w2 & -> & Hfs2).
    eexists _, _; split; [done|congruence].
Qed.

(** C1.  On resume ([args.resume] not empty) with a dev set that is not
    empty and a positive batch size, the recomputed accuracy is never
    compared with the recorded one: [main] raises during the
    re-evaluation.  It does not go on to train, it has logged nothing
    above level INFO (so not the error of line 55), and it has written no
    file.  On the inputs of [resume_stops_here] the exception is the
    [NameError] of [predict]. *)
Theorem resume_never_compares_accuracy cls args train dev dev_y embedding opt w :
  resume args ≠ EmptyString → dev ≠ [] → (0 < arg_batch_size args)%Z →
  ∃ e w', main cls args train dev dev_y embedding opt w = (Raise e, w') ∧
          (∀ r, r ∈ log w' → r ∈ log w ∨ lr_level r = INFO) ∧
          fs w' = fs w.
Proof.
  intros Hres Hdev Hbs. unfold main.
  unfold mbindM at 1.
  destruct (if save_dawn_logs args then _ else _) as [[[]|e] w1] eqn:Hdawn.
  2:{ destruct (save_dawn_logs args); discriminate. }
  assert (fs w1 = fs w ∧ ∀ r, r ∈ log w1 → r ∈ log w ∨ lr_level r = INFO)
    as [Hfs1 Hlog1].
  { destruct (save_dawn_logs args); injection Hdawn as <-;
      [|split; [done|by left]].
    split; [done|]. simpl.
    intros r [?|Hr%list_elem_of_singleton]%elem_of_app; [by eauto|subst; by eauto]. }
  clear Hdawn. unfold mbindM at 1.
  rewrite bool_decide_eq_false_2 by done. simpl.
  destruct (resume_model_raises cls args dev dev_y embedding opt w1 Hdev Hbs)
    as (e & w2 & -> & Hfs2 & Hlog2).
  eexists _, _; split; [done|]. split; [|congruence].
  intros r [Hr|Hr]%Hlog2; [by apply Hlog1|by right].
Qed.
End main_raises.

Section concrete_runs.
Import Torch BatchGen DocReaderModel Train Samples.
#[local] Existing Instance toy.
#[local] Existing Instance bert_uncased.
#[local] Existing Instance single32.

(** A resumed run over the three dev examples, from a checkpoint whose
    recorded accuracy 1/3 is the accuracy the restored model has on the
    labels [0; 1; 1]: the re-evaluation raises [NameError] in its first
    call of [predict], with one INFO record logged. *)
Example resume_stops_here :
  ∃ w',
    main cls args_resume train3 dev3 [0; 1; 1]%Z None opt0 world_resume
    = (Raise (NameError "opt"), w') ∧
    log w' = [{| lr_logger := "__main__"; lr_level := INFO;
                 lr_msg := "[loading previous model...]" |}] ∧
    fs w' = fs world_resume.
Proof. eexists. split; [vm_compute; reflexivity|]. split; reflexivity. Qed.

(** C1 on that run. *)
Lemma resume_never_compares_accuracy_witness :
  resume args_resume ≠ EmptyString ∧ dev3 ≠ [] ∧ (0 < arg_batch_size args_resume)%Z ∧
  ∃ e w',
    main cls args_resume train3 dev3 [0; 1; 1]%Z None opt0 world_resume
    = (Raise e, w') ∧
    (∀ r, r ∈ log w' → r ∈ log world_resume ∨ lr_level r = INFO) ∧
    fs w' = fs world_resume.
Proof.
  split; [discriminate|]. split; [discriminate|]. split; [reflexivity|].
  apply (resume_never_compares_accuracy cls args_resume train3 dev3 [0; 1; 1]%Z
           None opt0 world_resume).
  - discriminate.
  - discriminate.
  - reflexivity.
Defined.

(** A fresh run of two epochs over three training and three dev
    examples: the first epoch trains on both training batches and then
    raises [NameError] in its first call of [predict].  No checkpoint is
    written although [save_last_only] is off, and the second epoch does
    not start. *)
Example first_epoch_stops_here :
  ∃ w',
    main cls args0 train3 dev3 [0; 1; 1]%Z None opt0 world0
    = (Raise (NameError "opt"), w') ∧
    fs w' = ∅ ∧
    lr_msg <$> log w'
    = ["Epoch {}";
       "> epoch [{0:2}] updates[{1:6}] train loss[{2:.5f}] remaining[{3}]";
       "\n"].
Proof. eexists. split; [vm_compute; reflexivity|]. split; reflexivity. Qed.

(** C7 on that run. *)
Lemma epochs_never_reach_save_witness :
  dev3 ≠ [] ∧ (0 < arg_batch_size args0)%Z ∧ (0 < epochs args0)%Z ∧
  ∃ e w',
    main cls args0 train3 dev3 [0; 1; 1]%Z None opt0 world0 = (Raise e, w') ∧
    fs w' = fs world0.
Proof.
  split; [discriminate|]. split; [reflexivity|]. split; [reflexivity|].
  apply (epochs_never_reach_save cls args0 train3 dev3 [0; 1; 1]%Z None opt0
           world0).
  - discriminate.
  - reflexivity.
  - reflexivity.
Defined.

(** With an empty dev set nothing calls [predict]: an epoch trains,
    scores NaN, and saves its checkpoint; NaN is not above the best
    score, so [best_model.pt] is not written. *)
Example empty_dev_epoch_saves :
  ∃ w',
    main cls args0 train3 [] [] None opt0 world0 = (Ok (Fin 0), w') ∧
    is_Some (fs w' !! "models/checkpoint_epoch_1.pt") ∧
    (ck_accuracy <$> (match fs w' !! "models/checkpoint_epoch_2.pt" with
                      | Some (Pickle c) => Some c | _ => None end)) = Some NaN ∧
    fs w' !! "models/best_model.pt" = None.
Proof.
  eexists. split; [vm_compute; reflexivity|].
  split; [by eexists|]. split; reflexivity.
Qed.

(** C2, as stated, fails: [torch.save] cannot open its file, [save]
    returns normally, and no checkpoint has been written. *)
Lemma save_may_write_nothing :
  ¬ (∀ (self : DocReaderModel.t) filename epoch accuracy best_eval (w : World),
       ∃ c, fs (save self filename epoch [accuracy; best_eval] w).2 !! filename
            = Some (Pickle c) ∧
            holds_state c self epoch accuracy best_eval w).
Proof.
  intros H.
  destruct (H model0 "models/checkpoint_epoch_5.pt" 5%Z (Fin (1 # 3))
              (Fin (2 # 3)) world_no_dir) as (c & Hc & _).
  vm_compute in Hc. discriminate.
Qed.

(** C2, amended, on a call in which [torch.save] completes. *)
Lemma save_writes_full_checkpoint_witness :
  is_Some (torch_cuda_random world0) ∧ save_succeeds world0 ∧
  ∃ c w',
    save model0 "models/checkpoint_epoch_5.pt" 5%Z [Fin (1 # 3); Fin (2 # 3)] world0
    = (Ok (), w') ∧
    fs w' !! "models/checkpoint_epoch_5.pt" = Some (Pickle c) ∧
    holds_state c model0 5%Z (Fin (1 # 3)) (Fin (2 # 3)) world0.
Proof.
  split; [by eexists|]. split; [exact I|].
  apply (save_writes_full_checkpoint model0 "models/checkpoint_epoch_5.pt" 5%Z
           (Fin (1 # 3)) (Fin (2 # 3)) world0).
  - by eexists.
  - exact I.
Defined.

(** C10, as stated, fails: the file held an older checkpoint,
    [torch.save] fails after opening it, [save] returns normally, and
    the file is left truncated. *)
Lemma failed_save_truncates_file :
  ¬ (∀ (self : DocReaderModel.t) filename epoch accuracy best_eval (w : World),
       ∃ w', save self filename epoch [accuracy; best_eval] w = (Ok (), w') ∧
             (¬ save_succeeds w → fs w' !! filename = fs w !! filename)).
Proof.
  intros H.
  destruct (H model0 "models/checkpoint_epoch_5.pt" 5%Z (Fin (1 # 3))
              (Fin (2 # 3)) world_disk_full) as (w' & Hs & Hfs).
  injection Hs as <-. specialize (Hfs (λ x, x)).
  vm_compute in Hfs. discriminate.
Qed.

(** C10, amended, on the same call. *)
Lemma save_swallows_failure_witness :
  is_Some (torch_cuda_random world_disk_full) ∧ ¬ save_succeeds world_disk_full ∧
  ∃ w',
    save model0 "models/checkpoint_epoch_5.pt" 5%Z [Fin (1 # 3); Fin (2 # 3)]
      world_disk_full = (Ok (), w') ∧
    log w' = log world_disk_full
             ++ [{| lr_logger := "drqa.model"; lr_level := WARNING;
                    lr_msg := "[ WARN: Saving failed... continuing anyway. ]" |}] ∧
    (∀ f, f ≠ "models/checkpoint_epoch_5.pt" → fs w' !! f = fs world_disk_full !! f) ∧
    fs w' !! "models/checkpoint_epoch_5.pt" = Some Truncated.
Proof.
  split; [by eexists|]. split; [exact (λ x, x)|].
  apply (save_swallows_failure model0 "models/checkpoint_epoch_5.pt" 5%Z
           (Fin (1 # 3)) (Fin (2 # 3)) world_disk_full).
  - by eexists.
  - exact (λ x, x).
Defined.
End concrete_runs.

(** * Further properties *)

(** ** [score] *)

Section score.
Import BatchGen Train.

Lemma hits_le (pred truth : list Z) :
  length (filter (λ p, p.1 = p.2) (zip pred truth)) ≤ length truth.
Proof.
  etrans; [apply length_filter|]. rewrite length_zip_with. lia.
Qed.

Lemma hits_all (pred truth : list Z) :
  length pred = length truth →
  length (filter (λ p, p.1 = p.2) (zip pred truth)) = length truth ↔
  pred = truth.
Proof.
  revert truth. induction pred as [|p pred IH]; intros [|t truth] Hlen;
    simplify_eq/=; [done|].
  rewrite filter_cons. simpl. destruct (decide (p = t)) as [->|Hne]; simpl.
  - split.
    + intros [= H]. apply (IH truth Hlen) in H. by subst.
    + intros [= H]. f_equal. by apply (IH truth Hlen).
  - pose proof (hits_le pred truth). split; [lia|by intros [= ? ?]].
Qed.

Lemma hits_none (pred truth : list Z) :
  length pred = length truth →
  length (filter (λ p, p.1 = p.2) (zip pred truth)) = 0 ↔
  Forall2 (λ p t, p ≠ t) pred truth.
Proof.
  revert truth. induction pred as [|p pred IH]; intros [|t truth] Hlen;
    simplify_eq/=; [split; [constructor|done]|].
  rewrite filter_cons. simpl. destruct (decide (p = t)) as [->|Hne]; simpl.
  - split; [lia|]. by intros [? _]%Forall2_cons.
  - rewrite (IH truth Hlen). split; [by constructor|by intros [_ ?]%Forall2_cons].
Qed.

(** X1.  The accuracy of predictions against labels of the same, non-zero
    number is a fraction between 0 and 1: it is 1 exactly when every
    prediction is right and 0 exactly when every prediction is wrong. *)
Theorem score_is_fraction_correct (pred truth : list Z) :
  length pred = length truth → truth ≠ [] →
  ∃ q, score pred truth = Ok (Fin q) ∧
       (0 <= q)%Q ∧ (q <= 1)%Q ∧
       ((q == 1)%Q ↔ pred = truth) ∧
       ((q == 0)%Q ↔ Forall2 (λ p t, p ≠ t) pred truth).
Proof.
  intros Hlen Hne. unfold score, assert.
  rewrite bool_decide_eq_true_2 by done. cbn [Py.bind].
  destruct truth as [|t truth'] eqn:E; [done|]. rewrite <- E in *.
  eexists; split; [done|].
  pose proof (hits_le pred truth) as Hle.
  pose proof (hits_all pred truth Hlen) as Hall.
  pose proof (hits_none pred truth Hlen) as Hnone.
  set (h := length (filter _ _)) in *.
  assert (0 < length truth) as Hpos by (subst truth; simpl; lia).
  assert (Z.pos (Pos.of_nat (length truth)) = Z.of_nat (length truth)) as Hden.
  { rewrite <- positive_nat_Z, Nat2Pos.id by lia. done. }
  unfold Qle, Qeq. simpl. rewrite Hden.
  split_and!; [lia|lia| |].
  - rewrite <- Hall. lia.
  - rewrite <- Hnone. lia.
Qed.

(** X2.  [score] raises exactly when the two lists differ in length (the
    assertion of line 342), and is NaN exactly when both are empty. *)
Theorem score_raises_iff_lengths_differ (pred truth : list Z) :
  (length pred ≠ length truth ↔
   score pred truth = Raise (AssertionError "len(pred) == len(truth)")) ∧
  (score pred truth = Ok NaN ↔ pred = [] ∧ truth = []).
Proof.
  unfold score, assert. case_bool_decide as Hlen; cbn [Py.bind].
  - split; [split; [done|by destruct truth]|].
    destruct truth as [|t truth]; [|split; [done|by intros [_ ?]]].
    split; [|done]. intros _. by destruct pred.
  - split; [done|]. split; [done|]. intros [-> ->]. done.
Qed.
End score.

(** ** [BatchGen.__iter__]: masks, columns, labels *)

Section tuple_columns.
Import Torch BatchGen.
Context `{S32 : !Single}.

(** The parts of a yielded tuple that are computed without a loop. *)
Lemma collate_columns cuda cls self batch t :
  collate cuda cls self batch = Ok t →
  zip_len batch = (if eval self then 8 else 9) ∧
  context_mask t = eq2 (context_id t) (pad_token self) ∧
  question_mask t = eq2 (question_id t) (pad_token self) ∧
  text t = ex_text <$> batch ∧
  span t = ex_span <$> batch ∧
  answ t = (if eval self then None else Some (answers batch)) ∧
  (bert self = true →
   context_feature t = None ∧ context_tag t = None ∧ context_ent t = None).
Proof.
  intros [H _]%collate_Ok. unfold tensors_of in H.
  apply bind_Ok in H as ([] & Hmode & H).
  apply bind_Ok in H as (W & HW & H).
  apply bind_Ok in H as (cid & Hcid & H).
  apply bind_Ok in H as ([[cf ct] ce] & Hfe & H).
  apply bind_Ok in H as (qid & Hqid & H).
  injection H as <-. simpl.
  split_and!; try done.
  - unfold assert in Hmode. destruct (eval self); by case_bool_decide.
  - by destruct (eval self).
  - intros Hbert. rewrite Hbert in Hfe. by injection Hfe as <- <- <-.
Qed.

Lemma min_fields_fold (n : nat) (rest : list Example) :
  n = 8 ∨ n = 9 →
  foldr (λ y m, n_fields y `min` m) n rest
  = if decide (Forall (λ x, is_Some (ex_answer x)) rest) then n else 8.
Proof.
  intros Hn. induction rest as [|y rest IH]; cbn [foldr].
  - by rewrite decide_True.
  - rewrite IH. unfold n_fields. destruct (ex_answer y) as [a|] eqn:Hy.
    + destruct (decide (Forall _ rest)) as [Hr|Hr].
      * rewrite decide_True by (constructor; [by rewrite Hy|done]).
        destruct Hn as [-> | ->]; reflexivity.
      * rewrite decide_False by (by intros [_ ?]%Forall_cons). reflexivity.
    + destruct (decide (Forall _ (y :: rest))) as [Hf|Hf].
      * apply Forall_cons in Hf as [[? Hs] _]. by rewrite Hy in Hs.
      * case_decide; destruct Hn as [-> | ->]; reflexivity.
Qed.

(** [zip( *batch)] has nine columns when every example carries a label and
    eight as soon as one does not; an empty batch has none. *)
Lemma zip_len_cases (batch : list Example) :
  zip_len batch
  = match batch with
    | [] => 0
    | _ => if decide (Forall (λ x, is_Some (ex_answer x)) batch) then 9 else 8
    end.
Proof.
  destruct batch as [|x rest]; [done|]. cbn [zip_len].
  rewrite min_fields_fold by (unfold n_fields; destruct (ex_answer x); auto).
  unfold n_fields. destruct (ex_answer x) as [a|] eqn:Hx.
  - destruct (decide (Forall _ rest)) as [Hr|Hr].
    + by rewrite decide_True by (constructor; [by rewrite Hx|done]).
    + by rewrite decide_False by (by intros [_ ?]%Forall_cons).
  - destruct (decide (Forall _ (x :: rest))) as [Hf|Hf].
    + apply Forall_cons in Hf as [[? Hs] _]. by rewrite Hx in Hs.
    + by case_decide.
Qed.
End tuple_columns.

Section tuple_claims.
Import Torch BatchGen.
Context `{S32 : !Single}.

(** X3.  In every tuple yielded, the mask of a row is true at every padding
    position and, inside the document (or question), exactly at the
    tokens whose id is the pad id. *)
Theorem masks_mark_pad_ids cls (self : BatchGen.t) batch t cuda :
  collate cuda cls self batch = Ok t →
  let cw := max_list (length <$> (ex_context <$> batch)) in
  let qw := max_list (length <$> (ex_question <$> batch)) in
  let is_pad := λ tok : Z, bool_decide (tok = pad_token self) in
  ∀ i x, batch !! i = Some x →
    context_mask t !! i
    = Some ((is_pad <$> ex_context x)
              ++ replicate (cw - length (ex_context x)) true) ∧
    question_mask t !! i
    = Some ((is_pad <$> ex_question x)
              ++ replicate (qw - length (ex_question x)) true).
Proof.
  intros Hc cw qw is_pad i x Hi.
  pose proof (collate_nonempty _ _ _ _ _ Hc) as Hne.
  destruct (collate_columns _ _ _ _ _ Hc) as (_ & -> & -> & _).
  apply collate_inv in Hc as (Hcid & Hqid & _).
  apply pad_ids_Ok in Hcid as (_ & _ & _ & ->).
  apply pad_ids_Ok in Hqid as (_ & _ & _ & ->).
  unfold eq2. rewrite !list_lookup_fmap, Hi. simpl.
  rewrite !fmap_app, !fmap_replicate.
  by rewrite !bool_decide_eq_true_2.
Qed.

(** X4.  The label column: a training tuple carries the labels of its
    examples, one per example and in their order; an evaluation tuple
    carries none, also when its examples are labelled. *)
Theorem training_tuple_carries_labels cls (self : BatchGen.t) batch t cuda :
  collate cuda cls self batch = Ok t →
  if eval self then answ t = None
  else ∃ ys : list Z,
         ex_answer <$> batch = Some <$> ys ∧
         answ t = Some ((λ y, Fin (inject_Z y)) <$> ys).
Proof.
  intros Hc. pose proof (collate_nonempty _ _ _ _ _ Hc) as Hne.
  destruct (collate_columns _ _ _ _ _ Hc) as (Hz & _ & _ & _ & _ & -> & _).
  destruct (eval self); [done|].
  rewrite zip_len_cases in Hz. destruct batch as [|x0 rest] eqn:E; [done|].
  rewrite <- E in *. case_decide as Hall; [|done]. clear Hz E Hne Hc.
  induction batch as [|x batch IH]; [by exists []|].
  apply Forall_cons in Hall as [[y Hy] Hall].
  destruct (IH Hall) as (ys & Hys & Hans). injection Hans as Hans.
  exists (y :: ys). rewrite !fmap_cons, Hy, Hys. split; [done|].
  unfold answers in *. cbn [omap list_omap]. rewrite Hy. simpl. by rewrite Hans.
Qed.
End tuple_claims.

(** ** [BatchGen.__iter__]: what can go wrong *)

Section failures.
Import Torch BatchGen.
Context `{S32 : !Single}.

(** A loop raises only what its body raises. *)
Lemma for_enumerate_raises {A St} (body : nat → A → St → result St)
    (Q : exn → Prop) :
  (∀ i x s e, body i x s = Raise e → Q e) →
  ∀ l i0 s e, for_enumerate body i0 l s = Raise e → Q e.
Proof.
  intros Hbody. induction l as [|x l IH]; intros i0 s e; simpl; [done|].
  destruct (body i0 x s) as [s1|e1] eqn:Hb; simpl.
  - apply IH.
  - intros [= <-]. by eapply Hbody.
Qed.

Lemma set3_raises {A} (T : list (list (list A))) i j k x e :
  set3 T i j k x = Raise e → ∃ msg, e = IndexError msg.
Proof.
  unfold set3. destruct (T !! i) as [M|]; [|intros [= <-]; eauto].
  destruct (M !! j) as [r|]; [|intros [= <-]; eauto].
  case_decide; [done|intros [= <-]; eauto].
Qed.

Lemma set_vec_raises {A} (T : list (list (list A))) i j v e :
  set_vec T i j v = Raise e → ∃ msg, e = IndexError msg ∨ e = RuntimeError msg.
Proof.
  unfold set_vec.
  destruct (T !! i) as [M|]; [|intros [= <-]; eauto].
  destruct (M !! j) as [r|]; [|intros [= <-]; eauto].
  case_decide; [done|]. destruct v as [|? [|]]; try done; intros [= <-]; eauto.
Qed.

Lemma one_hot_raises rows width depth ids e :
  one_hot rows width depth ids = Raise e → ∃ msg, e = IndexError msg.
Proof.
  unfold one_hot. intros H.
  eapply (for_enumerate_raises _ (λ e, ∃ msg, e = IndexError msg)); [|exact H].
  intros i doc T e' H'.
  eapply (for_enumerate_raises _ (λ e, ∃ msg, e = IndexError msg)); [|exact H'].
  intros j tag T' e''. apply set3_raises.
Qed.

Lemma feature_tensor_raises rows width feats e :
  feature_tensor rows width feats = Raise e →
  ∃ msg, e = IndexError msg ∨ e = RuntimeError msg.
Proof.
  unfold feature_tensor.
  destruct feats as [|[|f fs] rest]; cbn [Py.bind];
    [intros [= <-]; eexists; by left..|].
  intros H.
  eapply (for_enumerate_raises _
            (λ e, ∃ msg, e = IndexError msg ∨ e = RuntimeError msg)); [|exact H].
  intros i doc T e' H'.
  eapply (for_enumerate_raises _
            (λ e, ∃ msg, e = IndexError msg ∨ e = RuntimeError msg)); [|exact H'].
  intros j v T' e''. apply set_vec_raises.
Qed.

Lemma int64_ids_context batch :
  Forall int64_ids batch → Forall (Forall int64) (ex_context <$> batch).
Proof.
  intros H. apply Forall_fmap. eapply Forall_impl; [exact H|]. by intros ? [? _].
Qed.

Lemma int64_ids_question batch :
  Forall int64_ids batch → Forall (Forall int64) (ex_question <$> batch).
Proof.
  intros H. apply Forall_fmap. eapply Forall_impl; [exact H|]. by intros ? [_ ?].
Qed.

(** Why the tensors of a batch cannot be built. *)
Lemma tensors_raises_inv cls (self : BatchGen.t) batch e :
  tensors_of cls self batch = Raise e →
  (zip_len batch ≠ (if eval self then 8 else 9) ∧
   e = AssertionError (if eval self then "Eval expected" else "Train expected")) ∨
  (zip_len batch = (if eval self then 8 else 9) ∧
   ((¬ (int64 (pad_token self) ∧ Forall int64_ids batch) ∧
     ∃ msg, e = RuntimeError msg) ∨
    (bert self = false ∧
     ∃ msg, e = IndexError msg ∨ e = RuntimeError msg ∨ e = TypeError msg))).
Proof.
  unfold tensors_of. intros H.
  destruct (decide (zip_len batch = (if eval self then 8 else 9))) as [Hz|Hz].
  2:{ left. split; [done|]. unfold assert in H.
      destruct (eval self); rewrite bool_decide_eq_false_2 in H by done;
        by injection H as <-. }
  right. split; [done|].
  assert (batch ≠ []) as Hne by (intros ->; by destruct (eval self)).
  unfold assert in H.
  assert ((if eval self
           then if bool_decide (zip_len batch = 8) then Ok () else
                  Raise (AssertionError "Eval expected")
           else if bool_decide (zip_len batch = 9) then Ok () else
                  Raise (AssertionError "Train expected")) = Ok ()) as Hassert.
  { destruct (eval self); by rewrite bool_decide_eq_true_2. }
  rewrite Hassert in H. cbn [Py.bind] in H.
  assert (max_len (ex_context <$> batch)
          = Ok (max_list (length <$> (ex_context <$> batch)))) as HW
    by (by destruct batch).
  rewrite HW in H. cbn [Py.bind] in H.
  destruct (pad_ids _ (ex_context <$> batch)) as [cid|e1] eqn:Hcid;
    cbn [Py.bind] in H.
  2:{ injection H as <-. left.
      apply pad_ids_raises in Hcid as [Hnil|(msg & -> & Hbad)];
        [by destruct batch|].
      split; [|by eauto]. intros [Hp Hi]. apply Hbad.
      split; [done|by apply int64_ids_context]. }
  destruct (bert self) eqn:Hbert; cbn [negb Py.bind] in H.
  { destruct (pad_ids _ (ex_question <$> batch)) as [qid|e1] eqn:Hqid;
      cbn [Py.bind] in H; [done|].
    injection H as <-. left.
    apply pad_ids_raises in Hqid as [Hnil|(msg & -> & Hbad)];
      [by destruct batch|].
    split; [|by eauto]. intros [Hp Hi]. apply Hbad.
    split; [done|by apply int64_ids_question]. }
  destruct (feature_tensor _ _ _) as [cf|e1] eqn:Hcf; cbn [Py.bind] in H.
  2:{ injection H as <-. right. split; [done|].
      apply feature_tensor_raises in Hcf as [msg [->| ->]]; eauto. }
  destruct (pos_size cls) as [P|]; cbn [size_attr Py.bind] in H.
  2:{ injection H as <-. right. eauto. }
  destruct (one_hot _ _ P _) as [ct|e1] eqn:Hct; cbn [Py.bind] in H.
  2:{ injection H as <-. right. split; [done|].
      apply one_hot_raises in Hct as [msg ->]; eauto. }
  destruct (ner_size cls) as [N|]; cbn [size_attr Py.bind] in H.
  2:{ injection H as <-. right. eauto. }
  destruct (one_hot _ _ N _) as [ce|e1] eqn:Hce; cbn [Py.bind] in H.
  2:{ injection H as <-. right. split; [done|].
      apply one_hot_raises in Hce as [msg ->]; eauto. }
  destruct (pad_ids _ (ex_question <$> batch)) as [qid|e1] eqn:Hqid;
    cbn [Py.bind] in H; [done|].
  injection H as <-. left.
  apply pad_ids_raises in Hqid as [Hnil|(msg & -> & Hbad)];
    [by destruct batch|].
  split; [|by eauto]. intros [Hp Hi]. apply Hbad.
  split; [done|by apply int64_ids_question].
Qed.

(** The loop body raises what the construction of the tensors raises,
    or, once they are built, the error of [pin_memory]. *)
Lemma collate_raises_inv cuda cls (self : BatchGen.t) batch e :
  collate cuda cls self batch = Raise e →
  tensors_of cls self batch = Raise e ∨
  (is_ok (tensors_of cls self batch) = true ∧
   gpu self = true ∧ cuda = false ∧
   e = RuntimeError "Cannot access accelerator device when none is available.").
Proof.
  unfold collate. destruct (tensors_of cls self batch) as [b|e1] eqn:Hb;
    cbn [Py.bind]; [|by left].
  rewrite pin_tensors_cases by (by apply tensors_inv in Hb as (_ & _ & ? & _)).
  destruct (gpu self), cuda; cbn; try done. intros [= <-]. right. done.
Qed.

(** X5.  What makes the loop body fail on a batch, in the order the body
    checks.  A batch with the wrong number of fields for the mode fails
    the assertion of lines 278-281 (an empty batch has no fields).  A
    pad token or a document id that does not fit 64 bits makes
    [torch.LongTensor] raise [RuntimeError]; no tuple is yielded either
    when a question id does not fit.  With [gpu] set on a host without
    CUDA no tuple is ever yielded: a batch with yes-or-no labels whose
    tensors are built fails in [pin_memory] with [RuntimeError].
    Conversely, for yes-or-no labels, a failure that is not the
    assertion is a [RuntimeError], or it is an [IndexError] or a
    [TypeError] outside BERT mode. *)
Theorem collate_failure_causes cuda cls (self : BatchGen.t) batch :
  (zip_len batch ≠ (if eval self then 8 else 9) →
   collate cuda cls self batch
   = Raise (AssertionError
              (if eval self then "Eval expected" else "Train expected"))) ∧
  (zip_len batch = (if eval self then 8 else 9) →
   ¬ (int64 (pad_token self) ∧ Forall (Forall int64) (ex_context <$> batch)) →
   ∃ msg, collate cuda cls self batch = Raise (RuntimeError msg)) ∧
  (¬ Forall int64_ids batch → ∀ t, collate cuda cls self batch ≠ Ok t) ∧
  (gpu self = true → cuda = false →
   (∀ t, collate cuda cls self batch ≠ Ok t) ∧
   (Forall yes_no batch → is_ok (tensors_of cls self batch) = true →
    ∃ msg, collate cuda cls self batch = Raise (RuntimeError msg))) ∧
  (∀ e, collate cuda cls self batch = Raise e →
        zip_len batch = (if eval self then 8 else 9) →
        Forall yes_no batch →
        ∃ msg, e = RuntimeError msg ∨
               (bert self = false ∧ (e = IndexError msg ∨ e = TypeError msg))).
Proof.
  split_and!.
  - intros Hz. unfold collate, tensors_of, assert.
    destruct (eval self); by rewrite bool_decide_eq_false_2.
  - intros Hz Hbad. unfold collate, tensors_of, assert.
    assert (batch ≠ []) as Hne by (intros ->; by destruct (eval self)).
    assert ((if eval self
             then if bool_decide (zip_len batch = 8) then Ok () else
                    Raise (AssertionError "Eval expected")
             else if bool_decide (zip_len batch = 9) then Ok () else
                    Raise (AssertionError "Train expected")) = Ok ()) as ->.
    { destruct (eval self); by rewrite bool_decide_eq_true_2. }
    cbn [Py.bind].
    assert (max_len (ex_context <$> batch)
            = Ok (max_list (length <$> (ex_context <$> batch)))) as ->
      by (by destruct batch).
    cbn [Py.bind]. rewrite pad_ids_cases.
    destruct (ex_context <$> batch) as [|d ds] eqn:E; [by destruct batch|].
    rewrite <- E in *. repeat case_decide; try tauto; cbn; eauto.
  - intros Hbad t [Ht _]%collate_Ok. apply Hbad.
    apply tensors_inv in Ht as (Hc & Hq & _).
    apply pad_ids_Ok in Hc as (_ & _ & Hc & _).
    apply pad_ids_Ok in Hq as (_ & _ & Hq & _).
    rewrite Forall_fmap in Hc. rewrite Forall_fmap in Hq.
    apply Forall_forall. intros x Hx. split.
    + by apply (proj1 (Forall_forall _ _) Hc x Hx).
    + by apply (proj1 (Forall_forall _ _) Hq x Hx).
  - intros Hgpu ->. split.
    + intros t [_ Hc]%collate_Ok. by specialize (Hc Hgpu).
    + unfold collate. destruct (tensors_of cls self batch) as [b|e] eqn:Hb;
        [|done]. intros _ _. cbn [Py.bind].
      rewrite pin_tensors_cases
        by (by apply tensors_inv in Hb as (_ & _ & ? & _)).
      rewrite Hgpu. by eauto.
  - intros e He Hz _.
    apply collate_raises_inv in He as [He|(_ & _ & _ & ->)]; [|by eauto].
    apply tensors_raises_inv in He
      as [[? _]|(_ & [(_ & msg & ->)|(Hb & msg & [->|[->| ->]])])];
      [done|by eauto..].
Qed.

(** X6.  In BERT mode nothing but the ids is looked at: a batch with the
    number of fields the mode expects, ids and a pad token that fit 64
    bits and yes-or-no labels is collated wherever its tensors can be
    pinned, into a tuple without feature, tag and entity tensors. *)
Theorem bert_batches_collate cuda cls (self : BatchGen.t) batch :
  bert self = true →
  zip_len batch = (if eval self then 8 else 9) →
  int64 (pad_token self) → Forall int64_ids batch → Forall yes_no batch →
  (gpu self = true → cuda = true) →
  ∃ t, collate cuda cls self batch = Ok t ∧
       context_feature t = None ∧ context_tag t = None ∧ context_ent t = None.
Proof.
  intros Hbert Hz Hpad Hids _ Hgpu.
  destruct (tensors_of cls self batch) as [t|e] eqn:Hc.
  - exists t. split; [by apply collate_Ok|].
    apply tensors_inv in Hc as (_ & _ & Hb & _). by apply Hb.
  - apply tensors_raises_inv in Hc as [[? _]|(_ & [(Hbad & _)|(? & _)])];
      [done|by destruct Hbad|congruence].
Qed.
End failures.

(** ** [BatchGen.__init__] on sorted input *)

Section sorted_input.
Context `{!BertTokenizer} `{S32 : !Torch.Single}.
Import Torch BatchGen.

Lemma sorted_id {A} (key : A → nat) (l : list A) :
  StronglySorted (key_le key) l → sorted key l = l.
Proof.
  induction 1 as [|x l Hl IH Hx]; simpl; [done|].
  rewrite IH. destruct l as [|y l']; [done|]. simpl.
  apply Forall_cons in Hx as [Hxy _]. by rewrite decide_True.
Qed.

Lemma sorted_head_least {A} (key : A → nat) (l : list A) h rest :
  sorted key l = h :: rest → ∀ x, x ∈ l → key h ≤ key x.
Proof.
  intros Hs x Hx. pose proof (sorted_sorted key l) as Hsorted.
  rewrite <- (sorted_perm key l), Hs in Hx. rewrite Hs in Hsorted.
  apply StronglySorted_cons in Hsorted as [Hall _].
  apply elem_of_cons in Hx as [->|Hx]; [done|].
  by apply (proj1 (Forall_forall _ _) Hall).
Qed.

(** X7.  An evaluation generator over a list that is already in ascending
    order of document length, as [load_data] leaves the dev set (line
    236), keeps that order: its batches, one after the other, are the
    list itself, so the tuples come in the order of [dev_y]. *)
Theorem evaluation_keeps_sorted_order data (bs : Z) gpu bert g :
  (0 < bs)%Z →
  StronglySorted (key_le key) data →
  ∃ bg, BatchGen.__init__ data bs gpu true bert g = Ok (bg, g) ∧
        concat (BatchGen.data bg) = data.
Proof.
  intros Hbs Hs.
  destruct (init_pos data bs gpu true bert g Hbs) as (chunks & Hc & Hinit).
  destruct (chunk_shape _ _ _ Hbs Hc) as (Hcat & _ & _).
  eexists. split; [exact Hinit|]. simpl. by rewrite Hcat, sorted_id.
Qed.

(** X8.  Outside BERT mode an example with an empty document stops the
    evaluation at its first batch: the sort puts it first, and the
    feature length is read off the first token of the first example of
    the batch (line 289), which does not exist.  The document ids are
    taken to fit 64 bits: [overflow_comes_first] shows an id that does
    not, raising on line 286 before line 289 is reached. *)
Theorem empty_document_stops_evaluation cls data (bs : Z) gpu g x0 :
  (0 < bs)%Z →
  x0 ∈ data → ex_context x0 = [] →
  Forall (λ x, ex_answer x = None ∧
               length (ex_features x) = length (ex_context x) ∧
               Forall int64 (ex_context x)) data →
  ∃ bg,
    BatchGen.__init__ data bs gpu true false g = Ok (bg, g) ∧
    ∀ cuda, ∃ rest,
      BatchGen.__iter__ cuda cls bg
      = Raise (IndexError "list index out of range") :: rest.
Proof.
  intros Hbs Hx0 Hempty Hall.
  destruct (init_pos data bs gpu true false g Hbs) as (chunks & Hc & Hinit).
  destruct (chunk_shape _ _ _ Hbs Hc) as (Hcat & _ & Hshape).
  destruct (sorted key data) as [|h srest] eqn:Hsort.
  { apply (f_equal length) in Hsort.
    rewrite (Permutation_length (sorted_perm key data)) in Hsort.
    destruct data; [by apply elem_of_nil in Hx0|done]. }
  destruct chunks as [|b chunks']; [done|].
  destruct (Hshape 0 b eq_refl) as (Hb & Hlen & _).
  simpl in Hb. rewrite ?drop_0 in Hb.
  destruct b as [|h' brest]; [simpl in Hlen; lia|].
  assert (h' = h) as ->.
  { destruct (Z.to_nat bs); by simplify_eq/=. }
  assert (h :: brest ⊆ data) as Hsub.
  { intros x Hx. rewrite <- (sorted_perm key data), Hsort.
    rewrite Hb in Hx. by eapply (sublist_subseteq _ _ (sublist_take _ _)). }
  assert (ex_context h = []) as Hh.
  { pose proof (sorted_head_least key data h srest Hsort x0 Hx0) as Hle.
    unfold key in Hle. rewrite Hempty in Hle. simpl in Hle.
    destruct (ex_context h); [done|simpl in Hle; lia]. }
  assert (ex_features h = []) as Hf.
  { assert (h ∈ data) as Hin by (apply Hsub; left).
    destruct (proj1 (Forall_forall _ _) Hall h Hin) as (_ & Hl & _).
    rewrite Hh in Hl. by destruct (ex_features h). }
  eexists. split; [exact Hinit|]. intros cuda. eexists.
  unfold __iter__. cbn [BatchGen.data].
  rewrite fmap_cons. f_equal.
  unfold collate, tensors_of. cbn [eval bert pad_token].
  assert (zip_len (h :: brest) = 8) as Hz.
  { rewrite zip_len_cases. case_decide as Hd; [exfalso|done].
    apply Forall_cons in Hd as [[? Hs] _].
    assert (h ∈ data) as Hin by (apply Hsub; left).
    destruct (proj1 (Forall_forall _ _) Hall h Hin) as [Hn _].
    by rewrite Hn in Hs. }
  unfold assert. rewrite bool_decide_eq_true_2 by done. cbn [Py.bind].
  assert (max_len (ex_context <$> h :: brest)
          = Ok (max_list (length <$> (ex_context <$> h :: brest)))) as -> by done.
  cbn [Py.bind]. rewrite pad_ids_spec; [|done|unfold int64; lia|].
  2:{ apply Forall_fmap, Forall_forall. intros x Hx.
      by destruct (proj1 (Forall_forall _ _) Hall x (Hsub x Hx)) as (_ & _ & ?). }
  cbn [Py.bind negb].
  unfold feature_tensor. rewrite fmap_cons, Hf. done.
Qed.
End sorted_input.

(** ** [BatchGen.__iter__]: the one-hot and feature loops *)

Section tensor_loops.
Import Torch BatchGen.
Context `{S32 : !Single}.

(** The invariant rule for a loop that did not raise. *)
Lemma for_enumerate_inv {A St} (body : nat → A → St → result St)
    (Inv : nat → St → Prop) (l : list A) :
  ∀ i0 s s',
    for_enumerate body i0 l s = Ok s' →
    Inv i0 s →
    (∀ k x s s1, l !! k = Some x → Inv (i0 + k) s →
                 body (i0 + k) x s = Ok s1 → Inv (S (i0 + k)) s1) →
    Inv (i0 + length l) s'.
Proof.
  induction l as [|x l IH]; intros i0 s s'; simpl.
  - intros [= <-] Hs _. by rewrite Nat.add_0_r.
  - destruct (body i0 x s) as [s1|] eqn:Hb; [|done]. simpl.
    intros Hrest Hs Hstep.
    replace (i0 + S (length l)) with (S i0 + length l) by lia.
    apply (IH (S i0) s1 s' Hrest).
    + specialize (Hstep 0 x s s1 eq_refl). rewrite Nat.add_0_r in Hstep. auto.
    + intros k y t t1 Hk Ht Hbody.
      replace (S i0 + k) with (i0 + S k) in * by lia.
      by apply (Hstep (S k) y t t1).
Qed.

(** X9.  Building a one-hot tensor (lines 296-304) succeeds exactly when every
    id has a place in the tensor: its example is one of the rows, its
    token is within the longest document, and the id is below the depth
    ([pos_size], [ner_size]).  Otherwise the loop raises [IndexError]. *)
Theorem one_hot_succeeds_iff_ids_fit rows width depth (ids : list (list nat)) :
  ((∃ T, one_hot rows width depth ids = Ok T) ↔
   ∀ i j k, get2 ids i j = Some k → i < rows ∧ j < width ∧ k < depth) ∧
  (∀ e, one_hot rows width depth ids = Raise e → ∃ msg, e = IndexError msg).
Proof.
  split; [split|].
  - intros [T HT] i j k Hk. unfold one_hot in HT.
    apply rows_loop in HT as [Hsh Heq].
    specialize (Heq i j k). rewrite Nat.sub_0_r in Heq.
    rewrite decide_True in Heq by (split; [lia|done]).
    assert (is_Some (get3 (full3 rows width depth (Fin 0)) i j k)) as Hin
      by (apply Hsh; rewrite Heq; eauto).
    rewrite get3_full3 in Hin. case_decide; [done|by destruct Hin].
  - intros Hfit. unfold one_hot.
    destruct (for_enumerate_total
                (λ i doc T, for_enumerate (λ j tag T, set3 T i j tag (Fin 1)) 0 doc T)
                (shape3 rows width depth)
                (λ i doc, ∀ j k, doc !! j = Some k →
                                 i < rows ∧ j < width ∧ k < depth)
                ids 0 (full3 rows width depth (Fin 0))) as (T & HT & _);
      [| | |by eauto].
    + apply full3_shape.
    + intros i doc Hi j k Hj. rewrite Nat.add_0_l. apply Hfit.
      unfold get2. by rewrite Hi.
    + intros i doc T Hdoc HT.
      apply (for_enumerate_total _ (shape3 rows width depth)
               (λ j k, i < rows ∧ j < width ∧ k < depth)); [done| |].
      * intros j k Hj. rewrite Nat.add_0_l. by apply Hdoc.
      * intros j k T1 (Hi & Hj & Hk) HT1. by apply (set3_total rows width depth).
  - apply one_hot_raises.
Qed.

Lemma get2_insert {A} (T : list (list A)) i j M (v : A) :
  T !! i = Some M → j < length M →
  ∀ i' j', get2 (<[i := <[j := v]> M]> T) i' j'
           = if decide (i' = i ∧ j' = j) then Some v else get2 T i' j'.
Proof.
  intros HM Hj i' j'. unfold get2.
  destruct (decide (i' = i)) as [->|Hi].
  - rewrite list_lookup_insert_eq by (by eapply lookup_lt_Some). simpl.
    rewrite HM. simpl.
    destruct (decide (j' = j)) as [->|Hj'].
    + rewrite list_lookup_insert_eq by done. by rewrite decide_True.
    + rewrite list_lookup_insert_ne by done.
      by rewrite decide_False by (intros [_ ?]; done).
  - rewrite list_lookup_insert_ne by done.
    by rewrite decide_False by (intros [? _]; done).
Qed.

Lemma get2_full3 {A} n m k (v : A) i j :
  get2 (full3 n m k v) i j
  = if decide (i < n ∧ j < m) then Some (replicate k v) else None.
Proof.
  unfold get2, full3.
  destruct (decide (i < n)) as [Hi|Hi].
  - rewrite lookup_replicate_2 by done. simpl.
    destruct (decide (j < m)) as [Hj|Hj].
    + rewrite lookup_replicate_2 by done. by rewrite decide_True.
    + rewrite lookup_ge_None_2 by (rewrite length_replicate; lia).
      by rewrite decide_False by (intros [_ ?]; done).
  - rewrite lookup_ge_None_2 by (rewrite length_replicate; lia).
    by rewrite decide_False by (intros [? _]; done).
Qed.

Lemma set_vec_get2 {A} n m k (T T' : list (list (list A))) i j (v : list A) :
  shape3 n m k T → length v = k →
  set_vec T i j v = Ok T' →
  shape3 n m k T' ∧
  ∀ i' j', get2 T' i' j'
           = if decide (i' = i ∧ j' = j) then Some v else get2 T i' j'.
Proof.
  intros HT Hv. unfold set_vec.
  destruct (T !! i) as [M|] eqn:HM; [|done].
  destruct (M !! j) as [r|] eqn:Hr; [|done].
  destruct HT as [Hn HT].
  pose proof (Forall_lookup_1 _ _ _ _ HT HM) as [Hm HM'].
  pose proof (Forall_lookup_1 _ _ _ _ HM' Hr) as Hk.
  simpl in Hk. rewrite decide_True by congruence. intros [= <-]. split.
  - by apply shape3_insert.
  - apply get2_insert; [done|]. by eapply lookup_lt_Some.
Qed.

(** The feature loop (lines 291-294) on vectors of one length [F]: the
    row of token [j] of example [i] is its feature vector in single
    precision, and every other row within the shape is the zero vector. *)
Lemma feature_tensor_spec rows width F (feats : list (list (list float))) T :
  Forall (Forall (λ v, length v = F)) feats →
  feature_tensor rows width feats = Ok T →
  ∀ i j, get2 T i j
         = if decide (is_Some (get2 feats i j)) then tensor <$> get2 feats i j
           else if decide (i < rows ∧ j < width)
                then Some (replicate F (Fin 0)) else None.
Proof.
  intros Hlen. unfold feature_tensor.
  destruct feats as [|[|f fs] rest] eqn:E; [done..|]. rewrite <- E in *.
  cbn [Py.bind]. assert (length f = F) as ->.
  { rewrite E in Hlen. apply Forall_cons in Hlen as [Hf _].
    by apply Forall_cons in Hf as [? _]. }
  clear E. intros HT.
  set (T0 := full3 rows width F (Fin 0)) in *.
  pose proof (for_enumerate_inv _
    (λ i T, shape3 rows width F T ∧
            ∀ i' j', get2 T i' j'
                     = if decide (i' < i ∧ is_Some (get2 feats i' j'))
                       then tensor <$> get2 feats i' j' else get2 T0 i' j')
    feats 0 T0 T HT) as Hinv.
  destruct Hinv as [_ Hfinal].
  - split; [apply full3_shape|]. intros i' j'.
    by rewrite decide_False by (intros [? _]; lia).
  - intros i doc T1 T2 Hdoc [Hsh1 Heq1] Hbody. simpl in *.
    pose proof (for_enumerate_inv _
      (λ j T, shape3 rows width F T ∧
              ∀ i' j', get2 T i' j'
                       = if decide (i' = i ∧ j' < j) then tensor <$> doc !! j'
                         else get2 T1 i' j')
      doc 0 T1 T2 Hbody) as Hinner.
    destruct Hinner as [Hsh2 Heq2].
    + split; [done|]. intros i' j'.
      by rewrite decide_False by (intros [_ ?]; lia).
    + intros j v T3 T4 Hv [Hsh3 Heq3] Hset. simpl in *.
      assert (length (tensor v) = F) as HvF.
      { pose proof (Forall_lookup_1 _ _ _ _ Hlen Hdoc) as Hd.
        unfold tensor. rewrite length_fmap.
        by apply (Forall_lookup_1 _ _ _ _ Hd Hv). }
      destruct (set_vec_get2 _ _ _ _ _ _ _ _ Hsh3 HvF Hset) as [Hsh4 Heq4].
      split; [done|]. intros i' j'. rewrite Heq4, Heq3.
      destruct (decide (i' = i ∧ j' = j)) as [[-> ->]|Hne].
      { rewrite decide_True by (split; [done|lia]). by rewrite Hv. }
      repeat case_decide; try done; try lia; destruct_and?; simplify_eq;
        try done; exfalso; try lia;
        match goal with H : ¬ _ |- _ => apply H; split; (done || lia) end.
    + simpl in *. split; [done|]. intros i' j'. rewrite Heq2, Heq1.
      assert (i' = i → get2 feats i' j' = doc !! j') as Hrow
        by (intros ->; unfold get2; by rewrite Hdoc).
      destruct (decide (i' = i)) as [->|Hne].
      * rewrite Hrow by done.
        destruct (decide (j' < length doc)) as [Hj|Hj].
        -- rewrite decide_True by done.
           rewrite decide_True by (split; [lia|by apply lookup_lt_is_Some]). done.
        -- rewrite decide_False by (intros [_ ?]; done).
           rewrite decide_False by (intros [? _]; lia).
           rewrite decide_False; [done|].
           intros [_ Hs%lookup_lt_is_Some]. done.
      * rewrite decide_False by (intros [? _]; done).
        repeat case_decide; try done; exfalso; destruct_and?;
          match goal with H : ¬ _ |- _ => apply H; split; (done || lia) end.
  - intros i j. rewrite Hfinal. simpl.
    destruct (decide (is_Some (get2 feats i j))) as [Hs|Hs].
    + rewrite decide_True; [done|]. split; [|done].
      unfold get2 in Hs. destruct (feats !! i) eqn:Hi; [|by destruct Hs].
      by eapply lookup_lt_Some.
    + rewrite decide_False by (intros [_ ?]; done). apply get2_full3.
Qed.
End tensor_loops.

Section feature_column.
Import Torch BatchGen.
Context `{S32 : !Single}.

(** X10.  Outside BERT mode the second entry of a yielded tuple (lines
    289-294) holds, for token [j] of example [i], that token's feature
    vector as [torch.Tensor] converts it to single precision, and the
    zero vector of the same length at every later position up to the
    longest document of the batch. *)
Theorem feature_rows_then_zero_rows cls self batch t F cuda :
  bert self = false →
  Forall (λ x, Forall (λ v, length v = F) (ex_features x)) batch →
  collate cuda cls self batch = Ok t →
  ∃ CF w,
    max_len (ex_context <$> batch) = Ok w ∧
    context_feature t = Some CF ∧
    ∀ i x j, batch !! i = Some x →
      get2 CF i j
      = match ex_features x !! j with
        | Some v => Some (tensor v)
        | None => if decide (j < w) then Some (replicate F (Fin 0)) else None
        end.
Proof.
  intros Hbert Hlen [H _]%collate_Ok. unfold tensors_of in H.
  apply bind_Ok in H as (_ & _ & H).
  apply bind_Ok in H as (W & HW & H).
  apply bind_Ok in H as (cid & Hcid & H).
  apply bind_Ok in H as ([[cf ct] ce] & Hfe & H).
  apply bind_Ok in H as (qid & Hqid & H).
  injection H as <-. cbn [context_feature].
  rewrite Hbert in Hfe. cbn [negb] in Hfe.
  apply bind_Ok in Hfe as (CF & HCF & Hfe).
  apply bind_Ok in Hfe as (P & HP & Hfe).
  apply bind_Ok in Hfe as (CT & HCT & Hfe).
  apply bind_Ok in Hfe as (N & HN & Hfe).
  apply bind_Ok in Hfe as (CE & HCE & Hfe).
  injection Hfe as <- <- <-.
  exists CF, W. split; [done|]. split; [done|].
  intros i x j Hi.
  rewrite (feature_tensor_spec _ _ F _ _ (proj2 (Forall_fmap _ _ _) Hlen) HCF).
  assert (get2 (ex_features <$> batch) i j = ex_features x !! j) as ->
    by (unfold get2; by rewrite list_lookup_fmap, Hi).
  destruct (ex_features x !! j) as [v|] eqn:Hv.
  - by rewrite decide_True.
  - rewrite decide_False by (by intros [? ?]).
    apply lookup_lt_Some in Hi.
    destruct (decide (j < W)).
    + by rewrite decide_True.
    + by rewrite decide_False by (intros [_ ?]; done).
Qed.
End feature_column.

(** ** The training loop of [main] *)

Section training_loop.
Context `{!Framework} `{!BertTokenizer} `{S32 : !Torch.Single}.
Import BatchGen DocReaderModel Train.

Lemma update_ok self ex target w :
  answ ex = Some target →
  is_Some (opt self !! "grad_clipping") →
  ∃ m w', update self ex w = (Ok (), m, w') ∧
          updates m = (updates self + 1)%Z ∧ opt m = opt self ∧
          fs w' = fs w ∧ py_random w' = py_random w ∧ io w' = io w ∧
          log w' = log w.
Proof.
  intros Ha [g Hg]. unfold update, getitem. rewrite Ha. cbn [opt set_training].
  rewrite Hg.
  destruct (train_step _ _ _ _ _ _ _) as [[[[net os] loss] s] c].
  eexists _, _. split; [done|]. by split_and!.
Qed.

(** Without the ['grad_clipping'] option the update stops on line 93,
    after the forward and the backward pass. *)
Lemma update_needs_grad_clipping self ex target w :
  answ ex = Some target →
  opt self !! "grad_clipping" = None →
  ∃ m w', update self ex w = (Raise (KeyError "grad_clipping"), m, w') ∧
          updates m = updates self ∧ network m = network self ∧
          optimizer m = optimizer self ∧
          (let '(_, _, loss, s, c) :=
             train_step (opt self) (network self) (optimizer self)
               (inputs_of ex) target (torch_random w) (torch_cuda_random w) in
           train_loss m = meter_update (train_loss self) loss ∧
           torch_random w' = s ∧ torch_cuda_random w' = c).
Proof.
  intros Ha Hg. unfold update, getitem. rewrite Ha. cbn [opt set_training].
  rewrite Hg. cbn [network optimizer set_training train_loss].
  destruct (train_step _ _ _ _ _ _ _) as [[[[net os] loss] s] c].
  eexists _, _. split; [done|]. by split_and!.
Qed.

Lemma imap_shift {A} (k : nat) (l : list A) :
  imap ((λ i, pair (k + i)) ∘ S) l = imap (λ i, pair (S k + i)) l.
Proof.
  apply imap_ext. intros i x _. simpl. f_equal. lia.
Qed.

(** Well-formed batches whose ids fit 64 bits are all yielded on a host
    where their tensors can be pinned. *)
Lemma well_formed_batches_yield cuda cls bg :
  Forall (well_formed cls bg) (BatchGen.data bg) →
  Torch.int64 (pad_token bg) → Forall (Forall int64_ids) (BatchGen.data bg) →
  (gpu bg = true → cuda = true) →
  Forall (λ next, is_ok next = true) (BatchGen.__iter__ cuda cls bg).
Proof.
  intros Hwf Hpad Hids Hgpu. unfold BatchGen.__iter__. apply Forall_fmap.
  apply Forall_lookup_2. intros i b Hb.
  destruct (collate_yields cuda cls bg b) as [t Ht];
    [exact (Forall_lookup_1 _ _ _ _ Hwf Hb)|done
    |exact (Forall_lookup_1 _ _ _ _ Hids Hb)|done|].
  simpl. by rewrite Ht.
Qed.

(** X11.  Lines 69-74.  For a model whose options hold
    ['grad_clipping'], over a training generator that raises at no
    batch (by [well_formed_batches_yield], one whose batches are
    well-formed with ids that fit 64 bits, on a host where their tensors
    can be pinned), and with a
    log interval that is not zero, the loop performs exactly one update
    per batch (the training step itself is external and returns): the
    update counter grows by [len(batches)], the options are kept, no file
    is written, the state of [random] and the pending [torch.save]
    outcomes are untouched, and one INFO record is logged for every batch
    index that the interval divides. *)
Theorem train_loop_updates_once_per_batch cls args model bg w :
  eval bg = false →
  log_per_updates args ≠ 0%Z →
  Forall (λ next, is_ok next = true)
         (BatchGen.__iter__ (cuda_available w) cls bg) →
  is_Some (opt model !! "grad_clipping") →
  ∃ m w',
    train_loop cls args model bg w = (Ok m, w') ∧
    updates m = (updates model + Z.of_nat (__len__ bg))%Z ∧
    opt m = opt model ∧
    fs w' = fs w ∧ py_random w' = py_random w ∧ io w' = io w ∧
    log w'
    = log w ++
      replicate
        (length (filter (λ i, (Z.of_nat i mod log_per_updates args = 0)%Z)
                   (seq 0 (__len__ bg))))
        {| lr_logger := "__main__"; lr_level := INFO;
           lr_msg := "> epoch [{0:2}] updates[{1:6}] train loss[{2:.5f}] remaining[{3}]" |}.
Proof.
  intros Hev Hlpu Hok Hgc. unfold train_loop, __len__, BatchGen.__iter__ in *.
  set (c := cuda_available w) in *. clearbody c.
  rewrite <- (imap_ext (λ i, pair (0 + i)) pair (collate c cls bg <$> BatchGen.data bg))
    by done.
  match goal with |- context [for_each ?f] => set (body := f) end.
  set (rec := {| lr_logger := "__main__"; lr_level := INFO; lr_msg := _ |}).
  assert (∀ k t m0 w0 m1 w1,
            update m0 t w0 = (Ok (), m1, w1) →
            body (k, Ok t) m0 w0
            = (Ok m1, if decide (Z.of_nat k mod log_per_updates args = 0)%Z
                      then add_log rec w1 else w1)) as Hbody.
  { intros k t m0 w0 m1 w1 Hu. unfold body, mbindM, lift. rewrite Hu.
    rewrite (proj2 (Z.eqb_neq _ _) Hlpu).
    destruct (Z.of_nat k mod log_per_updates args =? 0)%Z eqn:Hmod.
    - apply Z.eqb_eq in Hmod. by rewrite decide_True.
    - apply Z.eqb_neq in Hmod. by rewrite decide_False. }
  clearbody body.
  generalize 0 as k. revert model w Hgc.
  induction (BatchGen.data bg) as [|b rest IH]; intros model w Hgc k.
  - simpl. eexists _, _. split; [done|].
    split_and!; try done; [lia|by rewrite app_nil_r].
  - rewrite fmap_cons in Hok. apply Forall_cons in Hok as [Hb Hrest].
    specialize (IH Hrest).
    rewrite fmap_cons, imap_cons, imap_shift. cbn [for_each].
    destruct (collate c cls bg b) as [t|] eqn:Ht; [|done].
    pose proof (collate_columns _ _ _ _ _ Ht) as (_ & _ & _ & _ & _ & Ha & _).
    rewrite Hev in Ha.
    destruct (update_ok model t _ w Ha Hgc)
      as (m1 & w1 & Hu & Hup & Hopt & Hfs & Hpy & Hio & Hlog).
    assert (is_Some (opt m1 !! "grad_clipping")) as Hgc1 by (by rewrite Hopt).
    unfold mbindM at 1. rewrite Nat.add_0_r, (Hbody _ _ _ _ _ _ Hu).
    cbn [length seq filter list_filter].
    destruct (decide (Z.of_nat k mod log_per_updates args = 0)%Z) as [Hmod|Hmod].
    + destruct (IH m1 (add_log rec w1) Hgc1 (S k))
        as (m & w' & -> & Hup' & Hopt' & Hfs' & Hpy' & Hio' & Hlog').
      eexists _, _. split; [done|].
      split_and!; try (simpl in *; congruence); [simpl in *; lia|].
      rewrite Hlog'. simpl. rewrite Hlog. by rewrite <- app_assoc.
    + destruct (IH m1 w1 Hgc1 (S k))
        as (m & w' & -> & Hup' & Hopt' & Hfs' & Hpy' & Hio' & Hlog').
      eexists _, _. split; [done|].
      split_and!; try (simpl in *; congruence); [simpl in *; lia|].
      rewrite Hlog'. by rewrite Hlog.
Qed.

(** X12.  Line 71.  With [log_per_updates = 0] the loop performs the
    update of its first batch (the options hold ['grad_clipping']) and
    then raises [ZeroDivisionError] on
    [i % 0]: the world it leaves is the world that [update] on the first
    tuple leaves, in which the training step has run once and in which
    nothing has been logged or written. *)
Theorem zero_log_interval_stops_training cls args model bg w b rest t :
  log_per_updates args = 0%Z →
  eval bg = false →
  BatchGen.data bg = b :: rest →
  collate (cuda_available w) cls bg b = Ok t →
  is_Some (opt model !! "grad_clipping") →
  ∃ target m1 w1,
    answ t = Some target ∧
    update model t w = (Ok (), m1, w1) ∧
    updates m1 = (updates model + 1)%Z ∧
    (let '(_, _, _, s, c) :=
       train_step (opt model) (network model) (optimizer model)
         (inputs_of t) target (torch_random w) (torch_cuda_random w) in
     torch_random w1 = s ∧ torch_cuda_random w1 = c) ∧
    train_loop cls args model bg w = (Raise ZeroDivisionError, w1) ∧
    fs w1 = fs w ∧ log w1 = log w ∧ py_random w1 = py_random w.
Proof.
  intros Hlpu Hev Hdata Ht Hgc. unfold train_loop, BatchGen.__iter__.
  rewrite Hdata, fmap_cons, imap_cons. cbn [for_each].
  pose proof (collate_columns _ _ _ _ _ Ht) as (_ & _ & _ & _ & _ & Ha & _).
  rewrite Hev in Ha.
  destruct (update_ok model t _ w Ha Hgc)
    as (m1 & w1 & Hu & Hup & _ & Hfs & Hpy & _ & Hlog).
  exists (answers b), m1, w1. split; [done|]. split; [done|]. split; [done|].
  split.
  { destruct Hgc as [g Hg]. unfold update, getitem in Hu. rewrite Ha in Hu.
    cbn [opt set_training] in Hu. rewrite Hg in Hu.
    cbn [network optimizer set_training] in Hu.
    destruct (train_step _ _ _ _ _ _ _) as [[[[net os] loss] s] c].
    by injection Hu as <- <-. }
  split; [|done].
  unfold mbindM at 1. unfold mbindM at 1. unfold mbindM at 1.
  unfold lift at 1. rewrite Ht. unfold mbindM at 1. rewrite Hu.
  rewrite Hlpu. done.
Qed.
End training_loop.

(** ** [DocReaderModel]: construction and checkpoints *)

Section model_construction.
Context `{!Framework}.
Import BatchGen DocReaderModel.

Lemma build_optimizer_Ok opt net sd o :
  build_optimizer opt net sd = Ok o →
  is_Some (opt !! "weight_decay") ∧
  ((opt !! "optimizer" = Some (VStr "sgd") ∧
    is_Some (opt !! "learning_rate") ∧ is_Some (opt !! "momentum") ∧
    o = build_sgd opt net sd) ∨
   (opt !! "optimizer" = Some (VStr "adamax") ∧ o = build_adamax opt net sd)).
Proof.
  unfold build_optimizer, getitem.
  destruct (opt !! "optimizer") as [[| | | |s|]|]; try done. cbn [Py.bind].
  destruct (decide (s = "sgd")) as [->|Hsgd].
  { destruct (opt !! "learning_rate"); [|done].
    destruct (opt !! "momentum"); [|done].
    destruct (opt !! "weight_decay"); [|done]. intros [= <-].
    split; [by eauto|]. left. by eauto. }
  destruct (decide (s = "adamax")) as [->|Hadamax].
  { destruct (opt !! "weight_decay"); [|done]. intros [= <-].
    split; [by eauto|]. by right. }
  intros Hs. exfalso.
  repeat match type of Hs with
         | match ?x with _ => _ end = _ => destruct x; try done
         end.
Qed.

Lemma init_inv opt embedding state_dict w m w' :
  DocReaderModel.__init__ opt embedding state_dict w = (Ok m, w') →
  is_Some (opt !! "cuda") ∧
  (opt !! "optimizer" = Some (VStr "sgd") ∨
   opt !! "optimizer" = Some (VStr "adamax")) ∧
  is_Some (opt !! "weight_decay") ∧
  DocReaderModel.opt m = opt ∧
  training m = true ∧
  updates m = from_option sd_updates 0%Z state_dict ∧
  train_loss m = from_option sd_loss new_meter state_dict ∧
  build_network opt embedding (sd_network <$> state_dict) (torch_random w)
  = (Ok (network m), torch_random w') ∧
  w' = set_torch_random (torch_random w') (torch_cuda_random w) w.
Proof.
  unfold DocReaderModel.__init__, mbindM, lift, ret, cuda_current_device, getitem.
  destruct (opt !! "cuda") as [c|]; [|done].
  destruct (truthy c); [destruct (cuda_available w); [|done]|].
  all: destruct (build_network _ _ _ _) as [[net|e] s] eqn:Hnet; [|done].
  all: destruct (build_optimizer _ _ _) as [o|] eqn:Ho; [|done].
  all: intros [= <- <-]; apply build_optimizer_Ok in Ho as [Hwd Ho]; cbn.
  all: split_and!; try done; try (by eauto); tauto.
Qed.

(** What the construction needs besides: the options of the [sgd]
    constructor, and CUDA when the options ask for it. *)
Lemma init_requires opt embedding state_dict w m w' :
  DocReaderModel.__init__ opt embedding state_dict w = (Ok m, w') →
  (opt !! "optimizer" = Some (VStr "sgd") →
   is_Some (opt !! "learning_rate") ∧ is_Some (opt !! "momentum")) ∧
  (∀ c, opt !! "cuda" = Some c → truthy c = true → cuda_available w = true).
Proof.
  unfold DocReaderModel.__init__, mbindM, lift, ret, cuda_current_device, getitem.
  destruct (opt !! "cuda") as [c|]; [|done].
  destruct (truthy c) eqn:Hc; [destruct (cuda_available w); [|done]|].
  all: destruct (build_network _ _ _ _) as [[net|e] s] eqn:Hnet; [|done].
  all: destruct (build_optimizer _ _ _) as [o|] eqn:Ho; [|done].
  all: intros _; apply build_optimizer_Ok in Ho as [Hwd Ho].
  all: split; [intros Hsgd; destruct Ho as [(_ & ? & ? & _)|[Ha _]]; [done|congruence]|].
  all: intros c' [= <-] Hc'; congruence.
Qed.

(** X13.  [DocReaderModel.__init__] (lines 33-68) raises [KeyError] when the
    options have no ['cuda'] entry and fails in
    [torch.cuda.current_device()] when that entry is truthy on a host
    without CUDA, in both cases before anything is built.  It returns a model only if the ['optimizer'] entry is
    ['sgd'] or ['adamax'], the options each constructor is called with
    are present, and CUDA is there when asked for.  The model it returns
    is in training mode, keeps the options, and takes its update counter
    and loss meter from the state dictionary, or starts them at zero;
    only torch's generator has been touched, by the construction of the
    network. *)
Theorem init_needs_cuda_key_and_known_optimizer opt embedding state_dict w :
  (opt !! "cuda" = None →
   DocReaderModel.__init__ opt embedding state_dict w
   = (Raise (KeyError "cuda"), w)) ∧
  (∀ c, opt !! "cuda" = Some c → truthy c = true → cuda_available w = false →
   ∃ e, DocReaderModel.__init__ opt embedding state_dict w = (Raise e, w)) ∧
  (∀ m w',
     DocReaderModel.__init__ opt embedding state_dict w = (Ok m, w') →
     is_Some (opt !! "cuda") ∧
     (opt !! "optimizer" = Some (VStr "sgd") ∨
      opt !! "optimizer" = Some (VStr "adamax")) ∧
     is_Some (opt !! "weight_decay") ∧
     DocReaderModel.opt m = opt ∧
     training m = true ∧
     updates m = from_option sd_updates 0%Z state_dict ∧
     train_loss m = from_option sd_loss new_meter state_dict ∧
     w' = set_torch_random (torch_random w') (torch_cuda_random w) w ∧
     build_network opt embedding (sd_network <$> state_dict) (torch_random w)
     = (Ok (network m), torch_random w') ∧
     (opt !! "optimizer" = Some (VStr "sgd") →
      is_Some (opt !! "learning_rate") ∧ is_Some (opt !! "momentum")) ∧
     (∀ c, opt !! "cuda" = Some c → truthy c = true → cuda_available w = true)).
Proof.
  split_and!.
  - unfold DocReaderModel.__init__, mbindM, lift, getitem. by intros ->.
  - intros c Hc Ht Hno.
    unfold DocReaderModel.__init__, mbindM, lift, getitem, cuda_current_device.
    rewrite Hc, Ht, Hno. by eauto.
  - intros m w' Hm. pose proof (init_requires _ _ _ _ _ _ Hm) as [Hsgd Hcuda].
    apply init_inv in Hm. split_and!; tauto || exact Hcuda.
Qed.

Lemma save_bad_scores self filename epoch scores w :
  length scores ≠ 2 →
  save self filename epoch scores w
  = (Raise (ValueError "wrong number of values to unpack"), w).
Proof. by destruct scores as [|a [|b [|c rest]]]. Qed.

(** X14.  [DocReaderModel.save] (lines 121-142) raises only before its [try]
    block: when [scores] is not a pair or the CUDA random state cannot be
    read.  In that case nothing has changed.  In every case no file but
    the target is touched, the random states are left alone, and only the
    logger of [drqa.model] has written. *)
Theorem save_raises_only_before_try self filename epoch scores w :
  let r := save self filename epoch scores w in
  ((∃ e, r.1 = Raise e) ↔ length scores ≠ 2 ∨ torch_cuda_random w = None) ∧
  ((∃ e, r.1 = Raise e) → r.2 = w) ∧
  (∀ f, f ≠ filename → fs r.2 !! f = fs w !! f) ∧
  py_random r.2 = py_random w ∧
  torch_random r.2 = torch_random w ∧
  torch_cuda_random r.2 = torch_cuda_random w ∧
  (∀ rec, rec ∈ log r.2 → rec ∈ log w ∨ lr_logger rec = "drqa.model").
Proof.
  cbv zeta. destruct (decide (length scores = 2)) as [Hlen|Hlen].
  2:{ rewrite (save_bad_scores _ _ _ _ _ Hlen). cbn.
      split_and!; try done; [split; eauto | by auto]. }
  destruct scores as [|a [|b [|c rest]]]; try done. clear Hlen.
  destruct (torch_cuda_random w) as [s|] eqn:Hs.
  - rewrite (save_unfold _ _ _ _ _ _ s Hs).
    unfold try_except, mbindM, torch_save, emit.
    assert (∀ rec0 (rec : LogRecord),
              lr_logger rec0 = "drqa.model" →
              rec ∈ log w ++ [rec0] → rec ∈ log w ∨ lr_logger rec = "drqa.model")
      as Hlog.
    { intros rec0 rec H0 [?|Hr%list_elem_of_singleton]%elem_of_app;
        [by left|subst; by right]. }
    destruct (io w) as [|[] o]; cbn.
    all: split_and!; try done;
      try (split; [by intros [? [=]] | by intros [[]|[=]]]);
      try (by intros [? [=]]);
      try (intros f Hf; by rewrite lookup_insert_ne);
      try (intros rec; by apply Hlog).
  - rewrite (save_without_cuda _ _ _ _ _ _ Hs). cbn.
    split_and!; try done; [split; eauto | by auto].
Qed.

(** X15.  A checkpoint written by [save] restores the model's counters:
    the file can be loaded, and a model constructed from its ['config']
    and ['state_dict'], as [main] does on resume (lines 32-36), has the
    options, the update counter and the loss meter of the model that was
    saved, and a network built from the saved weights. *)
Theorem checkpoint_restores_counters self filename epoch accuracy best_eval
    embedding w :
  is_Some (torch_cuda_random w) →
  save_succeeds w →
  ∃ w' c,
    save self filename epoch [accuracy; best_eval] w = (Ok (), w') ∧
    torch_load filename w' = (Ok c, w') ∧
    ck_epoch c = epoch ∧ ck_accuracy c = accuracy ∧ ck_best_eval c = best_eval ∧
    ∀ m w1 w2,
      DocReaderModel.__init__ (ck_config c) embedding (Some (ck_state_dict c)) w1
      = (Ok m, w2) →
      opt m = opt self ∧
      updates m = updates self ∧
      train_loss m = train_loss self ∧
      build_network (opt self) embedding (Some (network self)) (torch_random w1)
      = (Ok (network m), torch_random w2).
Proof.
  intros [s Hs] Hio. rewrite (save_unfold _ _ _ _ _ _ s Hs).
  set (c := params_of self epoch accuracy best_eval w s).
  assert (∀ m w1 w2,
            DocReaderModel.__init__ (ck_config c) embedding
              (Some (ck_state_dict c)) w1 = (Ok m, w2) →
            opt m = opt self ∧ updates m = updates self ∧
            train_loss m = train_loss self ∧
            build_network (opt self) embedding (Some (network self))
              (torch_random w1) = (Ok (network m), torch_random w2))
    as Hinit.
  { intros m w1 w2 Hm.
    by apply init_inv in Hm as (_ & _ & _ & Ho & _ & Hu & Hl & Hn & _). }
  unfold try_except, mbindM, torch_save, emit, save_succeeds in *.
  destruct (io w) as [|[] o]; try done; cbn.
  - eexists _, c. split; [done|]. unfold torch_load. cbn.
    rewrite lookup_insert_eq. by split_and!.
  - eexists _, c. split; [done|]. unfold torch_load. cbn.
    rewrite lookup_insert_eq. by split_and!.
Qed.
End model_construction.

(** ** [BatchGen]: batch sizes that are not positive, ties, and
    generators that never raise *)

Section generator.
Context `{!BertTokenizer} `{S32 : !Torch.Single}.
Import Torch BatchGen.

(** X16.  Lines 261-269 with a batch size that is not positive: zero makes
    [range] raise [ValueError]; a negative one makes [range] empty, so
    the generator is built without any batch, whatever the data, and the
    state of [random] is left alone. *)
Theorem nonpositive_batch_size_gives_no_batch data (bs : Z) gpu ev bert g :
  (bs ≤ 0)%Z →
  BatchGen.__init__ data bs gpu ev bert g
  = if decide (bs = 0%Z)
    then Raise (ValueError "range() arg 3 must not be zero")
    else Ok ({| batch_size := bs; eval := ev; gpu := gpu; bert := bert;
                pad_token := if bert then pad_token_id else 0%Z;
                data := [] |}, g).
Proof.
  intros Hbs. unfold BatchGen.__init__. case_decide as H0.
  - subst bs. by rewrite chunk_zero.
  - rewrite chunk_neg by lia. simpl. by destruct ev.
Qed.

(** X17.  Line 261: the sort is stable.  In an evaluation generator the
    examples whose documents have the same length come in the order they
    had in the input. *)
Theorem equal_lengths_keep_input_order data (bs : Z) gpu bert g (k : nat) :
  (0 < bs)%Z →
  ∃ bg, BatchGen.__init__ data bs gpu true bert g = Ok (bg, g) ∧
        filter (λ x, key x = k) (concat (BatchGen.data bg))
        = filter (λ x, key x = k) data.
Proof.
  intros Hbs.
  destruct (init_pos data bs gpu true bert g Hbs) as (chunks & Hc & Hinit).
  destruct (chunk_shape _ _ _ Hbs Hc) as (Hcat & _ & _).
  eexists. split; [exact Hinit|]. simpl. rewrite Hcat. apply sorted_stable.
Qed.

Lemma elem_of_concat {A} (x : A) (l : list A) (ls : list (list A)) :
  x ∈ l → l ∈ ls → x ∈ concat ls.
Proof.
  intros Hx Hl. induction ls as [|l0 ls IH]; [by apply elem_of_nil in Hl|].
  simpl. apply elem_of_app.
  apply elem_of_cons in Hl as [<-|Hl]; [by left|right; by apply IH].
Qed.

(** Every batch of a generator built from examples that carry a label
    exactly in training mode and, outside BERT mode, are aligned, is well
    formed. *)
Lemma init_well_formed cls data (bs : Z) gpu ev bert g P N F bg g' :
  (0 < bs)%Z →
  Forall (λ x, ex_answer x = None ↔ ev = true) data →
  (bert = false →
   pos_size cls = Some P ∧ ner_size cls = Some N ∧
   Forall (aligned P N F) data) →
  BatchGen.__init__ data bs gpu ev bert g = Ok (bg, g') →
  Forall (well_formed cls bg) (BatchGen.data bg).
Proof.
  intros Hbs Hans Hal Hinit.
  destruct (init_pos data bs gpu ev bert g Hbs) as (chunks & Hc & Hinit').
  rewrite Hinit' in Hinit. injection Hinit as <- <-. cbn [BatchGen.data].
  destruct (chunk_shape _ _ _ Hbs Hc) as (Hcat & _ & Hshape).
  assert ((if ev then chunks else (shuffle chunks g).1) ≡ₚ chunks) as Hperm
    by (destruct ev; [done|apply shuffle_perm]).
  match goal with
  | |- Forall (well_formed cls ?b) _ =>
      generalize (eq_refl : eval b = ev) (eq_refl : BatchGen.bert b = bert);
      generalize b
  end.
  intros bg Hev Hbert'.
  rewrite Hperm. apply Forall_forall. intros b Hb.
  assert (∀ x, x ∈ b → x ∈ data) as Hin.
  { intros x Hx. rewrite <- (sorted_perm key data), <- Hcat.
    by apply (elem_of_concat x b). }
  apply list_elem_of_lookup in Hb as [i Hi].
  destruct (Hshape i b Hi) as (_ & Hlen & _).
  assert (b ≠ []) as Hne by (intros ->; simpl in Hlen; lia).
  unfold well_formed. rewrite Hev, Hbert'. split; [done|]. split.
  - rewrite zip_len_cases. destruct b as [|x b']; [done|].
    destruct ev.
    + rewrite decide_False; [done|]. intros [[a Ha] _]%Forall_cons.
      assert (ex_answer x = None) as Hx; [|congruence].
      apply (proj1 (Forall_forall _ _) Hans x); [apply Hin; left|done].
    + rewrite decide_True; [done|]. apply Forall_forall. intros y Hy.
      pose proof (proj1 (Forall_forall _ _) Hans y (Hin y Hy)) as Hyans.
      destruct (ex_answer y) as [a|] eqn:E; [by eauto|]. by apply Hyans in E.
  - intros Hbert. destruct (Hal Hbert) as (HP & HN & Hall).
    exists P, N, F. split; [done|]. split; [done|].
    apply Forall_forall. intros y Hy.
    by apply (proj1 (Forall_forall _ _) Hall), Hin.
Qed.

(** The examples of a batch are examples of the input. *)
Lemma init_elements data (bs : Z) gpu ev bert g bg g' :
  (0 < bs)%Z →
  BatchGen.__init__ data bs gpu ev bert g = Ok (bg, g') →
  ∀ b x, b ∈ BatchGen.data bg → x ∈ b → x ∈ data.
Proof.
  intros Hbs Hinit b x Hb Hx.
  destruct (batches_nonempty_aux data bs gpu ev bert g Hbs)
    as (bg0 & g0 & E & Hp).
  rewrite E in Hinit. injection Hinit as <- <-.
  rewrite <- Hp. by apply (elem_of_concat x b).
Qed.

(** X18.  Lines 274-339.  A generator over examples that carry a label
    exactly in training mode, a yes-or-no label, whose ids fit 64 bits
    and that, outside BERT mode, are aligned yields a tuple for each of
    its batches on a host where its tensors can be pinned ([gpu] not
    set, or CUDA available): no step of the iteration raises, whether
    the batches were shuffled or not.  Each tuple has one row per
    example of its batch. *)
Theorem aligned_data_yields_every_batch cuda cls data (bs : Z) gpu ev bert g
    P N F :
  (0 < bs)%Z →
  Forall (λ x, if ev : bool then ex_answer x = None
               else ex_answer x = Some 0%Z ∨ ex_answer x = Some 1%Z) data →
  Forall int64_ids data →
  (bert = true → int64 pad_token_id) →
  (gpu = true → cuda = true) →
  (bert = false →
   pos_size cls = Some P ∧ ner_size cls = Some N ∧
   Forall (aligned P N F) data) →
  ∃ bg g' tuples,
    BatchGen.__init__ data bs gpu ev bert g = Ok (bg, g') ∧
    BatchGen.__iter__ cuda cls bg = Ok <$> tuples ∧
    length tuples = __len__ bg ∧
    Forall2 (λ t b, length (context_id t) = length b ∧
                    text t = ex_text <$> b)
            tuples (BatchGen.data bg).
Proof.
  intros Hbs Hlab Hids Hpad Hgpu Hal.
  assert (Forall (λ x, ex_answer x = None ↔ ev = true) data) as Hans.
  { eapply Forall_impl; [exact Hlab|]. intros x Hx. simpl in Hx.
    destruct ev; [by split|]. split; [|done].
    intros Hn. rewrite Hn in Hx. by destruct Hx. }
  destruct (init_pos data bs gpu ev bert g Hbs) as (chunks & Hc & Hinit).
  pose proof (init_well_formed cls _ _ _ _ _ _ P N F _ _ Hbs Hans Hal Hinit) as Hwf.
  pose proof (init_elements _ _ _ _ _ _ _ _ Hbs Hinit) as Hel.
  eexists _, _. unfold __iter__, __len__.
  match type of Hwf with Forall _ (BatchGen.data ?b) => set (bg := b) in * end.
  assert (int64 (pad_token bg)) as Hpad'.
  { subst bg. cbn. destruct bert; [by apply Hpad|]. unfold int64. lia. }
  assert (BatchGen.gpu bg = true → cuda = true) as Hgpu' by (subst bg; done).
  assert (Forall (Forall int64_ids) (BatchGen.data bg)) as Hids'.
  { apply Forall_forall. intros b Hb. apply Forall_forall. intros x Hx.
    apply (proj1 (Forall_forall _ _) Hids). by eapply Hel. }
  assert (∃ tuples, collate cuda cls bg <$> BatchGen.data bg = Ok <$> tuples ∧
                    Forall2 (λ t b, length (context_id t) = length b ∧
                                    text t = ex_text <$> b)
                            tuples (BatchGen.data bg)) as (tuples & Ht & H2).
  { clear Hinit Hel. induction Hwf as [|b rest Hb Hrest IH].
    - by exists [].
    - apply Forall_cons in Hids' as [Hidb Hidr].
      destruct (IH Hidr) as (ts & Hts & H2).
      destruct (collate_yields cuda _ _ _ Hb Hpad' Hidb Hgpu') as [t Ht].
      exists (t :: ts). rewrite !fmap_cons, Ht, Hts. split; [done|].
      constructor; [|done].
      pose proof (collate_columns _ _ _ _ _ Ht) as (_ & _ & _ & Htext & _).
      split; [|done].
      apply collate_inv in Ht as (Hp & _).
      apply pad_ids_Ok in Hp as (_ & _ & _ & ->). by rewrite !length_fmap. }
  exists tuples. split; [exact Hinit|]. split; [done|]. split; [|done].
  apply Forall2_length in H2. done.
Qed.
End generator.

(** ** [main]: resuming, and what a run writes *)

Section runs.
Context `{!Framework} `{!BertTokenizer} `{S32 : !Torch.Single}.
Import BatchGen DocReaderModel Train.

(** A property of the world after a sequence of two steps. *)
Lemma mbindM_inv {A B} (P : World → Prop) (m : M A) (k : A → M B) w :
  P (m w).2 →
  (∀ a w1, m w = (Ok a, w1) → P w1 → P (k a w1).2) →
  P (mbindM m k w).2.
Proof.
  unfold mbindM. destruct (m w) as [[a|e] w1]; simpl; [|done].
  intros HP Hk. by apply Hk.
Qed.

Lemma for_each_inv {A St} (P : World → Prop) (body : A → St → M St) l :
  (∀ x s w, P w → P (body x s w).2) →
  ∀ s w, P w → P (for_each body l s w).2.
Proof.
  intros Hbody. induction l as [|x l IH]; intros s w Hw; simpl; [done|].
  apply mbindM_inv; [by apply Hbody|]. intros s1 w1 _ Hw1. by apply IH.
Qed.

Lemma evaluate_cases cls model bg w :
  evaluate cls model bg w = (Ok ([], model), w) ∨
  ∃ e, evaluate cls model bg w = (Raise e, w).
Proof.
  destruct (BatchGen.data bg) as [|b rest] eqn:E.
  - left. by apply evaluate_nil.
  - right. apply evaluate_raises. by rewrite E.
Qed.

Lemma score_nil truth a : score [] truth = Ok a → a = NaN ∧ truth = [].
Proof. destruct truth; [by intros [= <-]|done]. Qed.

Lemma new_batches_fs data bs gpu ev bert w :
  fs (new_batches data bs gpu ev bert w).2 = fs w.
Proof.
  destruct (new_batches data bs gpu ev bert w) as [r w'] eqn:E.
  by apply new_batches_inv in E as (? & _).
Qed.

Lemma train_loop_fs' cls args model bg w :
  fs (train_loop cls args model bg w).2 = fs w.
Proof.
  destruct (train_loop cls args model bg w) as [r w'] eqn:E.
  by apply train_loop_fs in E.
Qed.

Lemma evaluate_world cls model bg w : (evaluate cls model bg w).2 = w.
Proof. by destruct (evaluate_cases cls model bg w) as [-> | [e ->]]. Qed.

Lemma save_fs_ne self filename epoch scores w f :
  f ≠ filename → fs (save self filename epoch scores w).2 !! f = fs w !! f.
Proof.
  intros Hf. destruct (decide (length scores = 2)) as [Hlen|Hlen].
  2:{ by rewrite (save_bad_scores _ _ _ _ _ Hlen). }
  destruct scores as [|a [|b [|c rest]]]; try done. clear Hlen.
  destruct (torch_cuda_random w) as [s|] eqn:Hs.
  - rewrite (save_unfold _ _ _ _ _ _ s Hs).
    unfold try_except, mbindM, torch_save, emit.
    destruct (io w) as [|[] o]; cbn; try done; by rewrite lookup_insert_ne.
  - by rewrite (save_without_cuda _ _ _ _ _ _ Hs).
Qed.

Lemma best_model_is_no_checkpoint dir (epoch : Z) :
  path_join dir "best_model.pt"
  ≠ path_join dir ("checkpoint_epoch_" +:+ pretty epoch +:+ ".pt").
Proof. unfold path_join. intros Heq%String.app_inj. discriminate. Qed.

(** An epoch leaves [best_model.pt] as it was. *)
Lemma epoch_body_keeps_best cls args train dev dev_y opt epoch_0 epoch s w :
  fs (epoch_body cls args train dev dev_y opt epoch_0 epoch s w).2
    !! path_join (model_dir args) "best_model.pt"
  = fs w !! path_join (model_dir args) "best_model.pt".
Proof.
  destruct s as [model best]. unfold epoch_body.
  set (P := λ w' : World, fs w' !! path_join (model_dir args) "best_model.pt"
                          = fs w !! path_join (model_dir args) "best_model.pt").
  cbv beta iota. match goal with |- fs (?c).2 !! _ = _ => change (P c.2) end.
  apply mbindM_inv; [done|]. intros _ w1 _ H1.
  apply mbindM_inv; [done|]. intros b1 w2 [= _ <-] _.
  apply mbindM_inv; [unfold P; by rewrite new_batches_fs|]. intros bt w3 _ H3.
  apply mbindM_inv; [unfold P; by rewrite train_loop_fs'|]. intros m1 w4 _ H4.
  apply mbindM_inv; [done|]. intros _ w5 _ H5.
  apply mbindM_inv; [done|]. intros b2 w6 [= _ <-] _.
  apply mbindM_inv; [unfold P; by rewrite new_batches_fs|]. intros bd w7 _ H7.
  apply mbindM_inv; [by rewrite evaluate_world|]. intros [preds m2] w8 Hev H8.
  destruct (evaluate_cases cls m1 bd w7) as [Hc | [e Hc]];
    rewrite Hc in Hev; [|done]. injection Hev as <- <- <-.
  apply mbindM_inv; [done|]. intros acc w9 [= Hacc <-] _.
  apply score_nil in Hacc as [-> _].
  apply mbindM_inv; [done|]. intros _ w10 _ H10.
  apply mbindM_inv; [by destruct (save_dawn_logs args)|]. intros _ w11 _ H11.
  destruct (negb (save_last_only args) || _); [|done].
  apply mbindM_inv.
  { unfold P. rewrite save_fs_ne by apply best_model_is_no_checkpoint. done. }
  intros _ w12 _ H12. done.
Qed.

Lemma init_fs opt embedding state_dict w :
  fs (DocReaderModel.__init__ opt embedding state_dict w).2 = fs w.
Proof.
  destruct (DocReaderModel.__init__ opt embedding state_dict w) as [r w'] eqn:E.
  by apply init_world in E as (? & _).
Qed.

Lemma resume_model_fs cls args dev dev_y embedding opt w :
  fs (resume_model cls args dev dev_y embedding opt w).2 = fs w.
Proof.
  unfold resume_model.
  set (P := λ w' : World, fs w' = fs w).
  match goal with |- fs (?c).2 = _ => change (P c.2) end.
  apply mbindM_inv; [done|]. intros _ w1 _ H1.
  apply mbindM_inv.
  { unfold torch_load. by destruct (fs w1 !! _) as [[]|]. }
  intros ck w2 Hload _.
  assert (w2 = w1) as ->.
  { unfold torch_load in Hload. by destruct (fs w1 !! _) as [[]|]; simplify_eq. }
  apply mbindM_inv; [unfold P; by rewrite init_fs|]. intros m w3 _ H3.
  apply mbindM_inv; [done|]. intros _ w4 _ H4.
  apply mbindM_inv; [done|]. intros _ w5 _ H5.
  apply mbindM_inv; [by destruct (cuda args)|]. intros _ w6 _ H6.
  apply mbindM_inv; [by destruct (ftruthy (reduce_lr args))|]. intros m2 w7 _ H7.
  apply mbindM_inv; [unfold P; by rewrite new_batches_fs|]. intros bd w8 _ H8.
  apply mbindM_inv; [by rewrite evaluate_world|]. intros [preds m3] w9 _ H9.
  apply mbindM_inv; [done|]. intros acc w10 [= _ <-] _.
  apply mbindM_inv; [done|]. intros _ w11 _ H11.
  apply mbindM_inv; [|done].
  destruct (fgt _ _); [|done]. by cbn.
Qed.

(** X19.  No run of [main] creates or changes [best_model.pt]: the copy on
    lines 92-95 is reached only after an evaluation loop that has
    returned, which it does only without a batch, and the accuracy is
    then NaN, which is not above any best score. *)
Theorem main_never_writes_best_model cls args train dev dev_y embedding opt w :
  fs (main cls args train dev dev_y embedding opt w).2
    !! path_join (model_dir args) "best_model.pt"
  = fs w !! path_join (model_dir args) "best_model.pt".
Proof.
  unfold main.
  set (P := λ w' : World, fs w' !! path_join (model_dir args) "best_model.pt"
                          = fs w !! path_join (model_dir args) "best_model.pt").
  match goal with |- fs (?c).2 !! _ = _ => change (P c.2) end.
  apply mbindM_inv; [by destruct (save_dawn_logs args)|]. intros _ w1 _ H1.
  apply mbindM_inv.
  { destruct (negb _).
    - unfold P. by rewrite resume_model_fs.
    - apply mbindM_inv; [unfold P; by rewrite init_fs|]. by intros m w2 _ H2. }
  intros [[[opt' model] epoch_0] best] w2 _ H2.
  apply mbindM_inv; [done|]. intros epochs w3 [= _ <-] _.
  apply mbindM_inv; [|by intros [m b] w4 _ H4].
  apply for_each_inv; [|done].
  intros epoch s w4 H4. unfold P. by rewrite epoch_body_keeps_best.
Qed.


(** What has been logged does not matter to the construction. *)
Lemma init_add_log opt embedding state_dict r w :
  DocReaderModel.__init__ opt embedding state_dict (add_log r w)
  = ((DocReaderModel.__init__ opt embedding state_dict w).1,
     add_log r (DocReaderModel.__init__ opt embedding state_dict w).2).
Proof.
  unfold DocReaderModel.__init__, mbindM, lift, ret, cuda_current_device,
    cuda_available. cbn.
  destruct (getitem opt "cuda") as [c|e]; [|done].
  destruct (truthy c); [destruct (bool_decide _); [|done]|].
  all: destruct (build_network _ _ _ _) as [[net|e] s]; [|done].
  all: by destruct (build_optimizer _ _ _).
Qed.

(** X21.  Lines 58-64 and 97: a fresh run with no epoch to do
    ([epochs <= 0]) builds the model and returns the initial best score
    0.0.  It writes no file and draws nothing from [random]; torch's
    generator is as the construction of the network left it. *)
Theorem no_epochs_returns_zero cls args train dev dev_y embedding opt w m w1 :
  resume args = EmptyString →
  (epochs args ≤ 0)%Z →
  DocReaderModel.__init__ opt embedding None w = (Ok m, w1) →
  ∃ w',
    main cls args train dev dev_y embedding opt w = (Ok (Fin 0), w') ∧
    fs w' = fs w ∧ py_random w' = py_random w ∧ io w' = io w ∧
    torch_random w' = torch_random w1 ∧
    build_network opt embedding None (torch_random w)
    = (Ok (network m), torch_random w1) ∧
    torch_cuda_random w' = torch_cuda_random w.
Proof.
  intros Hres Hep Hm. unfold main.
  rewrite Hres, bool_decide_eq_true_2 by done. cbn [negb].
  assert (Z.to_nat (0 `max` ((1 + epochs args - 1 + 1 - 1) `div` 1)) = 0)
    as Hrange.
  { assert ((1 + epochs args - 1 + 1 - 1) / 1 ≤ 0)%Z
      by (rewrite Z.div_1_r; lia). lia. }
  pose proof (init_inv _ _ _ _ _ _ Hm) as (_ & _ & _ & _ & _ & _ & _ & Hnet & _).
  pose proof (init_world _ _ _ _ _ _ Hm) as (Hfs & _ & Hpy & Hio & Hcu).
  unfold mbindM at 1.
  destruct (save_dawn_logs args); cbn [emit ret].
  all: unfold mbindM at 1; unfold mbindM at 1;
    rewrite ?init_add_log, Hm; cbn [fst snd];
    unfold ret at 1; unfold mbindM at 1; unfold lift at 1; unfold range;
    cbn [Z.eqb]; unfold range_len; cbn [Z.ltb Z.compare];
    rewrite Hrange; cbn; unfold ret; eexists;
    (split; [reflexivity|by split_and!]).
Qed.

Lemma init_no_batches dev (bs : Z) gpu bert g :
  (bs < 0)%Z ∨ (dev = [] ∧ bs ≠ 0%Z) →
  BatchGen.__init__ dev bs gpu true bert g
  = Ok ({| batch_size := bs; eval := true; gpu := gpu; bert := bert;
           pad_token := if bert then pad_token_id else 0%Z; data := [] |}, g).
Proof.
  intros Hno. destruct (decide (bs < 0)%Z) as [Hneg|Hpos].
  - unfold BatchGen.__init__. by rewrite chunk_neg by done.
  - destruct Hno as [?|[-> Hbs]]; [done|].
    assert (0 < bs)%Z as Hbs' by lia.
    destruct (init_pos [] bs gpu true bert g Hbs') as (chunks & Hc & Hinit).
    destruct (chunk_shape _ _ _ Hbs' Hc) as (_ & Hlen & _).
    rewrite Hinit. destruct chunks; [done|]. cbn in Hlen. nia.
Qed.

(** X22.  Lines 30-57 when the dev generator has no batch (an empty dev set, or
    a negative batch size).  The loop collects no prediction; with an
    empty [dev_y] the accuracy is NaN, the test on line 53 is false
    whatever accuracy the checkpoint recorded, and the run resumes with
    the checkpoint's epoch, best score and random states (the state of
    the CUDA generator when [args.cuda] is set and the host has CUDA).
    With a [dev_y] that is not empty, [score] fails its assertion. *)
Theorem resume_without_dev_batches cls args dev dev_y embedding opt w ck m
    wi :
  (arg_batch_size args < 0)%Z ∨ (dev = [] ∧ arg_batch_size args ≠ 0%Z) →
  fs w !! path_join (model_dir args) (resume args) = Some (Pickle ck) →
  DocReaderModel.__init__ (if resume_options args then ck_config ck else opt)
    embedding (Some (ck_state_dict ck)) w = (Ok m, wi) →
  ∃ w',
    resume_model cls args dev dev_y embedding opt w
    = (match dev_y with
       | [] => Ok (if resume_options args then ck_config ck else opt,
                   if ftruthy (reduce_lr args)
                   then lr_decay m (reduce_lr args) else m,
                   (ck_epoch ck + 1)%Z, ck_best_eval ck)
       | _ => Raise (AssertionError "len(pred) == len(truth)")
       end, w') ∧
    updates m = sd_updates (ck_state_dict ck) ∧
    train_loss m = sd_loss (ck_state_dict ck) ∧
    py_random w' = ck_random_state ck ∧
    torch_random w' = ck_torch_state ck ∧
    torch_cuda_random w'
    = (if cuda args
       then (λ _, ck_torch_cuda_state ck) <$> torch_cuda_random w
       else torch_cuda_random w) ∧
    fs w' = fs w.
Proof.
  intros Hno Hfile Hm. unfold resume_model.
  pose proof (init_inv _ _ _ _ _ _ Hm) as (_ & _ & _ & Ho & _ & Hu & Hl & _).
  pose proof (init_world _ _ _ _ _ _ Hm) as (Hfs1 & _ & _ & _ & Hcu1).
  unfold mbindM at 1. cbn [emit].
  unfold mbindM at 1. unfold torch_load at 1. cbn [fs add_log]. rewrite Hfile.
  unfold mbindM at 1. rewrite init_add_log, Hm. cbn [fst snd].
  unfold mbindM at 1. cbn.
  unfold mbindM at 1. cbn.
  assert (∀ w1 : World, ∃ w2,
            new_batches dev (arg_batch_size args) (cuda args) true false w1
            = (Ok {| batch_size := arg_batch_size args; eval := true;
                     gpu := cuda args; bert := false; pad_token := 0%Z;
                     data := [] |}, w2) ∧
            fs w2 = fs w1 ∧ py_random w2 = py_random w1 ∧
            torch_random w2 = torch_random w1 ∧
            torch_cuda_random w2 = torch_cuda_random w1) as Hnb.
  { intros w1. unfold new_batches.
    rewrite (init_no_batches dev (arg_batch_size args) (cuda args) false
               (py_random w1) Hno).
    by exists (set_py_random (py_random w1) w1). }
  unfold mbindM at 1.
  destruct (cuda args) eqn:Hc; cbn.
  all: unfold mbindM at 1.
  all: destruct (ftruthy (reduce_lr args)) eqn:Hr; cbn.
  all: try (unfold mbindM at 1; cbn).
  all: unfold mbindM at 1.
  all: match goal with
       | |- context [new_batches _ _ _ _ _ ?w1] =>
           destruct (Hnb w1) as (w2 & -> & Hfs & Hpy & Ht & Htc)
       end.
  all: unfold mbindM; rewrite evaluate_nil by done.
  all: unfold lift; destruct dev_y as [|y ys]; cbn.
  all: eexists; (split; [reflexivity|]).
  all: cbn; rewrite ?Hfs, ?Hpy, ?Ht, ?Htc; cbn; rewrite ?Hcu1; by split_and!.
Qed.
End runs.

(** ** The further properties on concrete inputs *)

Section further_concrete.
Import Torch BatchGen DocReaderModel Train Samples.
#[local] Existing Instance toy.
#[local] Existing Instance bert_uncased.
#[local] Existing Instance single32.

Lemma collate_train_batch0 :
  collate false cls train_batches train_batch0 = Ok train_tuple0.
Proof. reflexivity. Qed.

(** 0.1 is not a single-precision number: the tensor holds its
    neighbour 13421773 / 2^27. *)
Lemma collate_example_tf : collate false cls tf_batches [example_tf] = Ok tf_tuple.
Proof. vm_compute. reflexivity. Qed.

(** An id that does not fit 64 bits stops the iteration on line 286,
    before the feature length of an empty document is asked for on
    line 289. *)
Example overflow_comes_first :
  example 0 None ∈ dev_wide ∧
  Forall (λ x, ex_answer x = None ∧
               length (ex_features x) = length (ex_context x)) dev_wide ∧
  ∃ bg rest,
    BatchGen.__init__ dev_wide 2 false true false rng0 = Ok (bg, rng0) ∧
    BatchGen.__iter__ false cls bg
    = Raise (RuntimeError "Overflow when unpacking long") :: rest.
Proof.
  split; [apply list_elem_of_further, list_elem_of_here|].
  split; [repeat constructor|].
  eexists _, _. split; reflexivity.
Qed.

(** A generator that pins its tensors yields nothing on a host without
    CUDA. *)
Example pinning_needs_cuda :
  gpu gpu_batches = true ∧
  (∃ msg, collate false cls gpu_batches train_batch0 = Raise (RuntimeError msg)) ∧
  collate true cls gpu_batches train_batch0 = Ok train_tuple0.
Proof. split; [done|]. split; [eexists|]; reflexivity. Qed.

(** Two predictions against two labels, one of them right. *)
Lemma score_is_fraction_correct_witness :
  length [1; 0]%Z = length [1; 1]%Z ∧ [1; 1]%Z ≠ [] ∧
  ∃ q, score [1; 0]%Z [1; 1]%Z = Ok (Fin q) ∧
       (0 <= q)%Q ∧ (q <= 1)%Q ∧
       ((q == 1)%Q ↔ [1; 0]%Z = [1; 1]%Z) ∧
       ((q == 0)%Q ↔ Forall2 (λ p t : Z, p ≠ t) [1; 0]%Z [1; 1]%Z).
Proof.
  split; [reflexivity|]. split; [discriminate|].
  apply (score_is_fraction_correct [1; 0]%Z [1; 1]%Z); [reflexivity|discriminate].
Defined.

(** The masks of the first dev batch. *)
Lemma masks_mark_pad_ids_witness :
  collate false cls dev_batches batch0 = Ok tuple0 ∧
  let cw := max_list (length <$> (ex_context <$> batch0)) in
  let qw := max_list (length <$> (ex_question <$> batch0)) in
  let is_pad := λ tok : Z, bool_decide (tok = pad_token dev_batches) in
  ∀ i x, batch0 !! i = Some x →
    context_mask tuple0 !! i
    = Some ((is_pad <$> ex_context x)
              ++ replicate (cw - length (ex_context x)) true) ∧
    question_mask tuple0 !! i
    = Some ((is_pad <$> ex_question x)
              ++ replicate (qw - length (ex_question x)) true).
Proof.
  split; [reflexivity|].
  apply (masks_mark_pad_ids cls dev_batches batch0 tuple0 false). reflexivity.
Defined.

(** The labels of the first training batch. *)
Lemma training_tuple_carries_labels_witness :
  collate false cls train_batches train_batch0 = Ok train_tuple0 ∧
  ∃ ys : list Z,
    ex_answer <$> train_batch0 = Some <$> ys ∧
    answ train_tuple0 = Some ((λ y, Fin (inject_Z y)) <$> ys).
Proof.
  split; [reflexivity|].
  apply (training_tuple_carries_labels cls train_batches train_batch0 train_tuple0
           false).
  reflexivity.
Defined.

(** The first dev batch in BERT mode, on a host without CUDA. *)
Lemma bert_batches_collate_witness :
  bert bert_batches = true ∧
  zip_len batch0 = (if eval bert_batches then 8 else 9) ∧
  int64 (pad_token bert_batches) ∧
  Forall int64_ids batch0 ∧ Forall yes_no batch0 ∧
  (gpu bert_batches = true → false = true) ∧
  ∃ t, collate false cls bert_batches batch0 = Ok t ∧
       context_feature t = None ∧ context_tag t = None ∧ context_ent t = None.
Proof.
  assert (int64 (pad_token bert_batches)) as Hpad by (by apply (bool_decide_unpack _)).
  assert (Forall int64_ids batch0) as Hids by (by apply (bool_decide_unpack _)).
  assert (Forall yes_no batch0) as Hyn by (repeat constructor; by left).
  assert (gpu bert_batches = true → false = true) as Hgpu by (intros [=]).
  split; [reflexivity|]. split; [reflexivity|]. split; [exact Hpad|].
  split; [exact Hids|]. split; [exact Hyn|]. split; [exact Hgpu|].
  apply (bert_batches_collate false cls bert_batches batch0);
    [reflexivity|reflexivity|exact Hpad|exact Hids|exact Hyn|exact Hgpu].
Defined.

(** The feature tensor of the batch whose token has term frequency
    0.1: vectors of length 2, in single precision. *)
Lemma feature_rows_then_zero_rows_witness :
  bert tf_batches = false ∧
  Forall (λ x, Forall (λ v, length v = 2) (ex_features x)) [example_tf] ∧
  collate false cls tf_batches [example_tf] = Ok tf_tuple ∧
  tensor [Fin (1 # 10); Fin 1] = [Fin (13421773 # 134217728); Fin 1] ∧
  ∃ CF w,
    max_len (ex_context <$> [example_tf]) = Ok w ∧
    context_feature tf_tuple = Some CF ∧
    ∀ i x j, [example_tf] !! i = Some x →
      get2 CF i j
      = match ex_features x !! j with
        | Some v => Some (tensor v)
        | None => if decide (j < w) then Some (replicate 2 (Fin 0)) else None
        end.
Proof.
  assert (Forall (λ x, Forall (λ v : list float, length v = 2) (ex_features x))
            [example_tf]) as Hlen by (repeat constructor).
  split; [reflexivity|]. split; [exact Hlen|].
  split; [exact collate_example_tf|]. split; [vm_compute; reflexivity|].
  apply (feature_rows_then_zero_rows cls tf_batches [example_tf] tf_tuple 2 false);
    [reflexivity|exact Hlen|exact collate_example_tf].
Defined.

(** A dev set of two examples, one with an empty document. *)
Lemma empty_document_stops_evaluation_witness :
  (0 < 2)%Z ∧ example 0 None ∈ dev_empty_doc ∧
  ex_context (example 0 None) = [] ∧
  Forall (λ x, ex_answer x = None ∧
               length (ex_features x) = length (ex_context x) ∧
               Forall int64 (ex_context x)) dev_empty_doc ∧
  ∃ bg,
    BatchGen.__init__ dev_empty_doc 2 false true false rng0 = Ok (bg, rng0) ∧
    ∀ cuda, ∃ rest,
      BatchGen.__iter__ cuda cls bg
      = Raise (IndexError "list index out of range") :: rest.
Proof.
  assert (example 0 None ∈ dev_empty_doc) as Hin
    by (apply list_elem_of_further, list_elem_of_here).
  assert (Forall (λ x, ex_answer x = None ∧
                       length (ex_features x) = length (ex_context x) ∧
                       Forall int64 (ex_context x))
            dev_empty_doc) as Hall
    by (repeat constructor; by apply (bool_decide_unpack _)).
  split; [lia|]. split; [exact Hin|]. split; [reflexivity|]. split; [exact Hall|].
  apply (empty_document_stops_evaluation cls dev_empty_doc 2 false rng0
           (example 0 None)); [lia|exact Hin|reflexivity|exact Hall].
Defined.

(** The three training examples on a host without CUDA: every batch of
    the shuffled generator is collated. *)
Lemma aligned_data_yields_every_batch_witness :
  (0 < 2)%Z ∧
  Forall (λ x, if false then ex_answer x = None
               else ex_answer x = Some 0%Z ∨ ex_answer x = Some 1%Z) train3 ∧
  Forall int64_ids train3 ∧
  (false = true → int64 pad_token_id) ∧
  (false = true → false = true) ∧
  (false = false →
   pos_size cls = Some 3 ∧ ner_size cls = Some 2 ∧
   Forall (aligned 3 2 2) train3) ∧
  ∃ bg g' tuples,
    BatchGen.__init__ train3 2 false false false rng0 = Ok (bg, g') ∧
    BatchGen.__iter__ false cls bg = Ok <$> tuples ∧
    length tuples = __len__ bg ∧
    Forall2 (λ t b, length (context_id t) = length b ∧
                    text t = ex_text <$> b)
            tuples (BatchGen.data bg).
Proof.
  assert (Forall (λ x, if false then ex_answer x = None
                       else ex_answer x = Some 0%Z ∨ ex_answer x = Some 1%Z)
            train3) as Hans
    by (repeat constructor; by (left + right)).
  assert (Forall int64_ids train3) as Hids by (by apply (bool_decide_unpack _)).
  assert (false = true → int64 pad_token_id) as Hpad by (intros [=]).
  assert (false = true → false = true) as Hgpu by (intros [=]).
  assert (false = false →
          pos_size cls = Some 3 ∧ ner_size cls = Some 2 ∧
          Forall (aligned 3 2 2) train3) as Hal.
  { intros _. split; [reflexivity|]. split; [reflexivity|].
    repeat constructor; simpl; lia || discriminate. }
  split; [lia|]. split; [exact Hans|]. split; [exact Hids|].
  split; [exact Hpad|]. split; [exact Hgpu|]. split; [exact Hal|].
  apply (aligned_data_yields_every_batch false cls train3 2 false false false rng0
           3 2 2); [lia|exact Hans|exact Hids|exact Hpad|exact Hgpu|exact Hal].
Defined.

(** A dev set that is already sorted. *)
Lemma evaluation_keeps_sorted_order_witness :
  (0 < 2)%Z ∧ StronglySorted (key_le key) dev_sorted ∧
  ∃ bg, BatchGen.__init__ dev_sorted 2 false true false rng0 = Ok (bg, rng0) ∧
        concat (BatchGen.data bg) = dev_sorted.
Proof.
  assert (StronglySorted (key_le key) dev_sorted) as Hs
    by (repeat constructor; unfold key_le, key; simpl; lia).
  split; [lia|]. split; [exact Hs|].
  apply (evaluation_keeps_sorted_order dev_sorted 2 false false rng0); [lia|exact Hs].
Defined.

(** Batch size -2. *)
Lemma nonpositive_batch_size_gives_no_batch_witness :
  (-2 ≤ 0)%Z ∧
  BatchGen.__init__ dev3 (-2) false true false rng0
  = if decide (-2 = 0)%Z
    then Raise (ValueError "range() arg 3 must not be zero")
    else Ok ({| batch_size := -2; eval := true; gpu := false; bert := false;
                pad_token := if false then pad_token_id else 0%Z;
                data := [] |}, rng0).
Proof.
  split; [lia|].
  apply (nonpositive_batch_size_gives_no_batch dev3 (-2) false true false rng0). lia.
Defined.

(** The dev examples whose document has two tokens. *)
Lemma equal_lengths_keep_input_order_witness :
  (0 < 2)%Z ∧
  ∃ bg, BatchGen.__init__ dev3 2 false true false rng0 = Ok (bg, rng0) ∧
        filter (λ x, key x = 2) (concat (BatchGen.data bg))
        = filter (λ x, key x = 2) dev3.
Proof.
  split; [lia|].
  apply (equal_lengths_keep_input_order dev3 2 false false rng0 2). lia.
Defined.

Example train_batches_all_yield :
  Forall (λ next, is_ok next = true)
         (BatchGen.__iter__ (cuda_available world0) cls train_batches).
Proof. repeat constructor. Qed.

(** Two training batches, log interval 3. *)
Lemma train_loop_updates_once_per_batch_witness :
  eval train_batches = false ∧
  log_per_updates args0 ≠ 0%Z ∧
  Forall (λ next, is_ok next = true)
         (BatchGen.__iter__ (cuda_available world0) cls train_batches) ∧
  is_Some (opt model0 !! "grad_clipping") ∧
  ∃ m w',
    train_loop cls args0 model0 train_batches world0 = (Ok m, w') ∧
    updates m = (updates model0 + Z.of_nat (__len__ train_batches))%Z ∧
    opt m = opt model0 ∧
    fs w' = fs world0 ∧ py_random w' = py_random world0 ∧ io w' = io world0 ∧
    log w'
    = log world0 ++
      replicate
        (length (filter (λ i, (Z.of_nat i mod log_per_updates args0 = 0)%Z)
                   (seq 0 (__len__ train_batches))))
        {| lr_logger := "__main__"; lr_level := INFO;
           lr_msg := "> epoch [{0:2}] updates[{1:6}] train loss[{2:.5f}] remaining[{3}]" |}.
Proof.
  assert (is_Some (opt model0 !! "grad_clipping")) as Hgc by (by eexists).
  split; [reflexivity|]. split; [discriminate|].
  split; [exact train_batches_all_yield|]. split; [exact Hgc|].
  apply (train_loop_updates_once_per_batch cls args0 model0 train_batches world0);
    [reflexivity|discriminate|exact train_batches_all_yield|exact Hgc].
Defined.


(** Resuming from the checkpoint that recorded accuracy 1/3, with an
    empty dev set. *)
Lemma resume_without_dev_batches_witness :
  ((arg_batch_size args_resume < 0)%Z ∨
   ([] = @nil Example ∧ arg_batch_size args_resume ≠ 0%Z)) ∧
  fs world_resume !! path_join (model_dir args_resume) (resume args_resume)
  = Some (Pickle checkpoint0) ∧
  DocReaderModel.__init__
    (if resume_options args_resume then ck_config checkpoint0 else opt0)
    None (Some (ck_state_dict checkpoint0)) world_resume
  = (Ok model0, world_resume) ∧
  ∃ w',
    resume_model cls args_resume [] [] None opt0 world_resume
    = (Ok (if resume_options args_resume then ck_config checkpoint0 else opt0,
           if ftruthy (reduce_lr args_resume)
           then lr_decay model0 (reduce_lr args_resume) else model0,
           (ck_epoch checkpoint0 + 1)%Z, ck_best_eval checkpoint0), w') ∧
    updates model0 = sd_updates (ck_state_dict checkpoint0) ∧
    train_loss model0 = sd_loss (ck_state_dict checkpoint0) ∧
    py_random w' = ck_random_state checkpoint0 ∧
    torch_random w' = ck_torch_state checkpoint0 ∧
    torch_cuda_random w'
    = (if cuda args_resume
       then (λ _, ck_torch_cuda_state checkpoint0) <$> torch_cuda_random world_resume
       else torch_cuda_random world_resume) ∧
    fs w' = fs world_resume.
Proof.
  assert ((arg_batch_size args_resume < 0)%Z ∨
          ([] = @nil Example ∧ arg_batch_size args_resume ≠ 0%Z)) as Hno
    by (right; split; [reflexivity|discriminate]).
  split; [exact Hno|]. split; [reflexivity|]. split; [reflexivity|].
  apply (resume_without_dev_batches cls args_resume [] [] None opt0 world_resume
           checkpoint0 model0 world_resume); [exact Hno|reflexivity|reflexivity].
Defined.

(** Saving [model0] in a world where [torch.save] completes. *)
Lemma checkpoint_restores_counters_witness :
  is_Some (torch_cuda_random world0) ∧
  save_succeeds world0 ∧
  ∃ w' c,
    save model0 "models/checkpoint_epoch_5.pt" 5 [Fin (1 # 2); Fin (2 # 3)] world0
    = (Ok (), w') ∧
    torch_load "models/checkpoint_epoch_5.pt" w' = (Ok c, w') ∧
    ck_epoch c = 5%Z ∧ ck_accuracy c = Fin (1 # 2) ∧ ck_best_eval c = Fin (2 # 3) ∧
    ∀ m w1 w2,
      DocReaderModel.__init__ (ck_config c) None (Some (ck_state_dict c)) w1
      = (Ok m, w2) →
      opt m = opt model0 ∧
      updates m = updates model0 ∧
      train_loss m = train_loss model0 ∧
      build_network (opt model0) None (Some (network model0)) (torch_random w1)
      = (Ok (network m), torch_random w2).
Proof.
  assert (is_Some (torch_cuda_random world0)) as Hc by (by eexists).
  split; [exact Hc|]. split; [exact I|].
  apply (checkpoint_restores_counters model0 "models/checkpoint_epoch_5.pt" 5
           (Fin (1 # 2)) (Fin (2 # 3)) None world0); [exact Hc|exact I].
Defined.
End further_concrete.

(** ** Runs that move torch's generator *)

Section counting_concrete.
Import Torch BatchGen DocReaderModel Train Samples.
#[local] Existing Instance counting.
#[local] Existing Instance bert_uncased.
#[local] Existing Instance single32.

Lemma init_counting :
  DocReaderModel.__init__ opt0 None None world_counting
  = (Ok model_counting, @set_torch_random counting 6 None world_counting).
Proof. reflexivity. Qed.

(** Asking for CUDA on a host that has none stops the construction of
    the model before the network is built. *)
Example cuda_option_needs_cuda :
  ∃ e, DocReaderModel.__init__ opt_cuda None None world_counting
       = (Raise e, world_counting).
Proof. eexists. reflexivity. Qed.

(** Without ['grad_clipping'] the first update raises after the forward
    pass has drawn from torch's generator; the weights have not moved
    and the counter is where it was. *)
Example update_stops_at_clipping :
  update model_no_clipping train_tuple0 world_counting
  = (Raise (KeyError "grad_clipping"), model_no_clipping,
     @set_torch_random counting 6 None world_counting).
Proof. reflexivity. Qed.

(** The two training batches with log interval 0, on the host without
    CUDA: the generator has made its sixth draw and the weights have
    taken their first step when the loop raises. *)
Lemma zero_log_interval_stops_training_witness :
  log_per_updates args_zero_log = 0%Z ∧
  eval train_batches = false ∧
  BatchGen.data train_batches = train_batch0 :: [[example 3 (Some 1%Z)]] ∧
  collate (cuda_available world_counting) cls train_batches train_batch0
  = Ok train_tuple0 ∧
  is_Some (opt model_counting !! "grad_clipping") ∧
  ∃ target m1 w1,
    (network m1 = 1 ∧ torch_random w1 = 6 ∧ torch_random world_counting = 5) ∧
    answ train_tuple0 = Some target ∧
    update model_counting train_tuple0 world_counting = (Ok (), m1, w1) ∧
    updates m1 = (updates model_counting + 1)%Z ∧
    (let '(_, _, _, s, c) :=
       train_step (opt model_counting) (network model_counting)
         (optimizer model_counting) (inputs_of train_tuple0) target
         (torch_random world_counting) (torch_cuda_random world_counting) in
     torch_random w1 = s ∧ torch_cuda_random w1 = c) ∧
    train_loop cls args_zero_log model_counting train_batches world_counting
    = (Raise ZeroDivisionError, w1) ∧
    fs w1 = fs world_counting ∧ log w1 = log world_counting ∧
    py_random w1 = py_random world_counting.
Proof.
  assert (is_Some (opt model_counting !! "grad_clipping")) as Hgc by (by eexists).
  split; [reflexivity|]. split; [reflexivity|]. split; [reflexivity|].
  split; [reflexivity|]. split; [exact Hgc|].
  destruct (zero_log_interval_stops_training cls args_zero_log model_counting
              train_batches world_counting train_batch0
              [[example 3 (Some 1%Z)]] train_tuple0)
    as (target & m1 & w1 & H); [reflexivity..|exact Hgc|].
  exists target, m1, w1. split; [|exact H].
  destruct H as (Ha & Hu & _).
  injection Ha as <-. injection Hu as <- <-. by split_and!.
Defined.

(** A fresh run with [epochs = 0] on the same host: the construction of
    the network has taken the sixth draw. *)
Lemma no_epochs_returns_zero_witness :
  resume args_no_epochs = EmptyString ∧
  (epochs args_no_epochs ≤ 0)%Z ∧
  DocReaderModel.__init__ opt0 None None world_counting
  = (Ok model_counting, @set_torch_random counting 6 None world_counting) ∧
  ∃ w',
    main cls args_no_epochs train3 dev3 [0; 1; 1]%Z None opt0 world_counting
    = (Ok (Fin 0), w') ∧
    fs w' = fs world_counting ∧ py_random w' = py_random world_counting ∧
    io w' = io world_counting ∧
    torch_random w' = torch_random (@set_torch_random counting 6 None world_counting) ∧
    build_network opt0 None None (torch_random world_counting)
    = (Ok (network model_counting),
       torch_random (@set_torch_random counting 6 None world_counting)) ∧
    torch_cuda_random w' = torch_cuda_random world_counting.
Proof.
  split; [reflexivity|]. split; [simpl; lia|]. split; [exact init_counting|].
  apply (no_epochs_returns_zero cls args_no_epochs train3 dev3 [0; 1; 1]%Z
           None opt0 world_counting model_counting
           (@set_torch_random counting 6 None world_counting));
    [reflexivity|simpl; lia|exact init_counting].
Defined.
End counting_concrete.
